(** * A shallow embedding of the NES CPU core of [main.cpp]

    The class [NESemulator] becomes a record of its fields; every member
    function becomes a function on that record (explicit state passing).
    Fixed-width C++ integers are integers of [Z] whose wrap-around is
    written out with [uint8] and [ushort] at the places where the C++
    code stores into a variable of that width.  The two standard output
    streams are part of the state, as lists of the lines written to them,
    most recent line first. *)

From Stdlib Require Import ZArith Lia Bool String.
From stdpp Require Import base list.

Local Open Scope string_scope.
Local Open Scope Z_scope.

(** ** Output lines *)

Inductive output : Type :=
| InvalidMemoryRead (address : Z)
| UnknownOpcode (opcode : Z)
| FailedToOpenROM (path : string)
| FailedToReadROM (path : string)
| StartingEmulator
| TraceLine (pc opcode a x y sp : Z) (n v d i z c : bool) (cycles : Z).

(** ** The emulator state *)

Record NESemulator : Type := mkNES {
  _loggingEnabled : bool;
  _filePath : string;
  _programCounter : Z;
  _A : Z;
  _X : Z;
  _Y : Z;
  _addressBus : Z;
  _header : list Z;
  _ram : list Z;
  _rom : list Z;
  _flagCarry : bool;
  _flagZero : bool;
  _flagInterruptDisable : bool;
  _flagDecimal : bool;
  _flagOverflow : bool;
  _flagNegative : bool;
  _stackPointer : Z;
  _cpuHalted : bool;
  _cycleCount : Z;
  cerr : list output;
  cout : list output
}.

Definition set_programCounter (v : Z) (s : NESemulator) : NESemulator :=
  mkNES (_loggingEnabled s) (_filePath s) v (_A s) (_X s) (_Y s)
    (_addressBus s) (_header s) (_ram s) (_rom s) (_flagCarry s) (_flagZero s)
    (_flagInterruptDisable s) (_flagDecimal s) (_flagOverflow s)
    (_flagNegative s) (_stackPointer s) (_cpuHalted s) (_cycleCount s)
    (cerr s) (cout s).

Definition set_A (v : Z) (s : NESemulator) : NESemulator :=
  mkNES (_loggingEnabled s) (_filePath s) (_programCounter s) v (_X s) (_Y s)
    (_addressBus s) (_header s) (_ram s) (_rom s) (_flagCarry s) (_flagZero s)
    (_flagInterruptDisable s) (_flagDecimal s) (_flagOverflow s)
    (_flagNegative s) (_stackPointer s) (_cpuHalted s) (_cycleCount s)
    (cerr s) (cout s).

Definition set_X (v : Z) (s : NESemulator) : NESemulator :=
  mkNES (_loggingEnabled s) (_filePath s) (_programCounter s) (_A s) v (_Y s)
    (_addressBus s) (_header s) (_ram s) (_rom s) (_flagCarry s) (_flagZero s)
    (_flagInterruptDisable s) (_flagDecimal s) (_flagOverflow s)
    (_flagNegative s) (_stackPointer s) (_cpuHalted s) (_cycleCount s)
    (cerr s) (cout s).

Definition set_Y (v : Z) (s : NESemulator) : NESemulator :=
  mkNES (_loggingEnabled s) (_filePath s) (_programCounter s) (_A s) (_X s) v
    (_addressBus s) (_header s) (_ram s) (_rom s) (_flagCarry s) (_flagZero s)
    (_flagInterruptDisable s) (_flagDecimal s) (_flagOverflow s)
    (_flagNegative s) (_stackPointer s) (_cpuHalted s) (_cycleCount s)
    (cerr s) (cout s).

Definition set_addressBus (v : Z) (s : NESemulator) : NESemulator :=
  mkNES (_loggingEnabled s) (_filePath s) (_programCounter s) (_A s) (_X s)
    (_Y s) v (_header s) (_ram s) (_rom s) (_flagCarry s) (_flagZero s)
    (_flagInterruptDisable s) (_flagDecimal s) (_flagOverflow s)
    (_flagNegative s) (_stackPointer s) (_cpuHalted s) (_cycleCount s)
    (cerr s) (cout s).

Definition set_header (v : list Z) (s : NESemulator) : NESemulator :=
  mkNES (_loggingEnabled s) (_filePath s) (_programCounter s) (_A s) (_X s)
    (_Y s) (_addressBus s) v (_ram s) (_rom s) (_flagCarry s) (_flagZero s)
    (_flagInterruptDisable s) (_flagDecimal s) (_flagOverflow s)
    (_flagNegative s) (_stackPointer s) (_cpuHalted s) (_cycleCount s)
    (cerr s) (cout s).

Definition set_ram (v : list Z) (s : NESemulator) : NESemulator :=
  mkNES (_loggingEnabled s) (_filePath s) (_programCounter s) (_A s) (_X s)
    (_Y s) (_addressBus s) (_header s) v (_rom s) (_flagCarry s) (_flagZero s)
    (_flagInterruptDisable s) (_flagDecimal s) (_flagOverflow s)
    (_flagNegative s) (_stackPointer s) (_cpuHalted s) (_cycleCount s)
    (cerr s) (cout s).

Definition set_rom (v : list Z) (s : NESemulator) : NESemulator :=
  mkNES (_loggingEnabled s) (_filePath s) (_programCounter s) (_A s) (_X s)
    (_Y s) (_addressBus s) (_header s) (_ram s) v (_flagCarry s) (_flagZero s)
    (_flagInterruptDisable s) (_flagDecimal s) (_flagOverflow s)
    (_flagNegative s) (_stackPointer s) (_cpuHalted s) (_cycleCount s)
    (cerr s) (cout s).

Definition set_flagCarry (v : bool) (s : NESemulator) : NESemulator :=
  mkNES (_loggingEnabled s) (_filePath s) (_programCounter s) (_A s) (_X s)
    (_Y s) (_addressBus s) (_header s) (_ram s) (_rom s) v (_flagZero s)
    (_flagInterruptDisable s) (_flagDecimal s) (_flagOverflow s)
    (_flagNegative s) (_stackPointer s) (_cpuHalted s) (_cycleCount s)
    (cerr s) (cout s).

Definition set_flagZero (v : bool) (s : NESemulator) : NESemulator :=
  mkNES (_loggingEnabled s) (_filePath s) (_programCounter s) (_A s) (_X s)
    (_Y s) (_addressBus s) (_header s) (_ram s) (_rom s) (_flagCarry s) v
    (_flagInterruptDisable s) (_flagDecimal s) (_flagOverflow s)
    (_flagNegative s) (_stackPointer s) (_cpuHalted s) (_cycleCount s)
    (cerr s) (cout s).

Definition set_flagInterruptDisable (v : bool) (s : NESemulator) : NESemulator :=
  mkNES (_loggingEnabled s) (_filePath s) (_programCounter s) (_A s) (_X s)
    (_Y s) (_addressBus s) (_header s) (_ram s) (_rom s) (_flagCarry s)
    (_flagZero s) v (_flagDecimal s) (_flagOverflow s) (_flagNegative s)
    (_stackPointer s) (_cpuHalted s) (_cycleCount s) (cerr s) (cout s).

Definition set_flagDecimal (v : bool) (s : NESemulator) : NESemulator :=
  mkNES (_loggingEnabled s) (_filePath s) (_programCounter s) (_A s) (_X s)
    (_Y s) (_addressBus s) (_header s) (_ram s) (_rom s) (_flagCarry s)
    (_flagZero s) (_flagInterruptDisable s) v (_flagOverflow s)
    (_flagNegative s) (_stackPointer s) (_cpuHalted s) (_cycleCount s)
    (cerr s) (cout s).

Definition set_flagOverflow (v : bool) (s : NESemulator) : NESemulator :=
  mkNES (_loggingEnabled s) (_filePath s) (_programCounter s) (_A s) (_X s)
    (_Y s) (_addressBus s) (_header s) (_ram s) (_rom s) (_flagCarry s)
    (_flagZero s) (_flagInterruptDisable s) (_flagDecimal s) v
    (_flagNegative s) (_stackPointer s) (_cpuHalted s) (_cycleCount s)
    (cerr s) (cout s).

Definition set_flagNegative (v : bool) (s : NESemulator) : NESemulator :=
  mkNES (_loggingEnabled s) (_filePath s) (_programCounter s) (_A s) (_X s)
    (_Y s) (_addressBus s) (_header s) (_ram s) (_rom s) (_flagCarry s)
    (_flagZero s) (_flagInterruptDisable s) (_flagDecimal s) (_flagOverflow s)
    v (_stackPointer s) (_cpuHalted s) (_cycleCount s) (cerr s) (cout s).

Definition set_stackPointer (v : Z) (s : NESemulator) : NESemulator :=
  mkNES (_loggingEnabled s) (_filePath s) (_programCounter s) (_A s) (_X s)
    (_Y s) (_addressBus s) (_header s) (_ram s) (_rom s) (_flagCarry s)
    (_flagZero s) (_flagInterruptDisable s) (_flagDecimal s) (_flagOverflow s)
    (_flagNegative s) v (_cpuHalted s) (_cycleCount s) (cerr s) (cout s).

Definition set_cpuHalted (v : bool) (s : NESemulator) : NESemulator :=
  mkNES (_loggingEnabled s) (_filePath s) (_programCounter s) (_A s) (_X s)
    (_Y s) (_addressBus s) (_header s) (_ram s) (_rom s) (_flagCarry s)
    (_flagZero s) (_flagInterruptDisable s) (_flagDecimal s) (_flagOverflow s)
    (_flagNegative s) (_stackPointer s) v (_cycleCount s) (cerr s) (cout s).

Definition set_cycleCount (v : Z) (s : NESemulator) : NESemulator :=
  mkNES (_loggingEnabled s) (_filePath s) (_programCounter s) (_A s) (_X s)
    (_Y s) (_addressBus s) (_header s) (_ram s) (_rom s) (_flagCarry s)
    (_flagZero s) (_flagInterruptDisable s) (_flagDecimal s) (_flagOverflow s)
    (_flagNegative s) (_stackPointer s) (_cpuHalted s) v (cerr s) (cout s).

Definition set_cerr (v : list output) (s : NESemulator) : NESemulator :=
  mkNES (_loggingEnabled s) (_filePath s) (_programCounter s) (_A s) (_X s)
    (_Y s) (_addressBus s) (_header s) (_ram s) (_rom s) (_flagCarry s)
    (_flagZero s) (_flagInterruptDisable s) (_flagDecimal s) (_flagOverflow s)
    (_flagNegative s) (_stackPointer s) (_cpuHalted s) (_cycleCount s) v
    (cout s).

Definition set_cout (v : list output) (s : NESemulator) : NESemulator :=
  mkNES (_loggingEnabled s) (_filePath s) (_programCounter s) (_A s) (_X s)
    (_Y s) (_addressBus s) (_header s) (_ram s) (_rom s) (_flagCarry s)
    (_flagZero s) (_flagInterruptDisable s) (_flagDecimal s) (_flagOverflow s)
    (_flagNegative s) (_stackPointer s) (_cpuHalted s) (_cycleCount s)
    (cerr s) v.

(** ** Fixed-width arithmetic *)

Definition uint8 (x : Z) : Z := x mod 256.
Definition ushort (x : Z) : Z := x mod 65536.
Definition b2z (b : bool) : Z := if b then 1 else 0.
Definition nonzero (x : Z) : bool := negb (x =? 0).

(** C++ array indexing.  With arrays of the declared sizes every index the
    program forms is in range: RAM indices are reduced modulo 0x800 and ROM
    indices are [address - 0x8000] for a 16-bit address from 0x8000 on.
    Outside of the range the model reads 0 and ignores stores. *)
Definition cell (a : list Z) (i : Z) : Z := nth (Z.to_nat i) a 0.
Definition store (a : list Z) (i : Z) (v : Z) : list Z := <[Z.to_nat i := v]> a.

(** Statements that recur in every case of the dispatcher. *)
Definition incPC (s : NESemulator) : NESemulator :=
  set_programCounter (ushort (_programCounter s + 1)) s.
Definition addCycles (n : Z) (s : NESemulator) : NESemulator :=
  set_cycleCount (_cycleCount s + n) s.

(** ** Address space *)

Definition readMemory (address : Z) (s : NESemulator) : Z * NESemulator :=
  if address <? 0x800 then
    (cell (_ram s) (address mod 0x800), s)
  else if address >=? 0x8000 then
    (cell (_rom s) (address - 0x8000), s)
  else
    (0, set_cerr (InvalidMemoryRead address :: cerr s) s).

Definition writeMemory (address value : Z) (s : NESemulator) : NESemulator :=
  set_ram (store (_ram s) (address mod 0x800) value) s.

(** ** Stack *)

Definition pushStack (value : Z) (s : NESemulator) : NESemulator :=
  let s := writeMemory (ushort (0x0100 + _stackPointer s)) value s in
  set_stackPointer (uint8 (_stackPointer s - 1)) s.

Definition pullStack (s : NESemulator) : Z * NESemulator :=
  let s := set_stackPointer (uint8 (_stackPointer s + 1)) s in
  readMemory (ushort (0x0100 + _stackPointer s)) s.

(** ** Bit operations of the C++ source, with its operator spelling *)

Declare Scope cpp_scope.
Delimit Scope cpp_scope with cpp.
Infix "<<" := Z.shiftl (at level 40, left associativity) : cpp_scope.
Infix ">>" := Z.shiftr (at level 40, left associativity) : cpp_scope.
Infix ".&" := Z.land (at level 42, left associativity) : cpp_scope.
Infix ".^" := Z.lxor (at level 44, left associativity) : cpp_scope.
Infix ".|" := Z.lor (at level 46, left associativity) : cpp_scope.
Local Open Scope cpp_scope.

(** [static_cast<int8_t>] of a byte, and the hand-written sign extension
    [if (temp > 127) signedVal = temp - 256] of the branch cases. *)
Definition int8 (x : Z) : Z := if uint8 x >? 127 then uint8 x - 256 else uint8 x.
Definition signExtend (temp : Z) : Z := if temp >? 127 then temp - 256 else temp.

(** ** Addressing helpers *)

Definition readOperandsAbsoluteAddress (s : NESemulator) : NESemulator :=
  let '(low, s) := readMemory (_programCounter s) s in
  let s := incPC s in
  let '(high, s) := readMemory (_programCounter s) s in
  let s := incPC s in
  set_addressBus (uint8 (ushort ((high << 8) .| low))) s.

Definition readOperandsIndirectAddressedXIndexed (s : NESemulator) : NESemulator :=
  let '(zpAddr, s) := readMemory (_programCounter s) s in
  let s := incPC s in
  let '(effectiveAddrLow, s) := readMemory (ushort ((zpAddr + _X s) .& 0x00FF)) s in
  let '(effectiveAddrHigh, s) := readMemory (ushort ((zpAddr + _X s + 1) .& 0x00FF)) s in
  set_addressBus (uint8 (ushort ((effectiveAddrHigh << 8) .| effectiveAddrLow))) s.

(** ** Operations shared by several opcodes *)

Definition opASL (address input : Z) (s : NESemulator) : NESemulator :=
  let s := set_flagCarry (input >? 127) s in
  let input := uint8 (input << 1) in
  let s := writeMemory address input s in
  let s := set_flagNegative (input >? 127) s in
  set_flagZero (input =? 0) s.

Definition opROL (address input : Z) (s : NESemulator) : NESemulator :=
  let futureFlagCarry := input >? 127 in
  let input := uint8 (input << 1) in
  let input := if _flagCarry s then uint8 (input .| 1) else input in
  let s := writeMemory address input s in
  let s := set_flagCarry futureFlagCarry s in
  let s := set_flagNegative (input >? 127) s in
  set_flagZero (input =? 0) s.

Definition opINC (address input : Z) (s : NESemulator) : NESemulator :=
  let input := uint8 (input + 1) in
  let s := writeMemory address input s in
  let s := set_flagNegative (input >? 127) s in
  set_flagZero (input =? 0) s.

Definition opDEC (address input : Z) (s : NESemulator) : NESemulator :=
  let input := uint8 (input - 1) in
  let s := writeMemory address input s in
  let s := set_flagNegative (input >? 127) s in
  set_flagZero (input =? 0) s.

Definition opORA (input : Z) (s : NESemulator) : NESemulator :=
  let s := set_A (uint8 (_A s .| input)) s in
  let s := set_flagNegative (_A s >? 127) s in
  set_flagZero (_A s =? 0) s.

Definition opAND (input : Z) (s : NESemulator) : NESemulator :=
  let s := set_A (uint8 (_A s .& input)) s in
  let s := set_flagNegative (_A s >? 127) s in
  set_flagZero (_A s =? 0) s.

Definition opEOR (input : Z) (s : NESemulator) : NESemulator :=
  let s := set_A (uint8 (_A s .^ input)) s in
  let s := set_flagNegative (_A s >? 127) s in
  set_flagZero (_A s =? 0) s.

Definition opADC (input : Z) (s : NESemulator) : NESemulator :=
  let sum := _A s + input + (if _flagCarry s then 1 else 0) in
  let s := set_flagCarry (sum >? 0xFF) s in
  let s := set_flagOverflow
             (nonzero (Z.lnot (_A s .^ input) .& (_A s .^ sum) .& 0x80)) s in
  let s := set_A (uint8 sum) s in
  let s := set_flagNegative (_A s >? 127) s in
  set_flagZero (_A s =? 0) s.

Definition opSBC (input : Z) (s : NESemulator) : NESemulator :=
  let intermediate :=
    ushort (ushort (_A s) + (ushort (Z.lnot input) .& 0xFF)
            + (if _flagCarry s then 1 else 0)) in
  let result := uint8 (intermediate .& 0xFF) in
  let s := set_flagCarry (nonzero (intermediate .& 0x100)) s in
  let s := set_flagOverflow
             (nonzero ((_A s .^ result) .& (_A s .^ input) .& 0x80)) s in
  let s := set_A result s in
  let s := set_flagNegative (nonzero (_A s .& 0x80)) s in
  set_flagZero (_A s =? 0) s.

Definition opCMP (input : Z) (s : NESemulator) : NESemulator :=
  let diff := uint8 (_A s - input) in
  let s := set_flagCarry (_A s >=? input) s in
  let s := set_flagZero (_A s =? input) s in
  set_flagNegative (nonzero (diff .& 0x80)) s.

Definition opBIT (input : Z) (s : NESemulator) : NESemulator :=
  let s := set_flagZero ((_A s .& input) =? 0) s in
  let s := set_flagNegative (nonzero (input .& 0x80)) s in
  set_flagOverflow (nonzero (input .& 0x40)) s.

(** ** The cases of [handleOpcode]

    One definition per [case] label of the [switch], in the order of the
    source and named after the label's comment.  When a case runs, the
    program counter already points past the opcode byte. *)

Definition HLT (s : NESemulator) : NESemulator :=
  set_cpuHalted true s.

Definition LDY_Immediate (s : NESemulator) : NESemulator :=
  let '(v, s) := readMemory (_programCounter s) s in
  let s := set_Y v s in
  let s := set_flagZero (_Y s =? 0) s in
  let s := set_flagNegative (_Y s >? 127) s in
  let s := incPC s in
  addCycles 2 s.

Definition LDX_Immediate (s : NESemulator) : NESemulator :=
  let '(v, s) := readMemory (_programCounter s) s in
  let s := set_X v s in
  let s := set_flagZero (_X s =? 0) s in
  let s := set_flagNegative (_X s >? 127) s in
  let s := incPC s in
  addCycles 2 s.

Definition LDA_ZeroPage (s : NESemulator) : NESemulator :=
  let '(zp, s) := readMemory (_programCounter s) s in
  let s := incPC s in
  let '(v, s) := readMemory zp s in
  let s := set_A v s in
  let s := set_flagZero (_A s =? 0) s in
  let s := set_flagNegative (nonzero (_A s .& 0x80)) s in
  addCycles 3 s.

Definition LDA_Immediate (s : NESemulator) : NESemulator :=
  let '(v, s) := readMemory (_programCounter s) s in
  let s := set_A v s in
  let s := set_flagZero (_A s =? 0) s in
  let s := set_flagNegative (_A s >? 127) s in
  let s := incPC s in
  addCycles 2 s.

Definition LDA_Absolute (s : NESemulator) : NESemulator :=
  let '(low, s) := readMemory (_programCounter s) s in
  let s := incPC s in
  let '(high, s) := readMemory (_programCounter s) s in
  let s := incPC s in
  let addr := ushort ((high << 8) .| low) in
  let '(v, s) := readMemory addr s in
  let s := set_A v s in
  let s := set_flagZero (_A s =? 0) s in
  let s := set_flagNegative (nonzero (_A s .& 0x80)) s in
  addCycles 4 s.

Definition STA_ZeroPage (s : NESemulator) : NESemulator :=
  let '(temp, s) := readMemory (_programCounter s) s in
  let s := incPC s in
  let s := writeMemory temp (_A s) s in
  addCycles 3 s.

Definition STA_Absolute (s : NESemulator) : NESemulator :=
  let '(tempLow, s) := readMemory (_programCounter s) s in
  let s := incPC s in
  let '(tempHigh, s) := readMemory (_programCounter s) s in
  let s := incPC s in
  let s := writeMemory (ushort ((tempHigh << 8) .| tempLow)) (_A s) s in
  addCycles 4 s.

Definition STX_ZeroPage (s : NESemulator) : NESemulator :=
  let '(temp, s) := readMemory (_programCounter s) s in
  let s := incPC s in
  let s := writeMemory temp (_X s) s in
  addCycles 3 s.

Definition STX_Absolute (s : NESemulator) : NESemulator :=
  let '(tempLow, s) := readMemory (_programCounter s) s in
  let s := incPC s in
  let '(tempHigh, s) := readMemory (_programCounter s) s in
  let s := incPC s in
  let s := writeMemory (ushort ((tempHigh << 8) .| tempLow)) (_X s) s in
  addCycles 4 s.

Definition STY_ZeroPage (s : NESemulator) : NESemulator :=
  let '(temp, s) := readMemory (_programCounter s) s in
  let s := incPC s in
  let s := writeMemory temp (_Y s) s in
  addCycles 3 s.

Definition STY_Absolute (s : NESemulator) : NESemulator :=
  let '(tempLow, s) := readMemory (_programCounter s) s in
  let s := incPC s in
  let '(tempHigh, s) := readMemory (_programCounter s) s in
  let s := incPC s in
  let s := writeMemory (ushort ((tempHigh << 8) .| tempLow)) (_Y s) s in
  addCycles 4 s.

Definition BPL (s : NESemulator) : NESemulator :=
  let '(temp, s) := readMemory (_programCounter s) s in
  let s := incPC s in
  let s := addCycles 2 s in
  if negb (_flagNegative s) then
    let signedVal := signExtend temp in
    let s := set_programCounter (ushort (_programCounter s + signedVal)) s in
    addCycles 3 s
  else
    addCycles 2 s.

Definition BMI (s : NESemulator) : NESemulator :=
  let '(temp, s) := readMemory (_programCounter s) s in
  let s := incPC s in
  let s := addCycles 2 s in
  if _flagNegative s then
    let signedVal := signExtend temp in
    let s := set_programCounter (ushort (_programCounter s + signedVal)) s in
    addCycles 3 s
  else
    addCycles 2 s.

Definition BNE (s : NESemulator) : NESemulator :=
  let '(offset, s) := readMemory (_programCounter s) s in
  let s := incPC s in
  let s := addCycles 2 s in
  if negb (_flagZero s) then
    let rel := int8 offset in
    let oldPC := _programCounter s in
    let s := set_programCounter (ushort (_programCounter s + rel)) s in
    let s := addCycles 1 s in
    if negb ((oldPC .& 0xFF00) =? (_programCounter s .& 0xFF00)) then
      addCycles 1 s
    else s
  else s.

Definition BEQ (s : NESemulator) : NESemulator :=
  let '(temp, s) := readMemory (_programCounter s) s in
  let s := incPC s in
  let s := addCycles 2 s in
  if _flagZero s then
    let signedVal := signExtend temp in
    let s := set_programCounter (ushort (_programCounter s + signedVal)) s in
    addCycles 3 s
  else
    addCycles 2 s.

Definition PHA (s : NESemulator) : NESemulator :=
  let s := pushStack (_A s) s in
  addCycles 3 s.

Definition PLA (s : NESemulator) : NESemulator :=
  let '(v, s) := pullStack s in
  let s := set_A v s in
  let s := set_flagZero (_A s =? 0) s in
  let s := set_flagNegative (_A s >? 127) s in
  addCycles 4 s.

Definition JSR (s : NESemulator) : NESemulator :=
  let '(low, s) := readMemory (_programCounter s) s in
  let s := incPC s in
  let '(high, s) := readMemory (_programCounter s) s in
  let s := incPC s in
  let target := ushort ((high << 8) .| low) in
  let returnAddr := ushort (_programCounter s - 1) in
  let s := pushStack (uint8 (returnAddr >> 8)) s in
  let s := pushStack (uint8 (returnAddr .& 0xFF)) s in
  let s := set_programCounter target s in
  addCycles 6 s.

Definition RTS (s : NESemulator) : NESemulator :=
  let '(tempLow, s) := pullStack s in
  let '(tempHigh, s) := pullStack s in
  let s := set_programCounter (ushort ((tempHigh << 8) .| tempLow)) s in
  let s := incPC s in
  addCycles 6 s.

Definition NOP (s : NESemulator) : NESemulator :=
  addCycles 2 s.

Definition INX (s : NESemulator) : NESemulator :=
  let s := set_X (uint8 (_X s + 1)) s in
  let s := set_flagZero (_X s =? 0) s in
  let s := set_flagNegative (_X s >? 127) s in
  addCycles 2 s.

Definition INY (s : NESemulator) : NESemulator :=
  let s := set_Y (uint8 (_Y s + 1)) s in
  let s := set_flagZero (_Y s =? 0) s in
  let s := set_flagNegative (_Y s >? 127) s in
  addCycles 2 s.

Definition DEX (s : NESemulator) : NESemulator :=
  let s := set_X (uint8 (_X s - 1)) s in
  let s := set_flagZero (_X s =? 0) s in
  let s := set_flagNegative (_X s >? 127) s in
  addCycles 2 s.

Definition DEY (s : NESemulator) : NESemulator :=
  let s := set_Y (uint8 (_Y s - 1)) s in
  let s := set_flagZero (_Y s =? 0) s in
  let s := set_flagNegative (_Y s >? 127) s in
  addCycles 2 s.

Definition TAX (s : NESemulator) : NESemulator :=
  let s := set_X (_A s) s in
  let s := set_flagZero (_X s =? 0) s in
  let s := set_flagNegative (_X s >? 127) s in
  addCycles 2 s.

Definition TXA (s : NESemulator) : NESemulator :=
  let s := set_A (_X s) s in
  let s := set_flagZero (_A s =? 0) s in
  let s := set_flagNegative (_A s >? 127) s in
  addCycles 2 s.

Definition TAY (s : NESemulator) : NESemulator :=
  let s := set_Y (_A s) s in
  let s := set_flagZero (_Y s =? 0) s in
  let s := set_flagNegative (_Y s >? 127) s in
  addCycles 2 s.

Definition TYA (s : NESemulator) : NESemulator :=
  let s := set_A (_Y s) s in
  let s := set_flagZero (_A s =? 0) s in
  let s := set_flagNegative (_A s >? 127) s in
  addCycles 2 s.

Definition TXS (s : NESemulator) : NESemulator :=
  let s := set_stackPointer (_X s) s in
  addCycles 2 s.

Definition TSX (s : NESemulator) : NESemulator :=
  let s := set_X (_stackPointer s) s in
  let s := set_flagZero (_X s =? 0) s in
  let s := set_flagNegative (_X s >? 127) s in
  addCycles 2 s.

Definition SEC (s : NESemulator) : NESemulator :=
  addCycles 2 (set_flagCarry true s).

Definition CLC (s : NESemulator) : NESemulator :=
  addCycles 2 (set_flagCarry false s).

Definition CLV (s : NESemulator) : NESemulator :=
  addCycles 2 (set_flagOverflow false s).

Definition SEI (s : NESemulator) : NESemulator :=
  addCycles 2 (set_flagInterruptDisable true s).

Definition CLI (s : NESemulator) : NESemulator :=
  addCycles 2 (set_flagInterruptDisable false s).

Definition SED (s : NESemulator) : NESemulator :=
  addCycles 2 (set_flagDecimal true s).

Definition CLD (s : NESemulator) : NESemulator :=
  addCycles 2 (set_flagDecimal false s).

Definition PHP (s : NESemulator) : NESemulator :=
  let status :=
    uint8 ((b2z (_flagNegative s) << 7) .|
           (b2z (_flagOverflow s) << 6) .|
           (1 << 5) .|
           (1 << 4) .|
           (b2z (_flagDecimal s) << 3) .|
           (b2z (_flagInterruptDisable s) << 2) .|
           (b2z (_flagZero s) << 1) .|
           b2z (_flagCarry s)) in
  let s := pushStack status s in
  addCycles 3 s.

Definition PLP (s : NESemulator) : NESemulator :=
  let '(status, s) := pullStack s in
  let s := set_flagNegative (nonzero (status .& 0x80)) s in
  let s := set_flagOverflow (nonzero (status .& 0x40)) s in
  let s := set_flagDecimal (nonzero (status .& 0x08)) s in
  let s := set_flagInterruptDisable (nonzero (status .& 0x04)) s in
  let s := set_flagZero (nonzero (status .& 0x02)) s in
  let s := set_flagCarry (nonzero (status .& 0x01)) s in
  addCycles 4 s.

Definition ASL_Accumulator (s : NESemulator) : NESemulator :=
  let s := set_flagCarry (_A s >? 127) s in
  let s := set_A (uint8 (_A s << 1)) s in
  let s := set_flagZero (_A s =? 0) s in
  let s := set_flagNegative (_A s >? 127) s in
  addCycles 2 s.

Definition ASL_ZeroPage (s : NESemulator) : NESemulator :=
  let '(zp, s) := readMemory (_programCounter s) s in
  let s := incPC s in
  let '(v, s) := readMemory zp s in
  let s := set_flagCarry (nonzero (v .& 0x80)) s in
  let v := uint8 (v << 1) in
  let s := writeMemory zp v s in
  let s := set_flagZero (v =? 0) s in
  let s := set_flagNegative (nonzero (v .& 0x80)) s in
  addCycles 5 s.

Definition ASL_Absolute (s : NESemulator) : NESemulator :=
  let '(low, s) := readMemory (_programCounter s) s in
  let s := incPC s in
  let '(high, s) := readMemory (_programCounter s) s in
  let s := incPC s in
  let addr := ushort ((high << 8) .| low) in
  let '(v, s) := readMemory addr s in
  let s := set_flagCarry (nonzero (v .& 0x80)) s in
  let v := uint8 (v << 1) in
  let s := writeMemory addr v s in
  let s := set_flagZero (v =? 0) s in
  let s := set_flagNegative (nonzero (v .& 0x80)) s in
  addCycles 6 s.

Definition ROL_ZeroPage (s : NESemulator) : NESemulator :=
  let '(zp, s) := readMemory (_programCounter s) s in
  let s := incPC s in
  let '(v, s) := readMemory zp s in
  let oldCarry := _flagCarry s in
  let s := set_flagCarry (nonzero (v .& 0x80)) s in
  let v := uint8 ((v << 1) .| (if oldCarry then 1 else 0)) in
  let s := writeMemory zp v s in
  let s := set_flagZero (v =? 0) s in
  let s := set_flagNegative (nonzero (v .& 0x80)) s in
  addCycles 5 s.

Definition ROL_Absolute (s : NESemulator) : NESemulator :=
  let s := readOperandsAbsoluteAddress s in
  let '(v, s) := readMemory (_addressBus s) s in
  let s := opROL (_addressBus s) v s in
  addCycles 6 s.

Definition LSR_Accumulator (s : NESemulator) : NESemulator :=
  let s := set_flagCarry (nonzero (_A s .& 0x01)) s in
  let s := set_A (uint8 (_A s >> 1)) s in
  let s := set_flagZero (_A s =? 0) s in
  let s := set_flagNegative false s in
  addCycles 2 s.

Definition LSR_ZeroPage (s : NESemulator) : NESemulator :=
  let '(zpAddr, s) := readMemory (_programCounter s) s in
  let s := incPC s in
  let '(value, s) := readMemory zpAddr s in
  let s := set_flagCarry (nonzero (value .& 1)) s in
  let value := uint8 (value >> 1) in
  let s := writeMemory zpAddr value s in
  let s := set_flagZero (value =? 0) s in
  let s := set_flagNegative false s in
  addCycles 5 s.

Definition LSR_Absolute (s : NESemulator) : NESemulator :=
  let s := readOperandsAbsoluteAddress s in
  let '(value, s) := readMemory (_addressBus s) s in
  let s := set_flagCarry (nonzero (value .& 1)) s in
  let value := uint8 (value >> 1) in
  let s := writeMemory (_addressBus s) value s in
  addCycles 6 s.

Definition ROR_Accumulator (s : NESemulator) : NESemulator :=
  let oldCarry := _flagCarry s in
  let s := set_flagCarry (nonzero (_A s .& 0x01)) s in
  let s := set_A (uint8 (_A s >> 1)) s in
  let s := if oldCarry then set_A (uint8 (_A s .| 0x80)) s else s in
  let s := set_flagZero (_A s =? 0) s in
  let s := set_flagNegative (nonzero (_A s .& 0x80)) s in
  addCycles 2 s.

Definition ROR_ZeroPage (s : NESemulator) : NESemulator :=
  let '(zpAddr, s) := readMemory (_programCounter s) s in
  let s := incPC s in
  let '(value, s) := readMemory zpAddr s in
  let futureFlagCarry := nonzero (value .& 1) in
  let value := uint8 (value >> 1) in
  let value := if _flagCarry s then uint8 (value .| 0x80) else value in
  let s := writeMemory zpAddr value s in
  let s := set_flagCarry futureFlagCarry s in
  let s := set_flagZero (value =? 0) s in
  let s := set_flagNegative (value >? 127) s in
  addCycles 5 s.

Definition ROR_Absolute (s : NESemulator) : NESemulator :=
  let s := readOperandsAbsoluteAddress s in
  let '(value, s) := readMemory (_addressBus s) s in
  let futureFlagCarry := nonzero (value .& 1) in
  let value := uint8 (value >> 1) in
  let value := if _flagCarry s then uint8 (value .| 0x80) else value in
  let s := writeMemory (_addressBus s) value s in
  let s := set_flagCarry futureFlagCarry s in
  let s := set_flagZero (value =? 0) s in
  let s := set_flagNegative (value >? 127) s in
  addCycles 6 s.
Definition ORA_Immediate (s : NESemulator) : NESemulator :=
  let '(value, s) := readMemory (_programCounter s) s in
  let s := opORA value s in
  let s := incPC s in
  addCycles 2 s.

Definition ORA_ZeroPage (s : NESemulator) : NESemulator :=
  let '(address, s) := readMemory (_programCounter s) s in
  let '(value, s) := readMemory address s in
  let s := opORA value s in
  let s := incPC s in
  addCycles 3 s.

Definition ORA_Absolute (s : NESemulator) : NESemulator :=
  let s := readOperandsAbsoluteAddress s in
  let '(value, s) := readMemory (_addressBus s) s in
  let s := opORA value s in
  addCycles 4 s.

Definition AND_Immediate (s : NESemulator) : NESemulator :=
  let '(value, s) := readMemory (_programCounter s) s in
  let s := opAND value s in
  let s := incPC s in
  addCycles 2 s.

Definition AND_ZeroPage (s : NESemulator) : NESemulator :=
  let '(address, s) := readMemory (_programCounter s) s in
  let '(value, s) := readMemory address s in
  let s := opAND value s in
  let s := incPC s in
  addCycles 3 s.

Definition AND_Absolute (s : NESemulator) : NESemulator :=
  let s := readOperandsAbsoluteAddress s in
  let '(value, s) := readMemory (_addressBus s) s in
  let s := opAND value s in
  addCycles 4 s.

Definition EOR_Immediate (s : NESemulator) : NESemulator :=
  let '(value, s) := readMemory (_programCounter s) s in
  let s := opEOR value s in
  let s := incPC s in
  addCycles 2 s.

Definition EOR_ZeroPage (s : NESemulator) : NESemulator :=
  let '(address, s) := readMemory (_programCounter s) s in
  let '(value, s) := readMemory address s in
  let s := opEOR value s in
  let s := incPC s in
  addCycles 3 s.

Definition EOR_Absolute (s : NESemulator) : NESemulator :=
  let s := readOperandsAbsoluteAddress s in
  let '(value, s) := readMemory (_addressBus s) s in
  let s := opEOR value s in
  addCycles 4 s.

Definition INC_ZeroPage (s : NESemulator) : NESemulator :=
  let s := readOperandsAbsoluteAddress s in
  let '(value, s) := readMemory (_addressBus s) s in
  let s := opINC (_addressBus s) value s in
  addCycles 5 s.

Definition INC_Absolute (s : NESemulator) : NESemulator :=
  let s := readOperandsAbsoluteAddress s in
  let '(value, s) := readMemory (_addressBus s) s in
  let s := opINC (_addressBus s) value s in
  addCycles 6 s.

Definition DEC_ZeroPage (s : NESemulator) : NESemulator :=
  let s := readOperandsAbsoluteAddress s in
  let '(value, s) := readMemory (_addressBus s) s in
  let s := opDEC (_addressBus s) value s in
  addCycles 5 s.

Definition DEC_Absolute (s : NESemulator) : NESemulator :=
  let s := readOperandsAbsoluteAddress s in
  let '(value, s) := readMemory (_addressBus s) s in
  let s := opDEC (_addressBus s) value s in
  addCycles 6 s.

Definition ADC_Immediate (s : NESemulator) : NESemulator :=
  let '(value, s) := readMemory (_programCounter s) s in
  let s := opADC value s in
  let s := incPC s in
  addCycles 2 s.

Definition ADC_ZeroPage (s : NESemulator) : NESemulator :=
  let '(address, s) := readMemory (_programCounter s) s in
  let '(value, s) := readMemory address s in
  let s := opADC value s in
  let s := incPC s in
  addCycles 3 s.

Definition ADC_Absolute (s : NESemulator) : NESemulator :=
  let s := readOperandsAbsoluteAddress s in
  let '(value, s) := readMemory (_addressBus s) s in
  let s := opADC value s in
  addCycles 4 s.

Definition SBC_Immediate (s : NESemulator) : NESemulator :=
  let '(value, s) := readMemory (_programCounter s) s in
  let s := opSBC value s in
  let s := incPC s in
  addCycles 2 s.

Definition SBC_ZeroPage (s : NESemulator) : NESemulator :=
  let '(address, s) := readMemory (_programCounter s) s in
  let '(value, s) := readMemory address s in
  let s := opSBC value s in
  let s := incPC s in
  addCycles 3 s.

Definition SBC_Absolute (s : NESemulator) : NESemulator :=
  let s := readOperandsAbsoluteAddress s in
  let '(value, s) := readMemory (_addressBus s) s in
  let s := opSBC value s in
  addCycles 4 s.

Definition CMP_Immediate (s : NESemulator) : NESemulator :=
  let '(value, s) := readMemory (_programCounter s) s in
  let s := opCMP value s in
  let s := incPC s in
  addCycles 2 s.

Definition CMP_ZeroPage (s : NESemulator) : NESemulator :=
  let '(address, s) := readMemory (_programCounter s) s in
  let '(value, s) := readMemory address s in
  let s := opCMP value s in
  let s := incPC s in
  addCycles 3 s.

Definition CMP_Absolute (s : NESemulator) : NESemulator :=
  let s := readOperandsAbsoluteAddress s in
  let '(value, s) := readMemory (_addressBus s) s in
  let s := opCMP value s in
  addCycles 4 s.

Definition CPX_Immediate (s : NESemulator) : NESemulator :=
  let '(value, s) := readMemory (_programCounter s) s in
  let s := set_flagCarry (_X s >=? value) s in
  let s := set_flagZero (_X s =? value) s in
  let s := set_flagNegative (_X s - value >? 127) s in
  let s := incPC s in
  addCycles 2 s.

Definition CPX_ZeroPage (s : NESemulator) : NESemulator :=
  let '(address, s) := readMemory (_programCounter s) s in
  let '(value, s) := readMemory address s in
  let s := set_flagCarry (_X s >=? value) s in
  let s := set_flagZero (_X s =? value) s in
  let s := set_flagNegative (_X s - value >? 127) s in
  let s := incPC s in
  addCycles 3 s.

Definition CPX_Absolute (s : NESemulator) : NESemulator :=
  let s := readOperandsAbsoluteAddress s in
  let '(value, s) := readMemory (_addressBus s) s in
  let s := set_flagCarry (_X s >=? value) s in
  let s := set_flagZero (_X s =? value) s in
  let s := set_flagNegative (_X s - value >? 127) s in
  addCycles 4 s.

Definition CPY_Immediate (s : NESemulator) : NESemulator :=
  let '(value, s) := readMemory (_programCounter s) s in
  let s := set_flagCarry (_Y s >=? value) s in
  let s := set_flagZero (_Y s =? value) s in
  let s := set_flagNegative (_Y s - value >? 127) s in
  let s := incPC s in
  addCycles 2 s.

Definition CPY_ZeroPage (s : NESemulator) : NESemulator :=
  let '(address, s) := readMemory (_programCounter s) s in
  let '(value, s) := readMemory address s in
  let s := set_flagCarry (_Y s >=? value) s in
  let s := set_flagZero (_Y s =? value) s in
  let s := set_flagNegative (_Y s - value >? 127) s in
  let s := incPC s in
  addCycles 3 s.

Definition CPY_Absolute (s : NESemulator) : NESemulator :=
  let s := readOperandsAbsoluteAddress s in
  let '(value, s) := readMemory (_addressBus s) s in
  let s := set_flagCarry (_Y s >=? value) s in
  let s := set_flagZero (_Y s =? value) s in
  let s := set_flagNegative (_Y s - value >? 127) s in
  addCycles 4 s.

Definition BIT_ZeroPage (s : NESemulator) : NESemulator :=
  let '(address, s) := readMemory (_programCounter s) s in
  let '(value, s) := readMemory address s in
  let s := opBIT value s in
  let s := incPC s in
  addCycles 3 s.

Definition BIT_Absolute (s : NESemulator) : NESemulator :=
  let s := readOperandsAbsoluteAddress s in
  let '(value, s) := readMemory (_addressBus s) s in
  let s := opBIT value s in
  addCycles 4 s.

Definition BRK (s : NESemulator) : NESemulator :=
  let s := incPC s in
  let returnPC := _programCounter s in
  let s := pushStack (uint8 (returnPC >> 8)) s in
  let s := pushStack (uint8 (returnPC .& 0xFF)) s in
  let status :=
    uint8 ((b2z (_flagNegative s) << 7) .|
           (b2z (_flagOverflow s) << 6) .|
           (1 << 5) .|
           (1 << 4) .|
           (b2z (_flagDecimal s) << 3) .|
           (b2z (_flagInterruptDisable s) << 2) .|
           (b2z (_flagZero s) << 1) .|
           b2z (_flagCarry s)) in
  let s := pushStack status s in
  let s := set_flagInterruptDisable true s in
  let '(pcl, s) := readMemory 0xFFFE s in
  let '(pch, s) := readMemory 0xFFFF s in
  let s := set_programCounter (ushort ((pch << 8) .| pcl)) s in
  addCycles 7 s.

Definition RTI (s : NESemulator) : NESemulator :=
  let '(status, s) := pullStack s in
  let s := set_flagNegative (nonzero (status .& 0x80)) s in
  let s := set_flagOverflow (nonzero (status .& 0x40)) s in
  let s := set_flagDecimal (nonzero (status .& 0x08)) s in
  let s := set_flagInterruptDisable (nonzero (status .& 0x04)) s in
  let s := set_flagZero (nonzero (status .& 0x02)) s in
  let s := set_flagCarry (nonzero (status .& 0x01)) s in
  let '(tempLow, s) := pullStack s in
  let '(tempHigh, s) := pullStack s in
  let s := set_programCounter (ushort ((tempHigh << 8) .| tempLow)) s in
  addCycles 6 s.

Definition JMP_Absolute (s : NESemulator) : NESemulator :=
  let '(tempLow, s) := readMemory (_programCounter s) s in
  let s := incPC s in
  let '(tempHigh, s) := readMemory (_programCounter s) s in
  let s := incPC s in
  let s := set_programCounter (ushort ((tempHigh << 8) .| tempLow)) s in
  addCycles 3 s.

Definition BVS (s : NESemulator) : NESemulator :=
  let '(temp, s) := readMemory (_programCounter s) s in
  let s := incPC s in
  let s := addCycles 2 s in
  if _flagOverflow s then
    let signedVal := signExtend temp in
    let s := set_programCounter (ushort (_programCounter s + signedVal)) s in
    addCycles 3 s
  else
    addCycles 2 s.

Definition BCS (s : NESemulator) : NESemulator :=
  let '(temp, s) := readMemory (_programCounter s) s in
  let s := incPC s in
  let s := addCycles 2 s in
  if _flagCarry s then
    let signedVal := signExtend temp in
    let s := set_programCounter (ushort (_programCounter s + signedVal)) s in
    addCycles 3 s
  else
    addCycles 2 s.

Definition BCC (s : NESemulator) : NESemulator :=
  let '(temp, s) := readMemory (_programCounter s) s in
  let s := incPC s in
  let s := addCycles 2 s in
  if negb (_flagCarry s) then
    let signedVal := signExtend temp in
    let s := set_programCounter (ushort (_programCounter s + signedVal)) s in
    addCycles 3 s
  else
    addCycles 2 s.

Definition BVC (s : NESemulator) : NESemulator :=
  let '(temp, s) := readMemory (_programCounter s) s in
  let s := incPC s in
  let s := addCycles 2 s in
  if negb (_flagOverflow s) then
    let signedVal := signExtend temp in
    let s := set_programCounter (ushort (_programCounter s + signedVal)) s in
    addCycles 3 s
  else
    addCycles 2 s.

Definition LDA_AbsoluteY (s : NESemulator) : NESemulator :=
  let '(low, s) := readMemory (_programCounter s) s in
  let s := incPC s in
  let '(high, s) := readMemory (_programCounter s) s in
  let s := incPC s in
  let baseAddr := ushort ((high << 8) .| low) in
  let addr := ushort (baseAddr + _Y s) in
  let '(v, s) := readMemory addr s in
  let s := set_A v s in
  let s := set_flagZero (_A s =? 0) s in
  let s := set_flagNegative (nonzero (_A s .& 0x80)) s in
  let s := addCycles 4 s in
  if negb ((baseAddr .& 0xFF00) =? (addr .& 0xFF00)) then addCycles 1 s else s.

Definition LDA_AbsoluteX (s : NESemulator) : NESemulator :=
  let '(low, s) := readMemory (_programCounter s) s in
  let s := incPC s in
  let '(high, s) := readMemory (_programCounter s) s in
  let s := incPC s in
  let baseAddr := ushort ((high << 8) .| low) in
  let addr := ushort (baseAddr + _X s) in
  let '(v, s) := readMemory addr s in
  let s := set_A v s in
  let s := set_flagZero (_A s =? 0) s in
  let s := set_flagNegative (nonzero (_A s .& 0x80)) s in
  let s := addCycles 4 s in
  if negb ((baseAddr .& 0xFF00) =? (addr .& 0xFF00)) then addCycles 1 s else s.

Definition JMP_Indirect (s : NESemulator) : NESemulator :=
  let '(ptrLow, s) := readMemory (_programCounter s) s in
  let s := incPC s in
  let '(ptrHigh, s) := readMemory (_programCounter s) s in
  let s := incPC s in
  let ptr := ushort ((ptrHigh << 8) .| ptrLow) in
  let '(targetLow, s) := readMemory ptr s in
  let '(targetHigh, s) :=
    if (ptr .& 0x00FF) =? 0x00FF then readMemory (ushort (ptr .& 0xFF00)) s
    else readMemory (ushort (ptr + 1)) s in
  let s := set_programCounter (ushort ((targetHigh << 8) .| targetLow)) s in
  addCycles 5 s.

Definition STA_ZeroPageX (s : NESemulator) : NESemulator :=
  let '(zpAddr, s) := readMemory (_programCounter s) s in
  let s := incPC s in
  let s := writeMemory (ushort ((zpAddr + _X s) .& 0x00FF)) (_A s) s in
  addCycles 4 s.

Definition LDA_ZeroPageX (s : NESemulator) : NESemulator :=
  let '(zp, s) := readMemory (_programCounter s) s in
  let s := incPC s in
  let addr := uint8 (zp + _X s) in
  let '(v, s) := readMemory addr s in
  let s := set_A v s in
  let s := set_flagZero (_A s =? 0) s in
  let s := set_flagNegative (nonzero (_A s .& 0x80)) s in
  addCycles 4 s.

Definition ADC_ZeroPageX (s : NESemulator) : NESemulator :=
  let '(zpAddr, s) := readMemory (_programCounter s) s in
  let s := incPC s in
  let '(value, s) := readMemory (ushort ((zpAddr + _X s) .& 0x00FF)) s in
  let s := opADC value s in
  addCycles 4 s.

Definition STA_ZeroPageY (s : NESemulator) : NESemulator :=
  let '(zp, s) := readMemory (_programCounter s) s in
  let s := incPC s in
  let '(ptrLow, s) := readMemory zp s in
  let '(ptrHigh, s) := readMemory (uint8 (zp + 1)) s in
  let base := ushort ((ptrHigh << 8) .| ptrLow) in
  let effective := ushort (base + _Y s) in
  let s := writeMemory effective (_A s) s in
  addCycles 6 s.

Definition STA_IndirectX (s : NESemulator) : NESemulator :=
  let '(zp, s) := readMemory (_programCounter s) s in
  let s := incPC s in
  let '(ptrLow, s) := readMemory (uint8 (zp + _X s)) s in
  let '(ptrHigh, s) := readMemory (uint8 (zp + _X s + 1)) s in
  let effective := ushort ((ptrHigh << 8) .| ptrLow) in
  let s := writeMemory effective (_A s) s in
  addCycles 6 s.

(** The [default] label. *)
Definition unknownOpcode (opcode : Z) (s : NESemulator) : NESemulator :=
  let s := set_cerr (UnknownOpcode opcode :: cerr s) s in
  set_cpuHalted true s.

(** ** The dispatcher *)

Definition handleOpcode (opcode : Z) (s : NESemulator) : NESemulator :=
  match opcode with
  | 0x02 => HLT s
  | 0xA0 => LDY_Immediate s
  | 0xA2 => LDX_Immediate s
  | 0xA5 => LDA_ZeroPage s
  | 0xA9 => LDA_Immediate s
  | 0xAD => LDA_Absolute s
  | 0x85 => STA_ZeroPage s
  | 0x8D => STA_Absolute s
  | 0x86 => STX_ZeroPage s
  | 0x8E => STX_Absolute s
  | 0x84 => STY_ZeroPage s
  | 0x8C => STY_Absolute s
  | 0x10 => BPL s
  | 0x30 => BMI s
  | 0xD0 => BNE s
  | 0xF0 => BEQ s
  | 0x48 => PHA s
  | 0x68 => PLA s
  | 0x20 => JSR s
  | 0x60 => RTS s
  | 0xEA => NOP s
  | 0xE8 => INX s
  | 0xC8 => INY s
  | 0xCA => DEX s
  | 0x88 => DEY s
  | 0xAA => TAX s
  | 0x8A => TXA s
  | 0xA8 => TAY s
  | 0x98 => TYA s
  | 0x9A => TXS s
  | 0xBA => TSX s
  | 0x38 => SEC s
  | 0x18 => CLC s
  | 0xB8 => CLV s
  | 0x78 => SEI s
  | 0x58 => CLI s
  | 0xF8 => SED s
  | 0xD8 => CLD s
  | 0x08 => PHP s
  | 0x28 => PLP s
  | 0x0A => ASL_Accumulator s
  | 0x06 => ASL_ZeroPage s
  | 0x0E => ASL_Absolute s
  | 0x26 => ROL_ZeroPage s
  | 0x2E => ROL_Absolute s
  | 0x4A => LSR_Accumulator s
  | 0x46 => LSR_ZeroPage s
  | 0x4E => LSR_Absolute s
  | 0x6A => ROR_Accumulator s
  | 0x66 => ROR_ZeroPage s
  | 0x6E => ROR_Absolute s
  | 0x09 => ORA_Immediate s
  | 0x05 => ORA_ZeroPage s
  | 0x0D => ORA_Absolute s
  | 0x29 => AND_Immediate s
  | 0x25 => AND_ZeroPage s
  | 0x2D => AND_Absolute s
  | 0x49 => EOR_Immediate s
  | 0x45 => EOR_ZeroPage s
  | 0x4D => EOR_Absolute s
  | 0xE6 => INC_ZeroPage s
  | 0xEE => INC_Absolute s
  | 0xC6 => DEC_ZeroPage s
  | 0xCE => DEC_Absolute s
  | 0x69 => ADC_Immediate s
  | 0x65 => ADC_ZeroPage s
  | 0x6D => ADC_Absolute s
  | 0xE9 => SBC_Immediate s
  | 0xE5 => SBC_ZeroPage s
  | 0xED => SBC_Absolute s
  | 0xC9 => CMP_Immediate s
  | 0xC5 => CMP_ZeroPage s
  | 0xCD => CMP_Absolute s
  | 0xE0 => CPX_Immediate s
  | 0xE4 => CPX_ZeroPage s
  | 0xEC => CPX_Absolute s
  | 0xC0 => CPY_Immediate s
  | 0xC4 => CPY_ZeroPage s
  | 0xCC => CPY_Absolute s
  | 0x24 => BIT_ZeroPage s
  | 0x2C => BIT_Absolute s
  | 0x00 => BRK s
  | 0x40 => RTI s
  | 0x4C => JMP_Absolute s
  | 0x70 => BVS s
  | 0xB0 => BCS s
  | 0x90 => BCC s
  | 0x50 => BVC s
  | 0xB9 => LDA_AbsoluteY s
  | 0xBD => LDA_AbsoluteX s
  | 0x6C => JMP_Indirect s
  | 0x95 => STA_ZeroPageX s
  | 0xB5 => LDA_ZeroPageX s
  | 0x75 => ADC_ZeroPageX s
  | 0x91 => STA_ZeroPageY s
  | 0x81 => STA_IndirectX s
  | _ => unknownOpcode opcode s
  end.

(** The [case] labels of the [switch], in source order. *)
Definition case_labels : list Z :=
  [0x02; 0xA0; 0xA2; 0xA5; 0xA9; 0xAD; 0x85; 0x8D; 0x86; 0x8E; 0x84;
   0x8C; 0x10; 0x30; 0xD0; 0xF0; 0x48; 0x68; 0x20; 0x60; 0xEA; 0xE8;
   0xC8; 0xCA; 0x88; 0xAA; 0x8A; 0xA8; 0x98; 0x9A; 0xBA; 0x38; 0x18;
   0xB8; 0x78; 0x58; 0xF8; 0xD8; 0x08; 0x28; 0x0A; 0x06; 0x0E; 0x26;
   0x2E; 0x4A; 0x46; 0x4E; 0x6A; 0x66; 0x6E; 0x09; 0x05; 0x0D; 0x29;
   0x25; 0x2D; 0x49; 0x45; 0x4D; 0xE6; 0xEE; 0xC6; 0xCE; 0x69; 0x65;
   0x6D; 0xE9; 0xE5; 0xED; 0xC9; 0xC5; 0xCD; 0xE0; 0xE4; 0xEC; 0xC0;
   0xC4; 0xCC; 0x24; 0x2C; 0x00; 0x40; 0x4C; 0x70; 0xB0; 0x90; 0x50;
   0xB9; 0xBD; 0x6C; 0x95; 0xB5; 0x75; 0x91; 0x81].

Definition has_case (opcode : Z) : bool :=
  existsb (Z.eqb opcode) case_labels.

(** ** Trace output, one step, and the execution loop *)

Definition traceLog (opcode : Z) (s : NESemulator) : NESemulator :=
  if negb (_loggingEnabled s) then s
  else
    set_cout
      (TraceLine (_programCounter s) opcode (_A s) (_X s) (_Y s)
         (_stackPointer s) (_flagNegative s) (_flagOverflow s)
         (_flagDecimal s) (_flagInterruptDisable s) (_flagZero s)
         (_flagCarry s) (_cycleCount s) :: cout s) s.

Definition emulateCPU (s : NESemulator) : NESemulator :=
  let '(opcode, s) := readMemory (_programCounter s) s in
  let s := incPC s in
  handleOpcode opcode s.

(** One iteration of the [while] loop of [run]. *)
Definition run_body (s : NESemulator) : NESemulator :=
  let '(opcode, s) := readMemory (_programCounter s) s in
  let s := traceLog opcode s in
  emulateCPU s.

(** The [while] loop of [run], with its counter [i].  The guard bounds the
    number of iterations by [1000 - i], so the loop is a structural
    recursion on any [fuel] at least that large (see [run_loop_fuel]). *)
Fixpoint run_loop (fuel : nat) (i : Z) (s : NESemulator) : Z * NESemulator :=
  match fuel with
  | O => (i, s)
  | S fuel' =>
      if negb (_cpuHalted s) && (i <? 1000) then
        run_loop fuel' (i + 1) (run_body s)
      else (i, s)
  end.

(** [run] returns nothing in the source; the model also returns the final
    value of the local counter [i], the number of iterations performed. *)
Definition run (s : NESemulator) : Z * NESemulator :=
  let s := set_cout (StartingEmulator :: cout s) s in
  let i := 0 in
  run_loop 1000 i s.

(** ** Reset and image load

    The ROM file is an input of [reset].  [std::copy] over an iterator
    range that ends past the end of the vector has no defined behaviour in
    C++; [copy] returns [None] there, and [reset] then stops in [Undefined]
    with the state reached before the offending copy. *)

Inductive romFile : Type :=
| CannotOpen
| CannotRead
| Readable (headeredRom : list Z).

Inductive resetOutcome : Type :=
| Returned (s : NESemulator)
| Undefined (s : NESemulator).

Definition copy (v : list Z) (first last : Z) : option (list Z) :=
  if last <=? Z.of_nat (length v) then
    Some (take (Z.to_nat (last - first)) (drop (Z.to_nat first) v))
  else None.

Definition reset (file : romFile) (s : NESemulator) : resetOutcome :=
  let s := set_programCounter 0 s in
  let s := set_A 0 s in
  let s := set_X 0 s in
  let s := set_Y 0 s in
  let s := set_flagCarry false s in
  let s := set_flagZero false s in
  let s := set_flagInterruptDisable true s in
  let s := set_flagDecimal false s in
  let s := set_flagOverflow false s in
  let s := set_flagNegative false s in
  let s := set_stackPointer 0xFD s in
  match file with
  | CannotOpen =>
      Returned (set_cerr (FailedToOpenROM (_filePath s) :: cerr s) s)
  | CannotRead =>
      Returned (set_cerr (FailedToReadROM (_filePath s) :: cerr s) s)
  | Readable headeredRom =>
      match copy headeredRom 0 0x10 with
      | None => Undefined s
      | Some header =>
          let s := set_header header s in
          match copy headeredRom 0x10 (0x10 + 0x8000) with
          | None => Undefined s
          | Some rom =>
              let s := set_rom rom s in
              let '(PCL, s) := readMemory 0xFFFC s in
              let '(PCH, s) := readMemory 0xFFFD s in
              Returned (set_programCounter (ushort ((PCH << 8) .| PCL)) s)
          end
      end
  end.

Definition init (file : romFile) (s : NESemulator) : resetOutcome :=
  reset file s.

(** ** Bytes and sample states *)

(** The values of a [std::uint8_t]. *)
Definition byte (x : Z) : Prop := 0 <= x < 256.

(** [image bytes n]: [bytes] padded with zeros to [n] cells. *)
Definition image (bytes : list Z) (n : Z) : list Z :=
  bytes ++ replicate (Z.to_nat n - length bytes) 0.

(** The state after construction and register reset, with the given RAM and
    ROM contents and program counter. *)
Definition machine (ram rom : list Z) (pc : Z) : NESemulator :=
  mkNES true "5_Instructions1.nes" pc 0 0 0 0 (replicate 16 0)
    (image ram 0x800) (image rom 0x8000)
    false false true false false false 0xFD false 0 [] [].

(** ** Definitions used in the statements *)

(** All bytes, for exhaustive checks. *)
Definition bytes : list Z := map Z.of_nat (seq 0 256).

(** The value of a byte read as a two's-complement number. *)
Definition signed (x : Z) : Z := if x >? 127 then x - 256 else x.

Definition fits_int8 (x : Z) : bool := (-128 <=? x) && (x <=? 127).

(** A state with empty memory, for checks that do not touch memory. *)
Definition blank : NESemulator :=
  mkNES true EmptyString 0 0 0 0 0 [] [] [] false false false false false false
    0 false 0 [] [].

(** The fields that [opADC] and [opSBC] assign, as functions of the
    accumulator, the operand and the carry on entry. *)
Definition adc_sum (a b : Z) (cin : bool) : Z :=
  a + b + b2z cin.

Definition sbc_intermediate (a b : Z) (cin : bool) : Z :=
  ushort (ushort a + (ushort (Z.lnot b) .& 0xFF) + b2z cin).

Definition sbc_result (a b : Z) (cin : bool) : Z :=
  uint8 (sbc_intermediate a b cin .& 0xFF).

(** [run_steps n s]: the state after [n] iterations of the loop body. *)
Fixpoint run_steps (n : nat) (s : NESemulator) : NESemulator :=
  match n with
  | O => s
  | S n' => run_steps n' (run_body s)
  end.

(** The state in which [run] enters its loop. *)
Definition run_start (s : NESemulator) : NESemulator :=
  set_cout (StartingEmulator :: cout s) s.

(** [never_halted n s]: Halted is false in [s] and after each of the first
    [n] iterations. *)
Fixpoint never_halted (n : nat) (s : NESemulator) : bool :=
  negb (_cpuHalted s) &&
  match n with
  | O => true
  | S n' => never_halted n' (run_body s)
  end.

(** A program that never halts: [JMP $0000] at address 0 of the work RAM. *)
Definition spin : NESemulator := machine [0x4C; 0x00; 0x00] [] 0.

(** A call at 0x8000 to a subroutine at 0x8005 that returns at once. *)
Definition call_return : NESemulator :=
  machine [] [0x20; 0x05; 0x80; 0xEA; 0xEA; 0x60] 0x8000.

(** The zero-page and zero-page,X cases that read their operand byte
    themselves. *)
Definition zero_page_opcodes : list Z :=
  [0xA5; 0x85; 0x86; 0x84; 0x06; 0x26; 0x46; 0x66; 0x05; 0x25; 0x45; 0x65;
   0xE5; 0xC5; 0xE4; 0xC4; 0x24; 0x95; 0xB5; 0x75].

(** The cases of the dispatcher that call [readOperandsAbsoluteAddress]. *)
Definition absolute_helper_opcodes : list Z :=
  [0x2E; 0x4E; 0x6E; 0x0D; 0x2D; 0x4D; 0xE6; 0xEE; 0xC6; 0xCE;
   0x6D; 0xED; 0xCD; 0xEC; 0xCC; 0x2C].

(** The operand bytes that follow the opcode, and the 16-bit operand. *)
Definition operand_low (s : NESemulator) : Z :=
  fst (readMemory (_programCounter s) s).

Definition operand_high (s : NESemulator) : Z :=
  fst (readMemory (ushort (_programCounter s + 1)) s).

Definition operand16 (s : NESemulator) : Z :=
  ushort ((operand_high s << 8) .| operand_low s).

(** Two states with the same registers, flags, counters and streams; they
    may differ in RAM, ROM and header. *)
Definition forget_memory (s : NESemulator) : NESemulator :=
  set_ram [] (set_rom [] (set_header [] s)).

Definition same_cpu (s t : NESemulator) : Prop :=
  forget_memory s = forget_memory t.

(** The state after the two operand fetches, before the bus is set. *)
Definition fetched_operands (s : NESemulator) : NESemulator :=
  let '(_, s) := readMemory (_programCounter s) s in
  let s := incPC s in
  let '(_, s) := readMemory (_programCounter s) s in
  incPC s.

(** [INC $0210] (absolute): the operand bytes are 0x10 and 0x02. *)
Definition inc_0210 : NESemulator :=
  machine (replicate 0x10 0 ++ [0x41]) [0xEE; 0x10; 0x02] 0x8001.

(** What each case behind [readOperandsAbsoluteAddress] leaves in the RAM
    cell it addresses, in A, in Carry and in Zero, for the byte [v] found
    in that cell and the registers and flags of [s] on entry: the cell
    written, for the shifts, rotations, INC and DEC; the accumulator, for
    the logical and arithmetic operations; the two flags, for all. *)
Definition helper_effect (opcode v : Z) (s : NESemulator)
  : Z * Z * bool * bool :=
  let a := _A s in
  let c := _flagCarry s in
  let written w carry := (w, a, carry, w =? 0) in
  let loaded r carry := (v, r, carry, r =? 0) in
  let compared r := (v, a, v <=? r, r =? v) in
  if opcode =? 0x2E then written ((2 * v + b2z c) mod 256) (128 <=? v)
  else if opcode =? 0x4E then (v / 2, a, Z.odd v, _flagZero s)
  else if opcode =? 0x6E then written (v / 2 + 128 * b2z c) (Z.odd v)
  else if (opcode =? 0xE6) || (opcode =? 0xEE)
       then written ((v + 1) mod 256) c
  else if (opcode =? 0xC6) || (opcode =? 0xCE)
       then written ((v - 1) mod 256) c
  else if opcode =? 0x0D then loaded (Z.lor a v) c
  else if opcode =? 0x2D then loaded (Z.land a v) c
  else if opcode =? 0x4D then loaded (Z.lxor a v) c
  else if opcode =? 0x6D
       then loaded ((a + v + b2z c) mod 256) (255 <? a + v + b2z c)
  else if opcode =? 0xED
       then loaded ((a - v - (1 - b2z c)) mod 256)
                   (0 <=? a - v - (1 - b2z c))
  else if opcode =? 0xCD then compared a
  else if opcode =? 0xEC then compared (_X s)
  else if opcode =? 0xCC then compared (_Y s)
  else (v, a, c, Z.land a v =? 0).

(** ** Definitions used in the statements about whole steps and runs *)

(** [reads_added old new]: [new] is [old] with invalid-read lines for
    unmapped addresses written after it. *)
Inductive reads_added (old : list output) : list output -> Prop :=
| reads_added_none : reads_added old old
| reads_added_line (a : Z) (l : list output) :
    0x800 <= a < 0x8000 -> reads_added old l ->
    reads_added old (InvalidMemoryRead a :: l).

(** The ranges that the C++ types give the fields, and the array sizes. *)
Record wf_state (s : NESemulator) : Prop := mk_wf {
  wf_pc : 0 <= _programCounter s < 65536;
  wf_A : byte (_A s);
  wf_X : byte (_X s);
  wf_Y : byte (_Y s);
  wf_sp : byte (_stackPointer s);
  wf_ram_length : Z.of_nat (length (_ram s)) = 0x800;
  wf_rom_length : Z.of_nat (length (_rom s)) = 0x8000;
  wf_ram : Forall byte (_ram s);
  wf_rom : Forall byte (_rom s)
}.

(** A state without what was written to the two streams. *)
Definition forget_streams (s : NESemulator) : NESemulator :=
  set_cerr [] (set_cout [] s).

(** [cpu_steps n s]: [n] steps without the trace line. *)
Fixpoint cpu_steps (n : nat) (s : NESemulator) : NESemulator :=
  match n with
  | O => s
  | S n' => cpu_steps n' (emulateCPU s)
  end.

(** The two results of [readMemory], the byte and the error stream, as
    functions of the address and of what they depend on. *)
Definition peek (address : Z) (ram rom : list Z) : Z :=
  if address <? 0x800 then cell ram (address mod 0x800)
  else if address >=? 0x8000 then cell rom (address - 0x8000)
  else 0.

Definition note (address : Z) (log : list output) : list output :=
  if address <? 0x800 then log
  else if address >=? 0x8000 then log
  else InvalidMemoryRead address :: log.

(** [wf_state] as a test. *)
Definition byteb (x : Z) : bool := (0 <=? x) && (x <? 256).

Definition wf_stateb (s : NESemulator) : bool :=
  (0 <=? _programCounter s) && (_programCounter s <? 65536)
  && byteb (_A s) && byteb (_X s) && byteb (_Y s) && byteb (_stackPointer s)
  && (Z.of_nat (length (_ram s)) =? 0x800)
  && (Z.of_nat (length (_rom s)) =? 0x8000)
  && forallb byteb (_ram s) && forallb byteb (_rom s).

(** ** Construction and [main]

    The constructor leaves [_addressBus], [_header] and the six flags
    uninitialised; their values on entry are an input of the model. *)

Record uninitialised : Type := mkUninitialised {
  u_addressBus : Z;
  u_header : list Z;
  u_flagCarry : bool;
  u_flagZero : bool;
  u_flagInterruptDisable : bool;
  u_flagDecimal : bool;
  u_flagOverflow : bool;
  u_flagNegative : bool
}.

Definition construct (filePath : string) (u : uninitialised) : NESemulator :=
  mkNES true filePath 0 0 0 0 (u_addressBus u) (u_header u)
    (replicate (Z.to_nat 0x800) 0) (replicate (Z.to_nat 0x8000) 0)
    (u_flagCarry u) (u_flagZero u) (u_flagInterruptDisable u)
    (u_flagDecimal u) (u_flagOverflow u) (u_flagNegative u)
    0xFF false 0 [] [].

(** [main] constructs the emulator, calls [init] and [run].  The model
    returns what [run] returns, and [None] when [init] has no defined
    behaviour. *)
Definition main (file : romFile) (u : uninitialised) : option (Z * NESemulator) :=
  let emulator := construct "5_Instructions1.nes" u in
  match init file emulator with
  | Returned emulator => Some (run emulator)
  | Undefined _ => None
  end.

(** Pushing a list of bytes, first element first, and pulling [n] bytes. *)
Fixpoint pushAll (l : list Z) (s : NESemulator) : NESemulator :=
  match l with
  | [] => s
  | v :: l' => pushAll l' (pushStack v s)
  end.

Fixpoint pullN (n : nat) (s : NESemulator) : list Z * NESemulator :=
  match n with
  | O => ([], s)
  | S n' =>
      let '(v, s) := pullStack s in
      let '(vs, s) := pullN n' s in
      (v :: vs, s)
  end.

(** The status byte that PHP and BRK push. *)
Definition status_byte (n v d i z c : bool) : Z :=
  uint8 ((b2z n << 7) .| (b2z v << 6) .| (1 << 5) .| (1 << 4) .|
         (b2z d << 3) .| (b2z i << 2) .| (b2z z << 1) .| b2z c).

(** The six flags, in the order Negative, Overflow, Decimal,
    InterruptDisable, Zero, Carry. *)
Definition flags (s : NESemulator) : bool * bool * bool * bool * bool * bool :=
  (_flagNegative s, _flagOverflow s, _flagDecimal s,
   _flagInterruptDisable s, _flagZero s, _flagCarry s).

(** BRK at 0x8000 with the interrupt vector pointing at an RTI at 0x8002. *)
Definition interrupt_return : NESemulator :=
  machine []
    ([0x00; 0xEA; 0x40] ++ replicate (Z.to_nat 0x7FFB) 0 ++ [0x02; 0x80])
    0x8000.

(** The condition under which each branch opcode branches. *)
Definition branch_condition (opcode : Z) (s : NESemulator) : option bool :=
  if opcode =? 0x10 then Some (negb (_flagNegative s))
  else if opcode =? 0x30 then Some (_flagNegative s)
  else if opcode =? 0x50 then Some (negb (_flagOverflow s))
  else if opcode =? 0x70 then Some (_flagOverflow s)
  else if opcode =? 0x90 then Some (negb (_flagCarry s))
  else if opcode =? 0xB0 then Some (_flagCarry s)
  else if opcode =? 0xD0 then Some (negb (_flagZero s))
  else if opcode =? 0xF0 then Some (_flagZero s)
  else None.

(** The registers A, X, Y and the stack pointer. *)
Definition registers (s : NESemulator) : Z * Z * Z * Z :=
  (_A s, _X s, _Y s, _stackPointer s).

(** The register that each immediate compare reads. *)
Definition compared_register (opcode : Z) (s : NESemulator) : option Z :=
  if opcode =? 0xC9 then Some (_A s)
  else if opcode =? 0xE0 then Some (_X s)
  else if opcode =? 0xC0 then Some (_Y s)
  else None.

(** The cases that leave a result in a register and set Zero and Negative
    from it, each with that register: the loads, PLA, the transfers other
    than TXS, the register increments and decrements, the accumulator
    shifts, and the logical and arithmetic operations on A. *)
Definition result_registers : list (Z * (NESemulator -> Z)) :=
  [(0xA9, _A); (0xA5, _A); (0xAD, _A); (0xB5, _A); (0xB9, _A); (0xBD, _A);
   (0xA2, _X); (0xA0, _Y); (0x68, _A);
   (0xAA, _X); (0xA8, _Y); (0x8A, _A); (0x98, _A); (0xBA, _X);
   (0xE8, _X); (0xC8, _Y); (0xCA, _X); (0x88, _Y);
   (0x0A, _A); (0x4A, _A); (0x6A, _A);
   (0x09, _A); (0x05, _A); (0x0D, _A); (0x29, _A); (0x25, _A); (0x2D, _A);
   (0x49, _A); (0x45, _A); (0x4D, _A);
   (0x69, _A); (0x65, _A); (0x6D, _A); (0x75, _A);
   (0xE9, _A); (0xE5, _A); (0xED, _A)].

(** The line that [traceLog] prints in state [s] for the opcode at the
    program counter, and the lines of [n] iterations of the loop of [run],
    newest first. *)
Definition trace_line (s : NESemulator) : output :=
  TraceLine (_programCounter s) (fst (readMemory (_programCounter s) s))
    (_A s) (_X s) (_Y s) (_stackPointer s) (_flagNegative s)
    (_flagOverflow s) (_flagDecimal s) (_flagInterruptDisable s)
    (_flagZero s) (_flagCarry s) (_cycleCount s).

Fixpoint trace (n : nat) (s : NESemulator) : list output :=
  match n with
  | O => []
  | S n' => trace n' (run_body s) ++ [trace_line s]
  end.

(** The cases that call [writeMemory]: the stores, PHA, PHP, JSR, BRK, the
    shifts and rotations of memory, INC and DEC. *)
Definition ram_writers : list Z :=
  [0x85; 0x8D; 0x86; 0x8E; 0x84; 0x8C; 0x95; 0x91; 0x81;
   0x48; 0x08; 0x20; 0x00;
   0x06; 0x0E; 0x26; 0x2E; 0x46; 0x4E; 0x66; 0x6E;
   0xE6; 0xEE; 0xC6; 0xCE].

Definition writes_ram (opcode : Z) : bool :=
  existsb (Z.eqb opcode) ram_writers.

(** The bytes that ROL and ROR on the zero page store, as functions of the
    byte read and the carry on entry. *)
Definition rol (v : Z) (c : bool) : Z :=
  uint8 ((v << 1) .| (if c then 1 else 0)).

Definition ror (v : Z) (c : bool) : Z :=
  if c then uint8 (uint8 (v >> 1) .| 0x80) else uint8 (v >> 1).

(** * Properties *)

(** ** Tactics *)

(** Case analysis on every test the goal branches on. *)
Ltac split_ifs :=
  repeat match goal with
         | |- context [if ?c then _ else _] => destruct c eqn:?
         end.

(** Reduce projections of updated states, and nothing else. *)
Ltac fields :=
  cbn [fst snd _loggingEnabled _filePath _programCounter _A _X _Y
       _addressBus _header _ram _rom _flagCarry _flagZero
       _flagInterruptDisable _flagDecimal _flagOverflow _flagNegative
       _stackPointer _cpuHalted _cycleCount cerr cout
       set_programCounter set_A set_X set_Y set_addressBus set_header
       set_ram set_rom set_flagCarry set_flagZero set_flagInterruptDisable
       set_flagDecimal set_flagOverflow set_flagNegative set_stackPointer
       set_cpuHalted set_cycleCount set_cerr set_cout
       incPC addCycles writeMemory pushStack] in *.

(** Decide the address tests of [readMemory] one after the other. *)
Ltac reads :=
  unfold pullStack, readOperandsAbsoluteAddress, readMemory in *; fields;
  repeat (match goal with
          | |- context [if ?c then _ else _] => destruct c eqn:?
          end; fields).

(** Unfold projections and setters everywhere, for goals about whole states
    built from a record literal. *)
Ltac norm :=
  cbv beta iota zeta delta
      [fst snd _loggingEnabled _filePath _programCounter _A _X _Y
       _addressBus _header _ram _rom _flagCarry _flagZero
       _flagInterruptDisable _flagDecimal _flagOverflow _flagNegative
       _stackPointer _cpuHalted _cycleCount cerr cout
       set_programCounter set_A set_X set_Y set_addressBus set_header
       set_ram set_rom set_flagCarry set_flagZero set_flagInterruptDisable
       set_flagDecimal set_flagOverflow set_flagNegative set_stackPointer
       set_cpuHalted set_cycleCount set_cerr set_cout
       incPC addCycles writeMemory forget_memory] in *.

(** [reads] for such goals, once [readMemory] is unfolded. *)
Ltac split_literal :=
  norm;
  repeat (match goal with
          | |- context [if ?c then _ else _] => destruct c eqn:?
          end; norm).

(** One goal for each element of a membership hypothesis. *)
Ltac each_in H :=
  cbn [In] in H; repeat (destruct H as [<- | H]; [|]); [..|destruct H].

(** Walk down the binary digits of an opcode until the [match] of the
    dispatcher is decided. *)
Ltac dig p H :=
  first [ reflexivity
        | discriminate H
        | destruct p as [p|p|]; dig p H ].

(** ** Arithmetic of bytes and addresses *)

Lemma ushort_range (x : Z) : 0 <= ushort x < 65536.
Proof. unfold ushort. apply Z.mod_pos_bound. lia. Qed.

Lemma ushort_idem (x : Z) : ushort (ushort x) = ushort x.
Proof. unfold ushort. apply Zmod_mod. Qed.

Lemma ushort_add_l (x y : Z) : ushort (ushort x + y) = ushort (x + y).
Proof. unfold ushort. apply Zplus_mod_idemp_l. Qed.

Lemma ushort_plus_2 (p : Z) : ushort (ushort (p + 1) + 1) = ushort (p + 2).
Proof. rewrite ushort_add_l. f_equal. lia. Qed.

Lemma ushort_plus_3 (p : Z) :
  ushort (ushort (ushort (p + 1) + 1) + 1) = ushort (p + 3).
Proof. rewrite ushort_plus_2, ushort_add_l. f_equal. lia. Qed.

Lemma ushort_pred_succ (x : Z) : ushort (ushort (ushort x - 1) + 1) = ushort x.
Proof.
  rewrite ushort_add_l. unfold ushort.
  replace (x mod 65536 - 1 + 1) with (x mod 65536) by lia.
  apply Zmod_mod.
Qed.

Lemma return_address_no_wrap (p : Z) :
  0 <= p -> p + 3 < 65536 -> ushort (p + 3) = p + 3.
Proof. intros H0 H1. unfold ushort. apply Z.mod_small. lia. Qed.

Lemma uint8_range (x : Z) : byte (uint8 x).
Proof. unfold byte, uint8. apply Z.mod_pos_bound. lia. Qed.

Lemma uint8_byte (x : Z) : byte x -> uint8 x = x.
Proof. unfold byte, uint8. intros H. now apply Z.mod_small. Qed.

Lemma uint8_idem (x : Z) : uint8 (uint8 x) = uint8 x.
Proof. unfold uint8. apply Zmod_mod. Qed.

Lemma uint8_pred_succ (x : Z) : uint8 (uint8 (x - 1) + 1) = uint8 x.
Proof. unfold uint8. rewrite Zplus_mod_idemp_l. f_equal. lia. Qed.

Lemma uint8_pred_pred (x : Z) : uint8 (uint8 (x - 1) - 1) = uint8 (x - 2).
Proof. unfold uint8. rewrite Zminus_mod_idemp_l. f_equal. lia. Qed.

Lemma uint8_lt_0x800 (x : Z) : (uint8 x <? 0x800) = true.
Proof. apply Z.ltb_lt. pose proof (uint8_range x) as H. unfold byte in H. lia. Qed.

Lemma uint8_mod_0x800 (x : Z) : uint8 x mod 0x800 = uint8 x.
Proof. apply Z.mod_small. pose proof (uint8_range x) as H. unfold byte in H. lia. Qed.

Lemma stack_address (sp : Z) :
  byte sp -> ushort (0x0100 + sp) mod 0x800 = 0x0100 + sp.
Proof.
  unfold byte, ushort. intros H.
  rewrite (Z.mod_small (0x0100 + sp) 65536) by lia. apply Z.mod_small. lia.
Qed.

(** A 16-bit value is the join of its high and low byte. *)
Lemma join_bytes (x : Z) : ((x >> 8) << 8) .| (x .& 0xFF) = x.
Proof.
  apply Z.bits_inj'. intros n Hn.
  rewrite Z.lor_spec, Z.land_spec.
  change 0xFF with (Z.ones 8).
  destruct (Z.lt_ge_cases n 8) as [Hlt|Hge].
  - rewrite Z.shiftl_spec_low by lia. rewrite Z.ones_spec_low by lia.
    now rewrite andb_true_r.
  - rewrite Z.shiftl_spec by lia. rewrite Z.shiftr_spec by lia.
    rewrite Z.ones_spec_high by lia. rewrite andb_false_r, orb_false_r.
    f_equal. lia.
Qed.

Lemma low_byte (hi lo : Z) : uint8 (ushort ((hi << 8) .| lo)) = uint8 lo.
Proof.
  unfold uint8, ushort. change 65536 with (2 ^ 16). change 256 with (2 ^ 8).
  apply Z.bits_inj'. intros n Hn.
  destruct (Z.lt_ge_cases n 8) as [Hlt|Hge].
  - rewrite !Z.mod_pow2_bits_low by lia.
    rewrite Z.lor_spec, Z.shiftl_spec_low by lia. reflexivity.
  - rewrite !Z.mod_pow2_bits_high by lia. reflexivity.
Qed.

Lemma high_byte_range (x : Z) : 0 <= x < 65536 -> byte (x >> 8).
Proof.
  unfold byte. intros H. rewrite Z.shiftr_div_pow2 by lia.
  change (2 ^ 8) with 256. split.
  - apply Z.div_pos; lia.
  - apply Z.div_lt_upper_bound; lia.
Qed.

Lemma low_byte_range (x : Z) : byte (x .& 0xFF).
Proof.
  unfold byte. change 0xFF with (Z.ones 8). rewrite Z.land_ones by lia.
  apply Z.mod_pos_bound. lia.
Qed.

Lemma bytes_complete (x : Z) : byte x -> In x bytes.
Proof.
  unfold byte, bytes. intros H. apply in_map_iff. exists (Z.to_nat x).
  split; [lia|]. apply in_seq. lia.
Qed.

Lemma forall_bytes (P : Z -> bool) :
  forallb P bytes = true -> forall x, byte x -> P x = true.
Proof.
  intros H x Hx. rewrite forallb_forall in H. apply H, bytes_complete, Hx.
Qed.

(** Exhaustive check over all bytes and both carries. *)
Lemma forall_byte_pairs (P : Z -> Z -> bool -> bool) :
  forallb (fun a => forallb (fun b => P a b false && P a b true) bytes) bytes
  = true ->
  forall a b cin, byte a -> byte b -> P a b cin = true.
Proof.
  intros H a b cin Ha Hb.
  pose proof (forall_bytes _ H a Ha) as H1. cbv beta in H1.
  pose proof (forall_bytes _ H1 b Hb) as H2. cbv beta in H2.
  apply andb_prop in H2. destruct cin; tauto.
Qed.

(** ** Array cells *)

Lemma cell_store_eq (a : list Z) (i v : Z) :
  0 <= i < Z.of_nat (length a) -> cell (store a i v) i = v.
Proof.
  intros H. unfold cell, store. rewrite nth_lookup.
  rewrite list_lookup_insert_eq by lia. reflexivity.
Qed.

Lemma cell_store_ne (a : list Z) (i j v : Z) :
  0 <= i -> 0 <= j -> i <> j -> cell (store a i v) j = cell a j.
Proof.
  intros Hi Hj H. unfold cell, store. rewrite !nth_lookup.
  rewrite list_lookup_insert_ne by lia. reflexivity.
Qed.

Lemma cell_store_same (a b : list Z) (i v : Z) :
  length a = length b -> cell (store a i v) i = cell (store b i v) i.
Proof.
  intros H. unfold cell, store. rewrite !nth_lookup.
  destruct (decide (Z.to_nat i < length a)%nat) as [Hlt|Hge].
  - rewrite !list_lookup_insert_eq by lia. reflexivity.
  - rewrite !list_insert_ge by lia.
    rewrite (lookup_ge_None_2 a), (lookup_ge_None_2 b) by lia. reflexivity.
Qed.

Lemma store_length (a : list Z) (i v : Z) :
  length (store a i v) = length a.
Proof. unfold store. apply length_insert. Qed.

(** ** Address space *)

Lemma readMemory_frame (a : Z) (s : NESemulator) :
  let s' := snd (readMemory a s) in
  _programCounter s' = _programCounter s /\ _A s' = _A s /\ _X s' = _X s /\
  _Y s' = _Y s /\ _addressBus s' = _addressBus s /\ _ram s' = _ram s /\
  _rom s' = _rom s /\ _header s' = _header s /\
  _flagCarry s' = _flagCarry s /\ _flagZero s' = _flagZero s /\
  _flagInterruptDisable s' = _flagInterruptDisable s /\
  _flagDecimal s' = _flagDecimal s /\ _flagOverflow s' = _flagOverflow s /\
  _flagNegative s' = _flagNegative s /\ _stackPointer s' = _stackPointer s /\
  _cpuHalted s' = _cpuHalted s /\ _cycleCount s' = _cycleCount s /\
  cout s' = cout s /\ _loggingEnabled s' = _loggingEnabled s.
Proof. unfold readMemory. split_ifs; cbn; repeat split. Qed.

(** The byte a read returns depends on RAM and ROM only. *)
Lemma readMemory_value (a : Z) (s t : NESemulator) :
  _ram s = _ram t -> _rom s = _rom t ->
  fst (readMemory a s) = fst (readMemory a t).
Proof. intros Hram Hrom. unfold readMemory. rewrite Hram, Hrom. reads; reflexivity. Qed.

(** The read window of the code: RAM below 0x800, ROM from 0x8000, and
    the unmapped branch for everything in between. *)
Lemma readMemory_ram (a : Z) (s : NESemulator) :
  0 <= a < 0x800 -> readMemory a s = (cell (_ram s) a, s).
Proof.
  intros H. unfold readMemory.
  destruct (Z.ltb_spec a 0x800); [|lia]. now rewrite Z.mod_small.
Qed.

Lemma readMemory_rom (a : Z) (s : NESemulator) :
  0x8000 <= a -> readMemory a s = (cell (_rom s) (a - 0x8000), s).
Proof.
  intros H. unfold readMemory.
  destruct (Z.ltb_spec a 0x800); [lia|].
  destruct (Z.geb_spec a 0x8000); [reflexivity|lia].
Qed.

Lemma readMemory_unmapped (a : Z) (s : NESemulator) :
  0x800 <= a < 0x8000 ->
  readMemory a s = (0, set_cerr (InvalidMemoryRead a :: cerr s) s).
Proof.
  intros H. unfold readMemory.
  destruct (Z.ltb_spec a 0x800); [lia|].
  destruct (Z.geb_spec a 0x8000); [lia|reflexivity].
Qed.

(** C3. A read at 0x0800, inside the 8 KiB mirror window, is answered by
    the unmapped branch: it yields 0 and writes the invalid-read line,
    whatever the work RAM holds; [writeMemory] at the same address does
    store into RAM cell 0. *)
Theorem readMemory_0x0800_unmapped (s : NESemulator) :
  readMemory 0x0800 s
  = (0, set_cerr (InvalidMemoryRead 0x0800 :: cerr s) s)
  /\ _ram (writeMemory 0x0800 0x05 s) = store (_ram s) 0 0x05.
Proof. split; reflexivity. Qed.

(** ** Image load *)

(** C4. [reset] has no size test.  On a 20-byte image it reports nothing,
    installs the first 16 bytes as the header, and then copies the ROM from
    a range that ends 32764 bytes past the end of the input. *)
Theorem reset_short_image_overruns (s : NESemulator) :
  exists s',
    reset (Readable (replicate 20 0x4E)) s = Undefined s'
    /\ _header s' = replicate 16 0x4E
    /\ _rom s' = _rom s
    /\ cerr s' = cerr s.
Proof. eexists. split; [reflexivity|]. cbn. repeat split. Qed.

(** Any image shorter than header plus ROM ends in a copy past the end of
    the input, with nothing written to the error stream. *)
Lemma reset_short_image (headeredRom : list Z) (s : NESemulator) :
  Z.of_nat (length headeredRom) < 0x10 + 0x8000 ->
  exists s',
    reset (Readable headeredRom) s = Undefined s'
    /\ _rom s' = _rom s /\ cerr s' = cerr s.
Proof.
  intros H. unfold reset, copy.
  destruct (Z.leb_spec (0x10 + 0x8000) (Z.of_nat (length headeredRom)))
    as [Hge|_]; [lia|].
  destruct (0x10 <=? Z.of_nat (length headeredRom));
    eexists; (split; [reflexivity|]); fields; split; reflexivity.
Qed.

(** An image of at least header plus ROM size is installed: 16 header
    bytes, then 32768 ROM bytes, and the program counter is loaded from
    the vector in the last four bytes but two of the ROM. *)
Lemma reset_full_image (headeredRom : list Z) (s : NESemulator) :
  0x10 + 0x8000 <= Z.of_nat (length headeredRom) ->
  exists s',
    reset (Readable headeredRom) s = Returned s'
    /\ _header s' = take 16 headeredRom
    /\ _rom s' = take (Z.to_nat 0x8000) (drop 16 headeredRom)
    /\ _programCounter s'
       = ushort ((cell (_rom s') 0x7FFD << 8) .| cell (_rom s') 0x7FFC)
    /\ _stackPointer s' = 0xFD
    /\ cerr s' = cerr s.
Proof.
  intros H. unfold reset, copy.
  destruct (Z.leb_spec (0x10 + 0x8000) (Z.of_nat (length headeredRom)))
    as [_|Hlt]; [|lia].
  destruct (Z.leb_spec 0x10 (Z.of_nat (length headeredRom)))
    as [_|Hlt]; [|lia].
  rewrite !readMemory_rom by lia.
  eexists. split; [reflexivity|]. fields. repeat split.
Qed.

(** ** Fetch and dispatch *)

Lemma emulateCPU_fetch (s : NESemulator) :
  emulateCPU s
  = handleOpcode (fst (readMemory (_programCounter s) s))
      (incPC (snd (readMemory (_programCounter s) s))).
Proof.
  unfold emulateCPU. now destruct (readMemory (_programCounter s) s).
Qed.

(** The state in which a case of the dispatcher starts: the opcode has
    been read and the program counter moved past it. *)
Lemma fetched_fields (s : NESemulator) :
  let s0 := incPC (snd (readMemory (_programCounter s) s)) in
  _programCounter s0 = ushort (_programCounter s + 1)
  /\ _stackPointer s0 = _stackPointer s
  /\ _ram s0 = _ram s /\ _rom s0 = _rom s.
Proof. reads; repeat split. Qed.

Lemma handleOpcode_default (opcode : Z) (s : NESemulator) :
  has_case opcode = false -> handleOpcode opcode s = unknownOpcode opcode s.
Proof.
  intros H. destruct opcode as [|p|p]; [discriminate H| |reflexivity].
  dig p H.
Qed.

(** C8. A step that fetches an opcode with no case sets Halted, writes the
    unknown-opcode line, moves the program counter one byte past the
    opcode, and changes nothing else: registers, stack pointer, the six
    flags, RAM, ROM, header and cycle count keep their values. *)
Theorem unknown_opcode_halts (s : NESemulator) :
  let opcode := fst (readMemory (_programCounter s) s) in
  has_case opcode = false ->
  let s' := emulateCPU s in
  _cpuHalted s' = true
  /\ cerr s' = UnknownOpcode opcode :: cerr s
  /\ _programCounter s' = ushort (_programCounter s + 1)
  /\ _A s' = _A s /\ _X s' = _X s /\ _Y s' = _Y s
  /\ _stackPointer s' = _stackPointer s
  /\ _flagCarry s' = _flagCarry s /\ _flagZero s' = _flagZero s
  /\ _flagInterruptDisable s' = _flagInterruptDisable s
  /\ _flagDecimal s' = _flagDecimal s
  /\ _flagOverflow s' = _flagOverflow s
  /\ _flagNegative s' = _flagNegative s
  /\ _ram s' = _ram s /\ _rom s' = _rom s /\ _header s' = _header s
  /\ _cycleCount s' = _cycleCount s
  /\ cout s' = cout s.
Proof.
  intros opcode H s'. subst s'. unfold emulateCPU.
  destruct (readMemory (_programCounter s) s) as [op s1] eqn:E.
  cbn [fst] in opcode. subst opcode.
  rewrite handleOpcode_default by exact H.
  unfold readMemory in E. revert E. split_ifs; intros E; inversion E; subst.
  - cbn. repeat split.
  - cbn. repeat split.
  - discriminate H.
Qed.

Example unknown_opcode_0xFF :
  has_case 0xFF = false
  /\ _cpuHalted (emulateCPU (machine [] [0xFF] 0x8000)) = true
  /\ _programCounter (emulateCPU (machine [] [0xFF] 0x8000)) = 0x8001.
Proof. vm_compute. repeat split; reflexivity. Qed.

(** The theorem at a ROM that starts with the byte 0xFF. *)
Lemma unknown_opcode_halts_witness :
  has_case 0xFF = false
  /\ _cpuHalted (emulateCPU (machine [] [0xFF] 0x8000)) = true.
Proof.
  split; [reflexivity|].
  refine (proj1 (unknown_opcode_halts (machine [] [0xFF] 0x8000) _)).
  vm_compute. reflexivity.
Defined.

(** ** Branch timing *)

(** C2. BEQ costs 5 cycles when the branch is taken and 4 when it is not,
    whatever the branch target: the case adds the base cost of 2 and then
    3 or 2 more, and has no page-crossing test.  (The claim's figures, 4 for
    a taken page-crossing branch and 2 for a branch not taken, are those of
    the BNE case.) *)
Theorem BEQ_cycle_cost (s : NESemulator) :
  _cycleCount (handleOpcode 0xF0 s)
  = _cycleCount s + (if _flagZero s then 5 else 4).
Proof.
  change (handleOpcode 0xF0 s) with (BEQ s).
  unfold BEQ, readMemory. split_ifs; cbn in *; try congruence; lia.
Qed.

(** The failing inputs of C2, run through a whole step: a BEQ at 0x8000
    that is not taken, and a BEQ at 0x80FD whose target 0x8104 lies in the
    next page. *)
Example BEQ_not_taken_costs_4 :
  _cycleCount (emulateCPU (machine [] [0xF0; 0x05] 0x8000)) = 4.
Proof. vm_compute. reflexivity. Qed.

Example BEQ_taken_page_cross_costs_5 :
  let s := set_flagZero true
             (machine [] (replicate 0xFD 0xEA ++ [0xF0; 0x05]) 0x80FD) in
  _programCounter (emulateCPU s) = 0x8104 /\ _cycleCount (emulateCPU s) = 5.
Proof. vm_compute. split; reflexivity. Qed.

(** BNE, the one branch case with the documented cost: 2 when not taken,
    3 when taken within the page, 4 when the target is in another page. *)
Lemma BNE_cycle_cost (s : NESemulator) :
  let offset := fst (readMemory (_programCounter s) s) in
  let oldPC := ushort (_programCounter s + 1) in
  let newPC := ushort (oldPC + int8 offset) in
  _cycleCount (handleOpcode 0xD0 s)
  = _cycleCount s
    + (if _flagZero s then 2
       else if (oldPC .& 0xFF00) =? (newPC .& 0xFF00) then 3 else 4).
Proof.
  change (handleOpcode 0xD0 s) with (BNE s). unfold BNE.
  reads; cbn [negb] in *; try discriminate; lia.
Qed.

(** ** Logical shift right *)

(** C6. LSR Absolute stores the shifted value and sets Carry, and leaves
    the Zero and Negative flags as they were. *)
Theorem LSR_Absolute_keeps_Zero_Negative (s : NESemulator) :
  _flagZero (handleOpcode 0x4E s) = _flagZero s
  /\ _flagNegative (handleOpcode 0x4E s) = _flagNegative s.
Proof.
  change (handleOpcode 0x4E s) with (LSR_Absolute s).
  unfold LSR_Absolute, readOperandsAbsoluteAddress, readMemory.
  split_ifs; cbn; split; reflexivity.
Qed.

Example LSR_Absolute_step :
  let s := set_flagNegative true (machine [0x01] [0x4E; 0x00; 0x00] 0x8000) in
  cell (_ram (emulateCPU s)) 0 = 0
  /\ _flagZero (emulateCPU s) = false /\ _flagNegative (emulateCPU s) = true.
Proof. vm_compute. repeat split; reflexivity. Qed.

(** LSR on the accumulator and on a zero-page cell does set all three
    flags. *)
Lemma LSR_Accumulator_flags (s : NESemulator) :
  let s' := handleOpcode 0x4A s in
  _A s' = uint8 (_A s >> 1)
  /\ _flagCarry s' = Z.testbit (_A s) 0
  /\ _flagZero s' = (_A s' =? 0)
  /\ _flagNegative s' = false.
Proof.
  change (handleOpcode 0x4A s) with (LSR_Accumulator s).
  unfold LSR_Accumulator. fields. repeat split.
  unfold nonzero. change 0x01 with (Z.ones 1).
  rewrite Z.land_ones by lia. change (2 ^ 1) with 2.
  rewrite Z.bit0_odd, Zodd_mod.
  destruct (Z.eqb_spec (_A s mod 2) 0) as [->|Hne]; [reflexivity|].
  destruct (Z.eqb_spec (_A s mod 2) 1) as [E|E]; [reflexivity|].
  pose proof (Z.mod_pos_bound (_A s) 2). lia.
Qed.

Lemma LSR_ZeroPage_flags (s : NESemulator) :
  let zpAddr := fst (readMemory (_programCounter s) s) in
  let value := fst (readMemory zpAddr s) in
  let s' := handleOpcode 0x46 s in
  _ram s' = store (_ram s) (zpAddr mod 0x800) (uint8 (value >> 1))
  /\ _flagCarry s' = nonzero (value .& 1)
  /\ _flagZero s' = (uint8 (value >> 1) =? 0)
  /\ _flagNegative s' = false.
Proof.
  change (handleOpcode 0x46 s) with (LSR_ZeroPage s). unfold LSR_ZeroPage.
  reads; repeat split.
Qed.

(** ** Operand bytes of the zero-page cases *)

(** C7. INC Zero Page and DEC Zero Page fetch two operand bytes: the case
    is entered with the program counter one past the opcode and leaves it
    two further on, three past the opcode. *)
Theorem INC_DEC_ZeroPage_consume_two_bytes (s : NESemulator) :
  _programCounter (handleOpcode 0xE6 s)
  = ushort (ushort (_programCounter s + 1) + 1)
  /\ _programCounter (handleOpcode 0xC6 s)
     = ushort (ushort (_programCounter s + 1) + 1).
Proof.
  change (handleOpcode 0xE6 s) with (INC_ZeroPage s).
  change (handleOpcode 0xC6 s) with (DEC_ZeroPage s).
  unfold INC_ZeroPage, DEC_ZeroPage, readOperandsAbsoluteAddress, readMemory.
  split_ifs; cbn; split; reflexivity.
Qed.

Example INC_ZeroPage_step :
  _programCounter (emulateCPU (machine [] [0xE6; 0x10; 0xEA] 0x8000)) = 0x8003.
Proof. vm_compute. reflexivity. Qed.

(** Every other zero-page and zero-page,X case fetches one operand
    byte. *)
Lemma zero_page_cases_consume_one_byte (opcode : Z) (s : NESemulator) :
  In opcode zero_page_opcodes ->
  _programCounter (handleOpcode opcode s) = ushort (_programCounter s + 1).
Proof.
  intros H. unfold zero_page_opcodes in H.
  each_in H; cbv beta iota delta [handleOpcode];
    unfold LDA_ZeroPage, STA_ZeroPage, STX_ZeroPage, STY_ZeroPage,
      ASL_ZeroPage, ROL_ZeroPage, LSR_ZeroPage, ROR_ZeroPage, ORA_ZeroPage,
      AND_ZeroPage, EOR_ZeroPage, ADC_ZeroPage, SBC_ZeroPage, CMP_ZeroPage,
      CPX_ZeroPage, CPY_ZeroPage, BIT_ZeroPage, STA_ZeroPageX,
      LDA_ZeroPageX, ADC_ZeroPageX, opORA, opAND, opEOR, opADC, opSBC,
      opCMP, opBIT;
    reads; reflexivity.
Qed.

(** ** The 8-bit address bus *)

(** After [readOperandsAbsoluteAddress] the bus holds the low operand byte;
    in every case that follows, RAM is read and written through the bus. *)
Ltac bus :=
  repeat match goal with
         | H : (uint8 _ <? 0x800) = false |- _ =>
             rewrite uint8_lt_0x800 in H; discriminate H
         end;
  rewrite ?low_byte, ?uint8_mod_0x800 in *.

Ltac run_case :=
  cbv beta iota delta [handleOpcode];
  unfold ROL_Absolute, LSR_Absolute, ROR_Absolute, ORA_Absolute,
    AND_Absolute, EOR_Absolute, INC_ZeroPage, INC_Absolute, DEC_ZeroPage,
    DEC_Absolute, ADC_Absolute, SBC_Absolute, CMP_Absolute, CPX_Absolute,
    CPY_Absolute, BIT_Absolute, opROL, opINC, opDEC, opORA, opAND, opEOR,
    opADC, opSBC, opCMP, opBIT;
  reads; bus.

Ltac each_opcode H :=
  unfold absolute_helper_opcodes in H; each_in H.

Lemma bus_is_low_operand_byte (opcode : Z) (s : NESemulator) :
  In opcode absolute_helper_opcodes ->
  _addressBus (handleOpcode opcode s) = uint8 (operand_low s).
Proof.
  intros H. unfold operand_low.
  each_opcode H; run_case; reflexivity.
Qed.

Lemma ram_written_at_bus_only (opcode : Z) (s : NESemulator) (i : Z) :
  In opcode absolute_helper_opcodes ->
  0 <= i -> i <> uint8 (operand_low s) ->
  cell (_ram (handleOpcode opcode s)) i = cell (_ram s) i.
Proof.
  intros H Hi. unfold operand_low.
  pose proof uint8_range as Hr. unfold byte in Hr.
  each_opcode H; run_case; intros Hne;
    try reflexivity;
    (rewrite cell_store_ne; [reflexivity | apply Hr | exact Hi | congruence]).
Qed.

Lemma readOperandsAbsoluteAddress_bus (s : NESemulator) :
  readOperandsAbsoluteAddress s
  = set_addressBus (uint8 (operand_low s)) (fetched_operands s).
Proof.
  unfold readOperandsAbsoluteAddress, fetched_operands, operand_low.
  destruct (readMemory (_programCounter s) s) as [lo s1]. cbn [fst].
  destruct (readMemory (_programCounter (incPC s1)) (incPC s1)) as [hi s2].
  now rewrite low_byte.
Qed.

Lemma fetched_operands_frame (s t : NESemulator) :
  same_cpu s t ->
  same_cpu (fetched_operands s) (fetched_operands t)
  /\ _ram (fetched_operands s) = _ram s
  /\ _ram (fetched_operands t) = _ram t.
Proof.
  intros Hcpu. destruct s, t. unfold same_cpu in *. norm.
  injection Hcpu as -> -> -> -> -> -> -> -> -> -> -> -> -> -> -> -> -> ->.
  unfold fetched_operands, readMemory. split_literal; repeat split.
Qed.

Ltac after_operands s t b Fcpu Hcell Hlen :=
  rewrite !readOperandsAbsoluteAddress_bus;
  match goal with E : b = operand_low t |- _ => rewrite <- E end;
  fold b;
  generalize dependent (fetched_operands s);
  generalize dependent (fetched_operands t);
  clear; intros t1 s1 Hcell Hlen Fcpu;
  destruct s1, t1; unfold same_cpu in *; norm;
  injection Fcpu as -> -> -> -> -> -> -> -> -> -> -> -> -> -> -> -> -> ->;
  unfold readMemory; norm; rewrite ?uint8_lt_0x800, ?uint8_mod_0x800 in *;
  split_literal; try rewrite Hcell;
  (split; [reflexivity
          | first [reflexivity | apply cell_store_same; exact Hlen]]).

Lemma case_depends_on_low_byte_and_cell (opcode : Z) (s t : NESemulator) :
  In opcode absolute_helper_opcodes ->
  same_cpu s t ->
  operand_low s = operand_low t ->
  cell (_ram s) (uint8 (operand_low s)) = cell (_ram t) (uint8 (operand_low s)) ->
  length (_ram s) = length (_ram t) ->
  same_cpu (handleOpcode opcode s) (handleOpcode opcode t)
  /\ cell (_ram (handleOpcode opcode s)) (uint8 (operand_low s))
     = cell (_ram (handleOpcode opcode t)) (uint8 (operand_low s)).
Proof.
  intros H Hcpu Hlo Hcell Hlen.
  destruct (fetched_operands_frame s t Hcpu) as (Fcpu & Fs & Ft).
  rewrite <- Fs, <- Ft in Hcell, Hlen. clear Fs Ft.
  set (b := operand_low s) in *.
  each_opcode H; cbv beta iota delta [handleOpcode];
    unfold ROL_Absolute, LSR_Absolute, ROR_Absolute, ORA_Absolute,
      AND_Absolute, EOR_Absolute, INC_ZeroPage, INC_Absolute, DEC_ZeroPage,
      DEC_Absolute, ADC_Absolute, SBC_Absolute, CMP_Absolute, CPX_Absolute,
      CPY_Absolute, BIT_Absolute, opROL, opINC, opDEC, opORA, opAND, opEOR,
      opADC, opSBC, opCMP, opBIT;
    after_operands s t b Fcpu Hcell Hlen.
Qed.

(** ** Subroutine call and return *)

Lemma JSR_fields (s : NESemulator) :
  let pc := _programCounter s in
  let low := fst (readMemory pc s) in
  let high := fst (readMemory (ushort (pc + 1)) s) in
  let returnAddr := ushort (ushort (ushort (pc + 1) + 1) - 1) in
  let sp := _stackPointer s in
  _programCounter (JSR s) = ushort ((high << 8) .| low)
  /\ _stackPointer (JSR s) = uint8 (uint8 (sp - 1) - 1)
  /\ _ram (JSR s)
     = store (store (_ram s) (ushort (0x0100 + sp) mod 0x800)
                (uint8 (returnAddr >> 8)))
         (ushort (0x0100 + uint8 (sp - 1)) mod 0x800)
         (uint8 (returnAddr .& 0xFF)).
Proof. unfold JSR. reads; repeat split. Qed.

Lemma RTS_fields (s : NESemulator) :
  let sp1 := uint8 (_stackPointer s + 1) in
  let sp2 := uint8 (sp1 + 1) in
  let tempLow := fst (readMemory (ushort (0x0100 + sp1)) s) in
  let tempHigh := fst (readMemory (ushort (0x0100 + sp2)) s) in
  _programCounter (RTS s) = ushort (ushort ((tempHigh << 8) .| tempLow) + 1)
  /\ _stackPointer (RTS s) = sp2.
Proof. unfold RTS. reads; repeat split. Qed.

(** C9. JSR at address p with operand T pushes the return address p + 3
    minus one, high byte first (at stack slot SP) and low byte second (at
    slot SP - 1), and jumps to T.  An RTS executed later, with the stack
    pointer where JSR left it and the two stack slots intact, pulls the low
    byte, then the high byte, adds one, and so sets the program counter to
    p + 3; the stack pointer is back at its value before the JSR.  All
    addresses are 16-bit and the stack pointer is 8-bit, with wrap-around. *)
Theorem JSR_RTS_round_trip (s t : NESemulator) :
  byte (_stackPointer s) ->
  Z.of_nat (length (_ram s)) = 0x800 ->
  let p := _programCounter s in
  fst (readMemory p s) = 0x20 ->
  let low := fst (readMemory (ushort (p + 1)) s) in
  let high := fst (readMemory (ushort (p + 2)) s) in
  let T := ushort ((high << 8) .| low) in
  let ret := ushort (p + 3) in
  let pushed := ushort (ret - 1) in
  let sp := _stackPointer s in
  let s1 := emulateCPU s in
  _programCounter s1 = T
  /\ cell (_ram s1) (0x0100 + sp) = pushed >> 8
  /\ cell (_ram s1) (0x0100 + uint8 (sp - 1)) = pushed .& 0xFF
  /\ _stackPointer s1 = uint8 (sp - 2)
  /\ (fst (readMemory (_programCounter t) t) = 0x60 ->
      _stackPointer t = _stackPointer s1 ->
      cell (_ram t) (0x0100 + sp) = cell (_ram s1) (0x0100 + sp) ->
      cell (_ram t) (0x0100 + uint8 (sp - 1))
      = cell (_ram s1) (0x0100 + uint8 (sp - 1)) ->
      _programCounter (emulateCPU t) = ret
      /\ _stackPointer (emulateCPU t) = sp).
Proof.
  intros Hsp Hlen p Hop low high T ret pushed sp s1.
  (* the JSR step *)
  assert (E1 : s1 = JSR (incPC (snd (readMemory p s))))
    by (subst s1; rewrite emulateCPU_fetch; fold p; rewrite Hop; reflexivity).
  destruct (fetched_fields s) as (F1 & F2 & F3 & F4). cbv zeta in F1, F2, F3, F4.
  fold p in F1, F2, F3, F4.
  destruct (JSR_fields (incPC (snd (readMemory p s)))) as (Jpc & Jsp & Jram).
  cbv zeta in Jpc, Jsp, Jram. rewrite <- E1 in Jpc, Jsp, Jram.
  rewrite F1, F2, F3 in *.
  rewrite (readMemory_value _ _ s F3 F4) in Jpc.
  rewrite (readMemory_value _ _ s F3 F4) in Jpc.
  rewrite ushort_plus_2 in Jpc. rewrite ushort_plus_3 in Jram.
  fold sp in Jsp, Jram. fold ret in Jram. fold pushed in Jram.
  assert (Hsp1 : byte (uint8 (sp - 1))) by apply uint8_range.
  rewrite !stack_address in Jram by assumption.
  assert (Hpushed : 0 <= pushed < 65536) by apply ushort_range.
  rewrite (uint8_byte (pushed >> 8)) in Jram by now apply high_byte_range.
  rewrite (uint8_byte (pushed .& 0xFF)) in Jram by apply low_byte_range.
  assert (Hne : 0x0100 + uint8 (sp - 1) <> 0x0100 + sp).
  { unfold byte, uint8 in *. Z.div_mod_to_equations. lia. }
  assert (C1 : cell (_ram s1) (0x0100 + sp) = pushed >> 8).
  { rewrite Jram. unfold byte in *. rewrite cell_store_ne by lia.
    apply cell_store_eq. lia. }
  assert (C2 : cell (_ram s1) (0x0100 + uint8 (sp - 1)) = pushed .& 0xFF).
  { rewrite Jram. apply cell_store_eq.
    rewrite store_length. unfold byte in *. lia. }
  split; [exact Jpc|]. split; [exact C1|]. split; [exact C2|].
  split; [rewrite Jsp; apply uint8_pred_pred|].
  (* the RTS step *)
  intros Hop' Hsp' Hc1 Hc2.
  rewrite emulateCPU_fetch, Hop'.
  change (handleOpcode 0x60 ?x) with (RTS x).
  destruct (fetched_fields t) as (_ & G2 & G3 & G4). cbv zeta in G2, G3, G4.
  destruct (RTS_fields (incPC (snd (readMemory (_programCounter t) t))))
    as (Rpc & Rsp).
  cbv zeta in Rpc, Rsp. rewrite G2, Hsp', Jsp in Rpc, Rsp.
  repeat (rewrite uint8_pred_succ in Rpc, Rsp
          || rewrite uint8_idem in Rpc, Rsp).
  rewrite (uint8_byte sp) in Rpc, Rsp by assumption.
  assert (A1 : ushort (0x0100 + sp) = 0x0100 + sp)
    by (unfold ushort, byte in *; apply Z.mod_small; lia).
  assert (A2 : ushort (0x0100 + uint8 (sp - 1)) = 0x0100 + uint8 (sp - 1))
    by (unfold ushort, byte in *; apply Z.mod_small; lia).
  rewrite A1, A2 in Rpc.
  rewrite (readMemory_value _ _ t G3 G4) in Rpc.
  rewrite (readMemory_value _ _ t G3 G4) in Rpc.
  rewrite (readMemory_ram (0x0100 + sp)) in Rpc by (unfold byte in *; lia).
  rewrite (readMemory_ram (0x0100 + uint8 (sp - 1))) in Rpc
    by (unfold byte in *; lia).
  cbn [fst] in Rpc.
  rewrite Hc1, Hc2, C1, C2, join_bytes in Rpc.
  split; [|exact Rsp].
  rewrite Rpc. unfold pushed, ret. rewrite ushort_idem.
  apply ushort_pred_succ.
Qed.

(** The theorem at [call_return]: JSR at 0x8000 to 0x8005, RTS back to
    0x8003. *)
Lemma JSR_RTS_round_trip_witness :
  _programCounter (emulateCPU call_return) = 0x8005
  /\ _programCounter (emulateCPU (emulateCPU call_return)) = 0x8003.
Proof.
  assert (Hsp : byte (_stackPointer call_return))
    by (change (byte 0xFD); unfold byte; lia).
  assert (Hlen : Z.of_nat (length (_ram call_return)) = 0x800)
    by (vm_compute; reflexivity).
  assert (Hop : fst (readMemory (_programCounter call_return) call_return)
                = 0x20) by (vm_compute; reflexivity).
  destruct (JSR_RTS_round_trip call_return (emulateCPU call_return)
              Hsp Hlen Hop) as (Hpc & _ & _ & _ & Hrts).
  split.
  - rewrite Hpc. vm_compute. reflexivity.
  - destruct Hrts as [Hret _];
      [vm_compute; reflexivity | reflexivity | reflexivity | reflexivity |].
    rewrite Hret. vm_compute. reflexivity.
Defined.

(** ** ADC and SBC *)

Lemma opADC_fields (b : Z) (s : NESemulator) :
  let sum := adc_sum (_A s) b (_flagCarry s) in
  _A (opADC b s) = uint8 sum
  /\ _flagCarry (opADC b s) = (sum >? 0xFF)
  /\ _flagOverflow (opADC b s)
     = nonzero (Z.lnot (_A s .^ b) .& (_A s .^ sum) .& 0x80).
Proof. repeat split. Qed.

Lemma opSBC_fields (b : Z) (s : NESemulator) :
  let result := sbc_result (_A s) b (_flagCarry s) in
  _A (opSBC b s) = result
  /\ _flagCarry (opSBC b s)
     = nonzero (sbc_intermediate (_A s) b (_flagCarry s) .& 0x100)
  /\ _flagOverflow (opSBC b s)
     = nonzero ((_A s .^ result) .& (_A s .^ b) .& 0x80).
Proof. repeat split. Qed.

(** ADC: the documented overflow test is signed overflow of the sum. *)
Lemma adc_overflow_signed (a b : Z) (cin : bool) :
  byte a -> byte b ->
  nonzero (Z.lnot (a .^ b) .& (a .^ adc_sum a b cin) .& 0x80)
  = negb (fits_int8 (signed a + signed b + b2z cin)).
Proof.
  intros Ha Hb. apply Bool.eqb_prop.
  apply (forall_byte_pairs (fun a b cin =>
    Bool.eqb (nonzero (Z.lnot (a .^ b) .& (a .^ adc_sum a b cin) .& 0x80))
             (negb (fits_int8 (signed a + signed b + b2z cin)))));
    [vm_compute; reflexivity | assumption | assumption].
Qed.

(** SBC: subtraction with borrow = 1 - carry. *)
Lemma sbc_result_difference (a b : Z) (cin : bool) :
  byte a -> byte b ->
  sbc_result a b cin = (a - b - (1 - b2z cin)) mod 256.
Proof.
  intros Ha Hb. apply Z.eqb_eq.
  apply (forall_byte_pairs (fun a b cin =>
    sbc_result a b cin =? (a - b - (1 - b2z cin)) mod 256));
    [vm_compute; reflexivity | assumption | assumption].
Qed.

Lemma sbc_carry_no_borrow (a b : Z) (cin : bool) :
  byte a -> byte b ->
  nonzero (sbc_intermediate a b cin .& 0x100)
  = (0 <=? a - b - (1 - b2z cin)).
Proof.
  intros Ha Hb. apply Bool.eqb_prop.
  apply (forall_byte_pairs (fun a b cin =>
    Bool.eqb (nonzero (sbc_intermediate a b cin .& 0x100))
             (0 <=? a - b - (1 - b2z cin))));
    [vm_compute; reflexivity | assumption | assumption].
Qed.

Lemma sbc_overflow_signed (a b : Z) (cin : bool) :
  byte a -> byte b ->
  nonzero ((a .^ sbc_result a b cin) .& (a .^ b) .& 0x80)
  = negb (fits_int8 (signed a - signed b - (1 - b2z cin))).
Proof.
  intros Ha Hb. apply Bool.eqb_prop.
  apply (forall_byte_pairs (fun a b cin =>
    Bool.eqb (nonzero ((a .^ sbc_result a b cin) .& (a .^ b) .& 0x80))
             (negb (fits_int8 (signed a - signed b - (1 - b2z cin))))));
    [vm_compute; reflexivity | assumption | assumption].
Qed.

(** C10, as the code has it.  For bytes a and b and any carry-in:
    ADC leaves (a + b + carry-in) mod 256, Carry = (sum > 255) and
    Overflow = the documented test (~(a ^ b) & (a ^ sum) & 0x80) != 0, which
    is true exactly when the signed sum leaves the range -128..127; SBC
    then leaves (A - b - (1 - Carry)) mod 256, Carry = no borrow, and
    Overflow = the documented test ((A ^ result) & (A ^ b) & 0x80) != 0,
    true exactly when the signed difference leaves the range.  The pair
    leaves (a + carry-in + carry-out-of-ADC - 1) mod 256 in the
    accumulator: it restores a exactly when the carry ADC produces differs
    from the carry it was given. *)
Theorem ADC_then_SBC (s : NESemulator) (b : Z) :
  byte (_A s) -> byte b ->
  let a := _A s in
  let cin := _flagCarry s in
  let sum := a + b + b2z cin in
  let s1 := opADC b s in
  let s2 := opSBC b s1 in
  let diff := _A s1 - b - (1 - b2z (_flagCarry s1)) in
  _A s1 = sum mod 256
  /\ _flagCarry s1 = (sum >? 255)
  /\ _flagOverflow s1 = nonzero (Z.lnot (a .^ b) .& (a .^ sum) .& 0x80)
  /\ _flagOverflow s1 = negb (fits_int8 (signed a + signed b + b2z cin))
  /\ _A s2 = diff mod 256
  /\ _flagCarry s2 = (0 <=? diff)
  /\ _flagOverflow s2
     = nonzero ((_A s1 .^ _A s2) .& (_A s1 .^ b) .& 0x80)
  /\ _flagOverflow s2
     = negb (fits_int8 (signed (_A s1) - signed b - (1 - b2z (_flagCarry s1))))
  /\ _A s2 = (a + b2z cin + b2z (_flagCarry s1) - 1) mod 256
  /\ (_A s2 = a <-> _flagCarry s1 = negb cin).
Proof.
  intros Ha Hb. cbv zeta.
  destruct (opADC_fields b s) as (EA1 & EC1 & EV1).
  destruct (opSBC_fields b (opADC b s)) as (EA2 & EC2 & EV2).
  cbv zeta in EA1, EC1, EV1, EA2, EC2, EV2.
  assert (Ha1 : byte (_A (opADC b s)))
    by (rewrite EA1; apply Z.mod_pos_bound; lia).
  assert (H9 : _A (opSBC b (opADC b s))
               = (_A s + b2z (_flagCarry s) + b2z (_flagCarry (opADC b s)) - 1)
                 mod 256).
  { rewrite EA2, sbc_result_difference by assumption.
    rewrite EA1. unfold uint8, adc_sum.
    set (c1 := b2z (_flagCarry (opADC b s))).
    set (S := _A s + b + b2z (_flagCarry s)).
    replace (S mod 256 - b - (1 - c1)) with (S mod 256 - (b + (1 - c1)))
      by ring.
    rewrite Zminus_mod_idemp_l. f_equal. subst S. ring. }
  repeat match goal with |- _ /\ _ => split end.
  - exact EA1.
  - exact EC1.
  - exact EV1.
  - rewrite EV1. apply adc_overflow_signed; assumption.
  - rewrite EA2. apply sbc_result_difference; assumption.
  - rewrite EC2. apply sbc_carry_no_borrow; assumption.
  - rewrite EV2, EA2. reflexivity.
  - rewrite EV2. apply sbc_overflow_signed; assumption.
  - exact H9.
  - rewrite H9. clear - Ha. unfold byte in Ha.
    destruct (_flagCarry (opADC b s)), (_flagCarry s); cbn [b2z negb];
      (split; [intros E | intros E; try discriminate E]);
      try reflexivity; Z.div_mod_to_equations; lia.
Qed.

(** The theorem at a = 0x7F, b = 0x01 with Carry set: ADC overflows and
    clears Carry, and SBC restores 0x7F. *)
Lemma ADC_then_SBC_witness :
  let s := set_flagCarry true (set_A 0x7F blank) in
  _A (opSBC 0x01 (opADC 0x01 s)) = 0x7F
  /\ _flagOverflow (opADC 0x01 s) = true.
Proof.
  intros s.
  assert (Ha : byte (_A s)) by (unfold byte; cbn; lia).
  assert (Hb : byte 0x01) by (unfold byte; lia).
  pose proof (ADC_then_SBC s 0x01 Ha Hb)
    as (_ & Hc & _ & Hv & _ & _ & _ & _ & _ & Hr).
  split.
  - apply Hr. rewrite Hc. reflexivity.
  - rewrite Hv. reflexivity.
Defined.

(** C10, counterexample: with Carry clear, ADC #$01 on 0x7F gives 0x80 with
    Carry clear, and SBC #$01 then gives 0x7E, not 0x7F. *)
Lemma carry_clear_round_trip_off_by_one :
  let s := set_flagCarry false (set_A 0x7F blank) in
  byte (_A s) /\ byte 0x01
  /\ _A (opADC 0x01 s) = 0x80
  /\ _A (opSBC 0x01 (opADC 0x01 s)) = 0x7E
  /\ _A (opSBC 0x01 (opADC 0x01 s)) <> _A s.
Proof.
  cbv zeta. unfold byte.
  repeat match goal with |- _ /\ _ => split end;
    try (cbn; lia); try reflexivity.
  vm_compute. discriminate.
Qed.

(** The boundary inputs of the round trip, with Carry clear on entry: the
    accumulator, Carry and Overflow after ADC, and the same after SBC. *)
Example ADC_SBC_boundary_inputs :
  let after a b :=
    let s1 := opADC b (set_flagCarry false (set_A a blank)) in
    let s2 := opSBC b s1 in
    (_A s1, _flagCarry s1, _flagOverflow s1,
     (_A s2, _flagCarry s2, _flagOverflow s2)) in
  after 0x7F 0x01 = (0x80, false, true, (0x7E, true, true))
  /\ after 0x80 0xFF = (0x7F, true, true, (0x80, false, true))
  /\ after 0xFF 0x01 = (0x00, true, false, (0xFF, false, false)).
Proof. vm_compute. repeat split; reflexivity. Qed.

(** ** What the cases behind the helper read and write *)

Lemma fetched_operands_fields (s : NESemulator) :
  let t := fetched_operands s in
  _ram t = _ram s /\ _A t = _A s /\ _X t = _X s /\ _Y t = _Y s
  /\ _flagCarry t = _flagCarry s /\ _flagZero t = _flagZero s.
Proof. unfold fetched_operands. reads; repeat split. Qed.

Lemma rol_value (v : Z) (c : bool) :
  byte v ->
  (if c then uint8 (uint8 (v << 1) .| 1) else uint8 (v << 1))
  = (2 * v + b2z c) mod 256.
Proof.
  intros H. apply Z.eqb_eq. destruct c.
  - apply (forall_bytes
             (fun v => uint8 (uint8 (v << 1) .| 1) =? (2 * v + 1) mod 256));
      [vm_compute; reflexivity | exact H].
  - apply (forall_bytes (fun v => uint8 (v << 1) =? (2 * v + 0) mod 256));
      [vm_compute; reflexivity | exact H].
Qed.

Lemma lsr_value (v : Z) : byte v -> uint8 (v >> 1) = v / 2.
Proof.
  intros H. apply Z.eqb_eq.
  apply (forall_bytes (fun v => uint8 (v >> 1) =? v / 2));
    [vm_compute; reflexivity | exact H].
Qed.

Lemma ror_value (v : Z) (c : bool) :
  byte v ->
  (if c then uint8 (uint8 (v >> 1) .| 0x80) else uint8 (v >> 1))
  = v / 2 + 128 * b2z c.
Proof.
  intros H. apply Z.eqb_eq. destruct c.
  - apply (forall_bytes
             (fun v => uint8 (uint8 (v >> 1) .| 0x80) =? v / 2 + 128 * 1));
      [vm_compute; reflexivity | exact H].
  - apply (forall_bytes (fun v => uint8 (v >> 1) =? v / 2 + 128 * 0));
      [vm_compute; reflexivity | exact H].
Qed.

Lemma low_bit_odd (v : Z) : byte v -> nonzero (v .& 1) = Z.odd v.
Proof.
  intros H. apply Bool.eqb_prop.
  apply (forall_bytes (fun v => Bool.eqb (nonzero (v .& 1)) (Z.odd v)));
    [vm_compute; reflexivity | exact H].
Qed.

Lemma gtb_127 (v : Z) : (v >? 127) = (128 <=? v).
Proof.
  destruct (Z.gtb_spec v 127), (Z.leb_spec 128 v); (reflexivity || lia).
Qed.

Lemma byte_ones (x : Z) : byte x -> Z.land x (Z.ones 8) = x.
Proof.
  intros H. unfold byte in H. rewrite Z.land_ones by lia.
  apply Z.mod_small. exact H.
Qed.

Lemma uint8_ones (x : Z) : uint8 x = Z.land x (Z.ones 8).
Proof. unfold uint8. now rewrite Z.land_ones by lia. Qed.

Lemma lor_byte (a v : Z) : byte a -> byte v -> uint8 (a .| v) = Z.lor a v.
Proof.
  intros Ha Hv. rewrite uint8_ones, Z.land_lor_distr_l.
  now rewrite !byte_ones.
Qed.

Lemma land_byte (a v : Z) : byte a -> byte v -> uint8 (a .& v) = Z.land a v.
Proof.
  intros Ha Hv. rewrite uint8_ones, <- Z.land_assoc.
  now rewrite (byte_ones v).
Qed.

Lemma lxor_byte (a v : Z) : byte a -> byte v -> uint8 (a .^ v) = Z.lxor a v.
Proof.
  intros Ha Hv. apply Z.eqb_eq.
  refine (forall_byte_pairs (fun a v _ => uint8 (a .^ v) =? Z.lxor a v)
            _ a v true Ha Hv).
  vm_compute. reflexivity.
Qed.

Lemma helper_effect_of_cell (opcode : Z) (s : NESemulator) :
  In opcode absolute_helper_opcodes ->
  byte (_A s) ->
  byte (cell (_ram s) (uint8 (operand_low s))) ->
  256 <= Z.of_nat (length (_ram s)) ->
  let loc := uint8 (operand_low s) in
  let s' := handleOpcode opcode s in
  (cell (_ram s') loc, _A s', _flagCarry s', _flagZero s')
  = helper_effect opcode (cell (_ram s) loc) s.
Proof.
  intros H HA Hv Hlen loc. subst loc.
  pose proof (uint8_range (operand_low s)) as Hr. unfold byte in Hr.
  destruct (fetched_operands_fields s) as (Fram & FA & FX & FY & FC & FZ).
  cbv zeta in Fram, FA, FX, FY, FC, FZ.
  set (loc := uint8 (operand_low s)) in *.
  each_opcode H; unfold helper_effect; cbn [Z.eqb Pos.eqb orb];
    cbv beta iota delta [handleOpcode];
    unfold ROL_Absolute, LSR_Absolute, ROR_Absolute, ORA_Absolute,
      AND_Absolute, EOR_Absolute, INC_ZeroPage, INC_Absolute, DEC_ZeroPage,
      DEC_Absolute, ADC_Absolute, SBC_Absolute, CMP_Absolute, CPX_Absolute,
      CPY_Absolute, BIT_Absolute;
    rewrite readOperandsAbsoluteAddress_bus; fold loc;
    cbn [_addressBus set_addressBus];
    rewrite (readMemory_ram loc) by lia;
    unfold opROL, opINC, opDEC, opORA, opAND, opEOR, opADC, opSBC, opCMP,
      opBIT;
    fields; rewrite ?Fram, ?FA, ?FX, ?FY, ?FC, ?FZ;
    rewrite ?(Z.mod_small loc 0x800) by lia;
    rewrite ?cell_store_eq by lia;
    rewrite ?rol_value, ?ror_value, ?lsr_value, ?low_bit_odd, ?gtb_127,
      ?lor_byte, ?land_byte, ?lxor_byte, ?Z.geb_leb, ?Z.gtb_ltb
      by assumption;
    try reflexivity.
  rewrite <- (sbc_result_difference _ _ _ HA Hv).
  rewrite <- (sbc_carry_no_borrow _ _ _ HA Hv). reflexivity.
Qed.

(** C1. In each of the sixteen cases that resolve their operand through
    [readOperandsAbsoluteAddress], the address on the bus is the 16-bit
    operand modulo 256, which is the low operand byte.  The RAM cell at
    that index is the one the case works on: RAM is written at that index
    and nowhere else, and for the byte v found there the case leaves in
    that cell, in A, in Carry and in Zero what [helper_effect] gives for v
    (the rotated, shifted, incremented or decremented v in the cell; A
    combined with v in A; the comparison with v in the flags).  The outcome
    depends on memory only through the low operand byte and that cell: two
    states with the same registers and flags, the same low operand byte and
    the same value in that cell end with the same registers and flags and
    the same value in that cell, whatever their high operand bytes and the
    rest of their memory. *)
Theorem absolute_helper_uses_low_byte (opcode : Z) (s t : NESemulator) :
  In opcode absolute_helper_opcodes ->
  let loc := operand16 s mod 256 in
  _addressBus (handleOpcode opcode s) = loc
  /\ loc = operand_low s mod 256
  /\ (forall i, 0 <= i -> i <> loc ->
        cell (_ram (handleOpcode opcode s)) i = cell (_ram s) i)
  /\ (byte (_A s) -> byte (cell (_ram s) loc) ->
      256 <= Z.of_nat (length (_ram s)) ->
      (cell (_ram (handleOpcode opcode s)) loc, _A (handleOpcode opcode s),
       _flagCarry (handleOpcode opcode s), _flagZero (handleOpcode opcode s))
      = helper_effect opcode (cell (_ram s) loc) s)
  /\ (same_cpu s t ->
      operand_low s = operand_low t ->
      cell (_ram s) loc = cell (_ram t) loc ->
      length (_ram s) = length (_ram t) ->
      same_cpu (handleOpcode opcode s) (handleOpcode opcode t)
      /\ cell (_ram (handleOpcode opcode s)) loc
         = cell (_ram (handleOpcode opcode t)) loc).
Proof.
  intros H loc.
  assert (E : loc = uint8 (operand_low s)) by apply low_byte.
  rewrite E. split; [|split; [|split; [|split]]].
  - now apply bus_is_low_operand_byte.
  - reflexivity.
  - intros i Hi Hne. now apply ram_written_at_bus_only.
  - intros HA Hv Hlen. now apply helper_effect_of_cell.
  - now apply case_depends_on_low_byte_and_cell.
Qed.

(** The theorem at [INC $0210]: the bus holds 0x10, RAM cell 0x0210 is
    not touched, and RAM cell 0x10 goes from 0x41 to 0x42. *)
Lemma absolute_helper_uses_low_byte_witness :
  operand16 inc_0210 = 0x0210
  /\ _addressBus (handleOpcode 0xEE inc_0210) = 0x10
  /\ cell (_ram (handleOpcode 0xEE inc_0210)) 0x0210
     = cell (_ram inc_0210) 0x0210
  /\ cell (_ram (handleOpcode 0xEE inc_0210)) 0x10 = 0x42.
Proof.
  assert (H : In 0xEE absolute_helper_opcodes)
    by (unfold absolute_helper_opcodes; cbn [In];
        repeat first [left; reflexivity | right]).
  assert (L : operand16 inc_0210 mod 256 = 0x10) by (vm_compute; reflexivity).
  destruct (absolute_helper_uses_low_byte 0xEE inc_0210 inc_0210 H)
    as (Hbus & _ & Hframe & Heff & _).
  cbv zeta in Hbus, Hframe, Heff. rewrite L in Hbus, Hframe, Heff.
  split; [vm_compute; reflexivity|]. split; [exact Hbus|]. split.
  - apply Hframe; [lia | discriminate].
  - assert (HA : byte (_A inc_0210)) by (change (byte 0); unfold byte; lia).
    assert (Hv : byte (cell (_ram inc_0210) 0x10))
      by (change (byte 0x41); unfold byte; lia).
    assert (Hlen : 256 <= Z.of_nat (length (_ram inc_0210)))
      by (vm_compute; discriminate).
    specialize (Heff HA Hv Hlen).
    apply (f_equal (fun p => fst (fst (fst p)))) in Heff. cbn [fst] in Heff.
    rewrite Heff. reflexivity.
Defined.

Example INC_absolute_hits_zero_page :
  cell (_ram inc_0210) 0x10 = 0x41
  /\ cell (_ram (handleOpcode 0xEE inc_0210)) 0x10 = 0x42
  /\ cell (_ram (handleOpcode 0xEE inc_0210)) 0x0210 = 0.
Proof. vm_compute. repeat split; reflexivity. Qed.

(** ** The execution loop *)

(** Fuel beyond [1000 - i] is never used. *)
Lemma run_loop_fuel (fuel : nat) :
  forall i s, 1000 - i <= Z.of_nat fuel ->
              run_loop (S fuel) i s = run_loop fuel i s.
Proof.
  induction fuel as [|fuel IH]; intros i s Hi.
  - cbn [run_loop]. destruct (Z.ltb_spec i 1000); [lia|].
    now rewrite andb_false_r.
  - change (run_loop (S (S fuel)) i s)
      with (if negb (_cpuHalted s) && (i <? 1000)
            then run_loop (S fuel) (i + 1) (run_body s) else (i, s)).
    change (run_loop (S fuel) i s)
      with (if negb (_cpuHalted s) && (i <? 1000)
            then run_loop fuel (i + 1) (run_body s) else (i, s)).
    destruct (negb (_cpuHalted s) && (i <? 1000)); [|reflexivity].
    apply IH. lia.
Qed.

Lemma run_loop_more_fuel (extra : nat) (s : NESemulator) :
  run_loop (1000 + extra) 0 s = run_loop 1000 0 s.
Proof.
  induction extra as [|extra IH].
  - now rewrite Nat.add_0_r.
  - rewrite Nat.add_succ_r, run_loop_fuel by lia. exact IH.
Qed.

(** The loop performs [k] iterations, where [k] is the first index at
    which the guard fails. *)
Lemma run_loop_spec (fuel : nat) :
  forall i s, exists k : nat,
    run_loop fuel i s = (i + Z.of_nat k, run_steps k s)
    /\ (k <= fuel)%nat
    /\ (forall j, (j < k)%nat ->
          _cpuHalted (run_steps j s) = false /\ i + Z.of_nat j < 1000)
    /\ ((k < fuel)%nat ->
          _cpuHalted (run_steps k s) = true \/ 1000 <= i + Z.of_nat k).
Proof.
  induction fuel as [|fuel IH]; intros i s.
  - exists O. cbn [run_loop run_steps]. rewrite Z.add_0_r.
    split; [reflexivity|]. split; [lia|]. split; intros; lia.
  - cbn [run_loop].
    destruct (_cpuHalted s) eqn:Hh; cbn [negb andb].
    + exists O. cbn [run_steps]. rewrite Z.add_0_r.
      split; [reflexivity|]. split; [lia|]. split; [intros; lia|].
      intros _. now left.
    + destruct (Z.ltb_spec i 1000) as [Hi|Hi].
      * destruct (IH (i + 1) (run_body s)) as (k & E & Hk & Hj & Hstop).
        exists (S k). cbn [run_steps]. rewrite E.
        split; [f_equal; lia|]. split; [lia|]. split.
        -- intros [|j] Hlt; cbn [run_steps].
           ++ split; [exact Hh | lia].
           ++ destruct (Hj j ltac:(lia)) as [H1 H2]. split; [exact H1 | lia].
        -- intros Hlt. destruct (Hstop ltac:(lia)) as [H|H];
             [now left | right; lia].
      * exists O. cbn [run_steps]. rewrite Z.add_0_r.
        split; [reflexivity|]. split; [lia|]. split; [intros; lia|].
        intros _. right. lia.
Qed.

(** [run] stops at the first state with Halted set or after 1000
    iterations, whichever comes first. *)
Lemma run_spec (s : NESemulator) :
  exists k : nat,
    run s = (Z.of_nat k, run_steps k (run_start s))
    /\ (k <= 1000)%nat
    /\ (forall j, (j < k)%nat -> _cpuHalted (run_steps j (run_start s)) = false)
    /\ ((k < 1000)%nat -> _cpuHalted (run_steps k (run_start s)) = true).
Proof.
  destruct (run_loop_spec 1000 0 (run_start s)) as (k & E & Hk & Hj & Hstop).
  exists k. split; [exact E|]. split; [exact Hk|]. split.
  - intros j Hlt. apply (Hj j Hlt).
  - intros Hlt. destruct (Hstop Hlt) as [H|H]; [exact H | lia].
Qed.

Lemma never_halted_steps (n : nat) :
  forall s, never_halted n s = true ->
            forall k, (k <= n)%nat -> _cpuHalted (run_steps k s) = false.
Proof.
  induction n as [|n IH]; intros s H k Hk; cbn [never_halted] in H;
    apply andb_prop in H; destruct H as [H0 H1];
    apply negb_true_iff in H0.
  - replace k with O by lia. exact H0.
  - destruct k as [|k]; [exact H0|]. cbn [run_steps]. apply IH; [exact H1|lia].
Qed.

(** C5, as the code has it: besides Halted the loop has the step limit
    [i < 1000].  For every n below 1000, if Halted is still false after each
    of the first n steps, the loop performs an (n+1)-th step.  It never
    performs more than 1000 steps; it ends in the state reached by the
    steps it performed; it stops at Halted: every step it performs starts
    from a state in which Halted is false, so that it performs none when
    Halted is set at the start and none after the step that sets it; and
    if it stopped before the limit, Halted is set in the final state. *)
Theorem run_continues_below_limit (s : NESemulator) (n : nat) :
  ((n < 1000)%nat ->
   (forall k, (k <= n)%nat ->
      _cpuHalted (run_steps k (run_start s)) = false) ->
   Z.of_nat n + 1 <= fst (run s))
  /\ 0 <= fst (run s) <= 1000
  /\ snd (run s) = run_steps (Z.to_nat (fst (run s))) (run_start s)
  /\ (forall j, (j < Z.to_nat (fst (run s)))%nat ->
        _cpuHalted (run_steps j (run_start s)) = false)
  /\ (fst (run s) < 1000 -> _cpuHalted (snd (run s)) = true).
Proof.
  destruct (run_spec s) as (k & E & Hk & Hbefore & Hstop).
  rewrite E. cbn [fst snd]. rewrite Nat2Z.id.
  split; [|split; [lia|split; [reflexivity|split]]].
  - intros Hn Hrun.
    destruct (Nat.le_gt_cases k n) as [Hle|Hgt]; [|lia].
    rewrite Hrun in Hstop by exact Hle. discriminate Hstop. lia.
  - exact Hbefore.
  - intros Hlt. apply Hstop. lia.
Qed.

(** The theorem at the spinning program and n = 5. *)
Lemma run_continues_below_limit_witness :
  Z.of_nat 5 + 1 <= fst (run spin) <= 1000.
Proof.
  destruct (run_continues_below_limit spin 5) as (Hmore & Hmax & _).
  split; [|apply Hmax]. apply Hmore.
  - lia.
  - apply never_halted_steps. vm_compute. reflexivity.
Defined.

(** C5, counterexample: on the spinning program Halted is still false
    after 1000 steps, and the loop has stopped: there is no 1001st step. *)
Lemma run_stops_after_1000_steps :
  (forall k, (k <= 1000)%nat -> _cpuHalted (run_steps k (run_start spin)) = false)
  /\ fst (run spin) = 1000
  /\ ~ (Z.of_nat 1000 + 1 <= fst (run spin)).
Proof.
  assert (E : fst (run spin) = 1000) by (vm_compute; reflexivity).
  split; [|split].
  - apply never_halted_steps. vm_compute. reflexivity.
  - exact E.
  - rewrite E. lia.
Qed.

(** ** What every case keeps *)

Create HintDb cases.

#[local] Hint Unfold
  HLT LDY_Immediate LDX_Immediate LDA_ZeroPage LDA_Immediate LDA_Absolute
  STA_ZeroPage STA_Absolute STX_ZeroPage STX_Absolute STY_ZeroPage
  STY_Absolute BPL BMI BNE BEQ PHA PLA JSR RTS NOP INX INY DEX DEY TAX TXA
  TAY TYA TXS TSX SEC CLC CLV SEI CLI SED CLD PHP PLP ASL_Accumulator
  ASL_ZeroPage ASL_Absolute ROL_ZeroPage ROL_Absolute LSR_Accumulator
  LSR_ZeroPage LSR_Absolute ROR_Accumulator ROR_ZeroPage ROR_Absolute
  ORA_Immediate ORA_ZeroPage ORA_Absolute AND_Immediate AND_ZeroPage
  AND_Absolute EOR_Immediate EOR_ZeroPage EOR_Absolute INC_ZeroPage
  INC_Absolute DEC_ZeroPage DEC_Absolute ADC_Immediate ADC_ZeroPage
  ADC_Absolute SBC_Immediate SBC_ZeroPage SBC_Absolute CMP_Immediate
  CMP_ZeroPage CMP_Absolute CPX_Immediate CPX_ZeroPage CPX_Absolute
  CPY_Immediate CPY_ZeroPage CPY_Absolute BIT_ZeroPage BIT_Absolute BRK RTI
  JMP_Absolute BVS BCS BCC BVC LDA_AbsoluteY LDA_AbsoluteX JMP_Indirect
  STA_ZeroPageX LDA_ZeroPageX ADC_ZeroPageX STA_ZeroPageY STA_IndirectX
  opASL opROL opINC opDEC opORA opAND opEOR opADC opSBC opCMP opBIT : cases.

Lemma has_case_In (opcode : Z) : has_case opcode = true -> In opcode case_labels.
Proof.
  unfold has_case. intros H. apply existsb_exists in H.
  destruct H as (x & Hx & E). apply Z.eqb_eq in E. now subst.
Qed.

(** One goal for each case label, with the body of the case unfolded. *)
Ltac each_case H :=
  apply has_case_In in H; unfold case_labels in H; each_in H;
  cbv beta iota delta [handleOpcode]; autounfold with cases.

Ltac unmapped :=
  repeat match goal with
         | H : (_ <? _) = false |- _ => apply Z.ltb_ge in H
         | H : (_ >=? _) = false |- _ => rewrite Z.geb_leb in H; apply Z.leb_gt in H
         end; lia.

Ltac added := repeat first [apply reads_added_none | apply reads_added_line; [unmapped|]].

Lemma handleOpcode_keeps (opcode : Z) (s : NESemulator) :
  has_case opcode = true ->
  let s' := handleOpcode opcode s in
  _rom s' = _rom s /\ _header s' = _header s
  /\ length (_ram s') = length (_ram s)
  /\ cout s' = cout s
  /\ reads_added (cerr s) (cerr s')
  /\ (opcode = 0x02 /\ _cycleCount s' = _cycleCount s /\ _cpuHalted s' = true
      \/ opcode <> 0x02 /\ 2 <= _cycleCount s' - _cycleCount s <= 7
         /\ _cpuHalted s' = _cpuHalted s)
  /\ _loggingEnabled s' = _loggingEnabled s.
Proof.
  intros H.
  each_case H; reads;
    (split; [reflexivity|]); (split; [reflexivity|]);
    (split; [rewrite ?store_length; reflexivity|]);
    (split; [reflexivity|]); (split; [added|]);
    (split; [|reflexivity]);
    first [ left; split; [reflexivity|]; split; reflexivity
          | right; split; [discriminate|]; split; [lia|reflexivity] ].
Qed.

(** ** What every step keeps *)

Lemma reads_added_trans (a b c : list output) :
  reads_added a b -> reads_added b c -> reads_added a c.
Proof.
  intros Hab Hbc. induction Hbc as [|x l Hx Hl IH]; [exact Hab|].
  now apply reads_added_line.
Qed.

Lemma fetch_keeps (s : NESemulator) :
  let s0 := incPC (snd (readMemory (_programCounter s) s)) in
  _rom s0 = _rom s /\ _header s0 = _header s /\ _ram s0 = _ram s
  /\ cout s0 = cout s /\ reads_added (cerr s) (cerr s0)
  /\ _cycleCount s0 = _cycleCount s /\ _cpuHalted s0 = _cpuHalted s
  /\ _loggingEnabled s0 = _loggingEnabled s.
Proof. reads; repeat split; added. Qed.

Lemma emulateCPU_keeps (s : NESemulator) :
  let opcode := fst (readMemory (_programCounter s) s) in
  let s' := emulateCPU s in
  _rom s' = _rom s /\ _header s' = _header s
  /\ length (_ram s') = length (_ram s)
  /\ cout s' = cout s
  /\ (has_case opcode = true -> reads_added (cerr s) (cerr s'))
  /\ (if (opcode =? 0x02) || negb (has_case opcode)
      then _cycleCount s' = _cycleCount s
      else 2 <= _cycleCount s' - _cycleCount s <= 7)
  /\ _cpuHalted s'
     = _cpuHalted s || (opcode =? 0x02) || negb (has_case opcode)
  /\ _loggingEnabled s' = _loggingEnabled s.
Proof.
  intros opcode s'. subst s'. rewrite emulateCPU_fetch. fold opcode.
  destruct (fetch_keeps s) as (F1 & F2 & F3 & F4 & F5 & F6 & F7 & F8).
  cbv zeta in F1, F2, F3, F4, F5, F6, F7, F8.
  set (s0 := incPC (snd (readMemory (_programCounter s) s))) in *.
  destruct (has_case opcode) eqn:H.
  - destruct (handleOpcode_keeps opcode s0 H)
      as (K1 & K2 & K3 & K4 & K5 & K6 & K7).
    cbv zeta in K1, K2, K3, K4, K5, K6, K7.
    rewrite K1, K2, K3, K4, K7, F1, F2, F3, F4, F8. rewrite <- F6, <- F7.
    do 4 (split; [reflexivity|]).
    split; [intros _; exact (reads_added_trans _ _ _ F5 K5)|].
    cbn [negb]. rewrite !orb_false_r.
    destruct K6 as [(E & Hc & Hh)|(E & Hc & Hh)].
    + rewrite Hc, Hh, E. cbn. now rewrite orb_true_r.
    + apply Z.eqb_neq in E. rewrite Hh, E, orb_false_r.
      split; [lia|]. split; reflexivity.
  - rewrite handleOpcode_default by exact H. unfold unknownOpcode. fields.
    rewrite F1, F2, F3, F4, F6, F8. do 4 (split; [reflexivity|]).
    split; [discriminate|]. cbn [negb]. rewrite !orb_true_r.
    repeat split.
Qed.

Lemma run_body_keeps (s : NESemulator) :
  _rom (run_body s) = _rom s /\ _header (run_body s) = _header s
  /\ length (_ram (run_body s)) = length (_ram s).
Proof.
  unfold run_body.
  pose proof (readMemory_frame (_programCounter s) s) as F.
  destruct (readMemory (_programCounter s) s) as [op s1]. cbn [snd] in F.
  destruct F as (_ & _ & _ & _ & _ & Fram & From & Fhd & _).
  destruct (emulateCPU_keeps (traceLog op s1)) as (K1 & K2 & K3 & _).
  rewrite K1, K2, K3. unfold traceLog.
  destruct (_loggingEnabled s1); cbn [negb]; fields;
    rewrite ?Fram, ?From, ?Fhd; now repeat split.
Qed.

Lemma run_steps_keeps (n : nat) :
  forall s, _rom (run_steps n s) = _rom s
            /\ _header (run_steps n s) = _header s
            /\ length (_ram (run_steps n s)) = length (_ram s).
Proof.
  induction n as [|n IH]; intros s; [now repeat split|]. cbn [run_steps].
  destruct (IH (run_body s)) as (I1 & I2 & I3).
  destruct (run_body_keeps s) as (B1 & B2 & B3).
  rewrite I1, I2, I3. now repeat split.
Qed.

(** X1: ROM, header and the size of the RAM are the same after a step, and
    after a whole run. *)
Theorem rom_header_and_ram_size_are_kept (s : NESemulator) :
  (_rom (emulateCPU s) = _rom s
   /\ _header (emulateCPU s) = _header s
   /\ length (_ram (emulateCPU s)) = length (_ram s))
  /\ (_rom (snd (run s)) = _rom s
      /\ _header (snd (run s)) = _header s
      /\ length (_ram (snd (run s))) = length (_ram s)).
Proof.
  split.
  - destruct (emulateCPU_keeps s) as (K1 & K2 & K3 & _). now repeat split.
  - destruct (run_spec s) as (k & E & _). rewrite E. cbn [snd].
    destruct (run_steps_keeps k (run_start s)) as (K1 & K2 & K3).
    rewrite K1, K2, K3. unfold run_start. fields. now repeat split.
Qed.

(** X2: HLT and an opcode without a case cost nothing; every other step
    costs between 2 and 7 cycles. *)
Theorem step_cycle_cost (s : NESemulator) :
  let opcode := fst (readMemory (_programCounter s) s) in
  if (opcode =? 0x02) || negb (has_case opcode)
  then _cycleCount (emulateCPU s) = _cycleCount s
  else 2 <= _cycleCount (emulateCPU s) - _cycleCount s <= 7.
Proof.
  destruct (emulateCPU_keeps s) as (_ & _ & _ & _ & _ & K & _). exact K.
Qed.

(** X3: Halted is set by HLT and by an opcode without a case, and by nothing
    else; no step clears it. *)
Theorem halted_after_step (s : NESemulator) :
  let opcode := fst (readMemory (_programCounter s) s) in
  _cpuHalted (emulateCPU s)
  = _cpuHalted s || (opcode =? 0x02) || negb (has_case opcode).
Proof.
  destruct (emulateCPU_keeps s) as (_ & _ & _ & _ & _ & _ & K & _). exact K.
Qed.

(** X4: A step with a known opcode writes nothing to the output stream, and
    to the error stream only invalid-read lines, each for an address from
    0x0800 to 0x7FFF. *)
Theorem step_output (s : NESemulator) :
  has_case (fst (readMemory (_programCounter s) s)) = true ->
  cout (emulateCPU s) = cout s
  /\ reads_added (cerr s) (cerr (emulateCPU s)).
Proof.
  intros H. destruct (emulateCPU_keeps s) as (_ & _ & _ & K4 & K5 & _).
  split; [exact K4 | exact (K5 H)].
Qed.

(** The theorem at the JSR of [call_return]. *)
Lemma step_output_witness :
  cout (emulateCPU call_return) = cout call_return
  /\ reads_added (cerr call_return) (cerr (emulateCPU call_return)).
Proof. apply (step_output call_return). vm_compute. reflexivity. Defined.

(** ** Well-formed states *)

Lemma byte_0 : byte 0.
Proof. unfold byte. lia. Qed.

Lemma cell_byte (a : list Z) (i : Z) : Forall byte a -> byte (cell a i).
Proof.
  intros H. unfold cell. rewrite nth_lookup.
  destruct (a !! Z.to_nat i) as [x|] eqn:E; cbn; [|apply byte_0].
  exact (Forall_lookup_1 _ _ _ _ H E).
Qed.

Lemma store_byte (a : list Z) (i v : Z) :
  Forall byte a -> byte v -> Forall byte (store a i v).
Proof. intros Ha Hv. unfold store. now apply Forall_insert. Qed.

Ltac wf_goal :=
  repeat first
    [ assumption
    | apply byte_0
    | apply uint8_range
    | apply ushort_range
    | apply low_byte_range
    | apply cell_byte
    | apply store_byte
    | rewrite store_length ].

Lemma handleOpcode_wf (opcode : Z) (s : NESemulator) :
  wf_state s -> wf_state (handleOpcode opcode s).
Proof.
  intros [Hpc HA HX HY Hsp Hlen Hlen' Hram Hrom].
  destruct (has_case opcode) eqn:H.
  - each_case H; reads; (constructor; fields; wf_goal).
  - rewrite handleOpcode_default by exact H. unfold unknownOpcode.
    constructor; fields; assumption.
Qed.

Lemma byteb_byte (x : Z) : byteb x = true -> byte x.
Proof. unfold byteb, byte. lia. Qed.

Lemma forallb_byteb (l : list Z) : forallb byteb l = true -> Forall byte l.
Proof.
  intros H. apply Forall_forall. intros x Hx.
  apply byteb_byte. rewrite forallb_forall in H. apply H.
  now apply list_elem_of_In.
Qed.

Lemma wf_stateb_wf (s : NESemulator) : wf_stateb s = true -> wf_state s.
Proof.
  unfold wf_stateb. intros H.
  repeat (apply andb_prop in H; destruct H as [H ?]).
  constructor; try (apply byteb_byte; assumption);
    try (apply forallb_byteb; assumption); lia.
Qed.

Lemma fetch_wf (s : NESemulator) :
  wf_state s -> wf_state (incPC (snd (readMemory (_programCounter s) s))).
Proof.
  intros [Hpc HA HX HY Hsp Hlen Hlen' Hram Hrom].
  reads; (constructor; fields; wf_goal).
Qed.

Lemma emulateCPU_wf (s : NESemulator) : wf_state s -> wf_state (emulateCPU s).
Proof.
  intros H. rewrite emulateCPU_fetch. now apply handleOpcode_wf, fetch_wf.
Qed.

Lemma traced_wf (s : NESemulator) :
  wf_state s ->
  let '(opcode, s1) := readMemory (_programCounter s) s in
  wf_state (traceLog opcode s1).
Proof.
  intros [Hpc HA HX HY Hsp Hlen Hlen' Hram Hrom]. unfold traceLog.
  reads; (constructor; fields; wf_goal).
Qed.

Lemma run_body_wf (s : NESemulator) : wf_state s -> wf_state (run_body s).
Proof.
  intros H. unfold run_body. pose proof (traced_wf s H) as H1.
  destruct (readMemory (_programCounter s) s) as [opcode s1].
  now apply emulateCPU_wf.
Qed.

Lemma run_steps_wf (n : nat) :
  forall s, wf_state s -> wf_state (run_steps n s).
Proof.
  induction n as [|n IH]; intros s H; [exact H|].
  cbn [run_steps]. now apply IH, run_body_wf.
Qed.

Lemma run_wf (s : NESemulator) : wf_state s -> wf_state (snd (run s)).
Proof.
  intros [Hpc HA HX HY Hsp Hlen Hlen' Hram Hrom].
  destruct (run_spec s) as (k & E & _). rewrite E. cbn [snd].
  apply run_steps_wf. unfold run_start. constructor; fields; assumption.
Qed.

(** X5: A step, and a whole run, keep every register in the range of its C++
    type, the two arrays at their sizes, and every memory cell a byte. *)
Theorem step_and_run_keep_wf (s : NESemulator) :
  wf_state s -> wf_state (emulateCPU s) /\ wf_state (snd (run s)).
Proof. intros H. split; [now apply emulateCPU_wf | now apply run_wf]. Qed.

(** The theorem at [call_return]. *)
Lemma step_and_run_keep_wf_witness :
  wf_state (emulateCPU call_return) /\ wf_state (snd (run call_return)).
Proof.
  apply (step_and_run_keep_wf call_return).
  apply wf_stateb_wf. vm_compute. reflexivity.
Defined.

(** ** The streams do not feed back *)

Lemma readMemory_literal (a : Z) l f pc ra rx ry bus hd ram rom
      fc fz fi fd fv fn sp h cy e o :
  readMemory a (mkNES l f pc ra rx ry bus hd ram rom fc fz fi fd fv fn sp h cy e o)
  = (peek a ram rom,
     mkNES l f pc ra rx ry bus hd ram rom fc fz fi fd fv fn sp h cy (note a e) o).
Proof.
  unfold readMemory, peek, note. cbn [_ram _rom cerr set_cerr].
  destruct (a <? 0x800); [reflexivity|].
  destruct (a >=? 0x8000); reflexivity.
Qed.

Ltac literal :=
  cbv beta iota zeta delta
      [fst snd _loggingEnabled _filePath _programCounter _A _X _Y
       _addressBus _header _ram _rom _flagCarry _flagZero
       _flagInterruptDisable _flagDecimal _flagOverflow _flagNegative
       _stackPointer _cpuHalted _cycleCount cerr cout
       set_programCounter set_A set_X set_Y set_addressBus set_header
       set_ram set_rom set_flagCarry set_flagZero set_flagInterruptDisable
       set_flagDecimal set_flagOverflow set_flagNegative set_stackPointer
       set_cpuHalted set_cycleCount set_cerr set_cout
       incPC addCycles writeMemory pushStack pullStack
       readOperandsAbsoluteAddress forget_streams unknownOpcode].

(** Run a case on a record literal: replace each read by its two results,
    and split on the tests that remain. *)
Ltac run_literal :=
  literal;
  repeat (first [ rewrite !readMemory_literal
                | match goal with
                  | |- context [if ?c then _ else _] => destruct c
                  end ];
          literal).

Lemma handleOpcode_streams (opcode : Z) (s : NESemulator)
      (e o : list output) :
  forget_streams (handleOpcode opcode (set_cerr e (set_cout o s)))
  = forget_streams (handleOpcode opcode s).
Proof.
  destruct s. destruct (has_case opcode) eqn:H.
  - each_case H; run_literal; reflexivity.
  - rewrite !handleOpcode_default by exact H. reflexivity.
Qed.

Lemma literal_streams l f pc ra rx ry bus hd ram rom
      fc fz fi fd fv fn sp h cy (e o : list output) :
  mkNES l f pc ra rx ry bus hd ram rom fc fz fi fd fv fn sp h cy e o
  = set_cerr e (set_cout o
      (mkNES l f pc ra rx ry bus hd ram rom fc fz fi fd fv fn sp h cy [] [])).
Proof. reflexivity. Qed.

Lemma forget_streams_eq (s t : NESemulator) :
  forget_streams s = forget_streams t ->
  t = set_cerr (cerr t) (set_cout (cout t) s).
Proof.
  destruct s, t. unfold forget_streams. literal.
  intros H. injection H as -> -> -> -> -> -> -> -> -> -> -> -> -> -> -> -> -> -> ->.
  reflexivity.
Qed.

Lemma emulateCPU_literal l f pc ra rx ry bus hd ram rom
      fc fz fi fd fv fn sp h cy (e o : list output) :
  emulateCPU (mkNES l f pc ra rx ry bus hd ram rom fc fz fi fd fv fn sp h cy e o)
  = handleOpcode (peek pc ram rom)
      (mkNES l f (ushort (pc + 1)) ra rx ry bus hd ram rom
         fc fz fi fd fv fn sp h cy (note pc e) o).
Proof.
  unfold emulateCPU. cbn [_programCounter]. rewrite readMemory_literal.
  reflexivity.
Qed.

Lemma emulateCPU_restream (s : NESemulator) (e o : list output) :
  forget_streams (emulateCPU (set_cerr e (set_cout o s)))
  = forget_streams (emulateCPU s).
Proof.
  destruct s as [l f pc ra rx ry bus hd ram rom fc fz fi fd fv fn sp h cy e0 o0].
  cbv beta iota delta
      [set_cerr set_cout _loggingEnabled _filePath _programCounter _A _X _Y
       _addressBus _header _ram _rom _flagCarry _flagZero
       _flagInterruptDisable _flagDecimal _flagOverflow _flagNegative
       _stackPointer _cpuHalted _cycleCount cerr cout].
  rewrite !emulateCPU_literal.
  rewrite (literal_streams _ _ _ _ _ _ _ _ _ _ _ _ _ _ _ _ _ _ _
             (note _ e) o).
  rewrite (literal_streams _ _ _ _ _ _ _ _ _ _ _ _ _ _ _ _ _ _ _
             (note _ e0) o0).
  rewrite !handleOpcode_streams. reflexivity.
Qed.

Lemma emulateCPU_streams (s t : NESemulator) :
  forget_streams s = forget_streams t ->
  forget_streams (emulateCPU s) = forget_streams (emulateCPU t).
Proof.
  intros H. rewrite (forget_streams_eq s t H).
  symmetry. apply emulateCPU_restream.
Qed.

Lemma traced_streams (s : NESemulator) :
  let '(opcode, s1) := readMemory (_programCounter s) s in
  forget_streams (traceLog opcode s1) = forget_streams s.
Proof.
  destruct s as [l f pc ra rx ry bus hd ram rom fc fz fi fd fv fn sp h cy e0 o0].
  literal. rewrite readMemory_literal. unfold traceLog. literal.
  destruct l; reflexivity.
Qed.

Lemma run_body_streams (s : NESemulator) :
  forget_streams (run_body s) = forget_streams (emulateCPU s).
Proof.
  unfold run_body. pose proof (traced_streams s) as H.
  destruct (readMemory (_programCounter s) s) as [opcode s1].
  now apply emulateCPU_streams.
Qed.

(** X6: The trace does not feed back: registers, flags, memory, cycle count
    and Halted after n iterations of the loop body are those after n bare
    steps, with logging on or off; only the two streams differ. *)
Theorem trace_does_not_alter_core (n : nat) (s : NESemulator) :
  forget_streams (run_steps n s) = forget_streams (cpu_steps n s).
Proof.
  enough (H : forall t, forget_streams s = forget_streams t ->
                        forget_streams (run_steps n s)
                        = forget_streams (cpu_steps n t)) by now apply H.
  revert s. induction n as [|n IH]; intros s t H; [exact H|].
  cbn [run_steps cpu_steps]. apply IH.
  rewrite run_body_streams. now apply emulateCPU_streams.
Qed.

(** ** Power-on *)

Lemma construct_wf (filePath : string) (u : uninitialised) :
  wf_state (construct filePath u).
Proof.
  constructor; cbn [construct _programCounter _A _X _Y _stackPointer _ram _rom];
    try (unfold byte; lia);
    try (rewrite length_replicate; lia);
    apply Forall_replicate; unfold byte; lia.
Qed.

Lemma reset_wf (headeredRom : list Z) (s : NESemulator) :
  Forall byte headeredRom ->
  0x10 + 0x8000 <= Z.of_nat (length headeredRom) ->
  Z.of_nat (length (_ram s)) = 0x800 -> Forall byte (_ram s) ->
  exists s',
    reset (Readable headeredRom) s = Returned s' /\ wf_state s'
    /\ _header s' = take 16 headeredRom
    /\ _rom s' = take (Z.to_nat 0x8000) (drop 16 headeredRom)
    /\ _ram s' = _ram s
    /\ _programCounter s'
       = ushort ((cell (_rom s') 0x7FFD << 8) .| cell (_rom s') 0x7FFC)
    /\ (_A s', _X s', _Y s', _stackPointer s') = (0, 0, 0, 0xFD)
    /\ (_flagCarry s', _flagZero s', _flagInterruptDisable s',
        _flagDecimal s', _flagOverflow s', _flagNegative s')
       = (false, false, true, false, false, false)
    /\ cerr s' = cerr s /\ cout s' = cout s.
Proof.
  intros Hbytes Hlen Hram_len Hram. unfold reset, copy.
  destruct (Z.leb_spec (0x10 + 0x8000) (Z.of_nat (length headeredRom)))
    as [_|Hlt]; [|lia].
  destruct (Z.leb_spec 0x10 (Z.of_nat (length headeredRom)))
    as [_|Hlt]; [|lia].
  rewrite !readMemory_rom by lia.
  eexists. split; [reflexivity|]. fields.
  split; [|repeat split].
  constructor; fields; try (unfold byte; lia); try assumption.
  - apply ushort_range.
  - rewrite length_take, length_drop. lia.
  - apply Forall_take, Forall_drop, Hbytes.
Qed.

(** X7: With an image of bytes that holds at least header and ROM, [main]
    runs the program: the header is the first 16 bytes, the ROM the next
    32768 (further bytes are ignored), and the run of at most 1000 steps
    ends in a well-formed state with that ROM and header. *)
Theorem main_with_full_image (headeredRom : list Z) (u : uninitialised) :
  Forall byte headeredRom ->
  0x10 + 0x8000 <= Z.of_nat (length headeredRom) ->
  exists i s,
    main (Readable headeredRom) u = Some (i, s)
    /\ 0 <= i <= 1000
    /\ wf_state s
    /\ _header s = take 16 headeredRom
    /\ _rom s = take (Z.to_nat 0x8000) (drop 16 headeredRom).
Proof.
  intros Hbytes Hlen. unfold main, init.
  pose proof (construct_wf "5_Instructions1.nes" u) as Hc.
  destruct (reset_wf headeredRom (construct "5_Instructions1.nes" u) Hbytes Hlen
              (wf_ram_length _ Hc) (wf_ram _ Hc))
    as (s' & E & Hwf & Hh & Hr & _). cbv zeta. rewrite E.
  destruct (run_spec s') as (k & Erun & Hk & _).
  exists (Z.of_nat k), (run_steps k (run_start s')).
  split; [now rewrite Erun|]. split; [lia|].
  assert (Hs : wf_state (run_start s')).
  { destruct Hwf. unfold run_start. constructor; fields; assumption. }
  split; [now apply run_steps_wf|].
  destruct (run_steps_keeps k (run_start s')) as (K2 & K1 & _). rewrite K1, K2.
  unfold run_start. fields. now split.
Qed.

(** The theorem at an image of 16 + 32768 bytes 0xEA (NOP). *)
Lemma main_with_full_image_witness :
  exists i s,
    main (Readable (replicate (Z.to_nat (0x10 + 0x8000)) 0xEA))
         (mkUninitialised 0 [] false false false false false false)
    = Some (i, s)
    /\ 0 <= i <= 1000 /\ wf_state s.
Proof.
  destruct (main_with_full_image
              (replicate (Z.to_nat (0x10 + 0x8000)) 0xEA)
              (mkUninitialised 0 [] false false false false false false))
    as (i & s & E & Hi & Hwf & _).
  - apply forallb_byteb. vm_compute. reflexivity.
  - vm_compute. discriminate.
  - exists i, s. exact (conj E (conj Hi Hwf)).
Defined.

(** X8: When the ROM file cannot be opened or read, [reset] writes its line
    and returns, and [main] runs all the same: from the zeroed memory it
    executes BRK 1000 times, 7 cycles each, and never halts. *)
Theorem main_without_rom_file (u : uninitialised) :
  let outcome file :=
    option_map (fun r => (fst r, _cpuHalted (snd r), _cycleCount (snd r),
                          _programCounter (snd r), cerr (snd r)))
               (main file u) in
  outcome CannotOpen
  = Some (1000, false, 7000, 0, [FailedToOpenROM "5_Instructions1.nes"])
  /\ outcome CannotRead
     = Some (1000, false, 7000, 0, [FailedToReadROM "5_Instructions1.nes"]).
Proof. split; vm_compute; reflexivity. Qed.

(** ** The stack *)

Lemma pushStack_eq (v : Z) (s : NESemulator) :
  byte (_stackPointer s) ->
  pushStack v s
  = set_stackPointer (uint8 (_stackPointer s - 1))
      (set_ram (store (_ram s) (0x0100 + _stackPointer s) v) s).
Proof.
  intros H. unfold pushStack, writeMemory. now rewrite stack_address.
Qed.

Lemma pullStack_eq (s : NESemulator) :
  pullStack s
  = (cell (_ram s) (0x0100 + uint8 (_stackPointer s + 1)),
     set_stackPointer (uint8 (_stackPointer s + 1)) s).
Proof.
  unfold pullStack. fields.
  pose proof (uint8_range (_stackPointer s + 1)) as H. unfold byte in H.
  rewrite readMemory_ram.
  - unfold ushort. rewrite Z.mod_small by lia. reflexivity.
  - unfold ushort. rewrite Z.mod_small by lia. lia.
Qed.

Lemma pushAll_fields (l : list Z) :
  forall s, byte (_stackPointer s) ->
    _stackPointer (pushAll l s) = uint8 (_stackPointer s - Z.of_nat (length l))
    /\ length (_ram (pushAll l s)) = length (_ram s)
    /\ forall k, byte k ->
         (forall j, 0 <= j < Z.of_nat (length l) ->
                    k <> uint8 (_stackPointer s - j)) ->
         cell (_ram (pushAll l s)) (0x0100 + k) = cell (_ram s) (0x0100 + k).
Proof.
  induction l as [|v l IH]; intros s Hsp.
  - cbn [pushAll length]. rewrite Z.sub_0_r, uint8_byte by assumption.
    repeat split.
  - cbn [pushAll]. rewrite pushStack_eq by assumption.
    set (s1 := set_stackPointer _ _).
    assert (Hsp1 : byte (_stackPointer s1)) by apply uint8_range.
    destruct (IH s1 Hsp1) as (I1 & I2 & I3).
    assert (E1 : _stackPointer s1 = uint8 (_stackPointer s - 1)) by reflexivity.
    assert (E2 : _ram s1 = store (_ram s) (0x0100 + _stackPointer s) v)
      by reflexivity.
    rewrite I1, I2, E1, E2, store_length.
    cbn [length]. rewrite Nat2Z.inj_succ.
    split; [|split; [reflexivity|]].
    + unfold uint8. rewrite Zminus_mod_idemp_l. f_equal. lia.
    + intros k Hk Hfree. rewrite I3.
      * rewrite E2. apply cell_store_ne; unfold byte in *; try lia.
        specialize (Hfree 0 ltac:(lia)). rewrite Z.sub_0_r in Hfree.
        rewrite uint8_byte in Hfree by assumption. lia.
      * exact Hk.
      * intros j Hj. rewrite E1.
        specialize (Hfree (j + 1) ltac:(lia)).
        unfold uint8 in *. rewrite Zminus_mod_idemp_l.
        replace (_stackPointer s - 1 - j) with (_stackPointer s - (j + 1))
          by lia. exact Hfree.
Qed.

Lemma pullN_fields (n : nat) :
  forall s, byte (_stackPointer s) ->
    _ram (snd (pullN n s)) = _ram s
    /\ _stackPointer (snd (pullN n s)) = uint8 (_stackPointer s + Z.of_nat n).
Proof.
  induction n as [|n IH]; intros s Hsp.
  - cbn [pullN snd]. rewrite Z.add_0_r, uint8_byte by assumption. now split.
  - cbn [pullN]. rewrite pullStack_eq.
    set (s1 := set_stackPointer _ s).
    destruct (IH s1 (uint8_range _)) as [I1 I2].
    destruct (pullN n s1) as [vs s2]. cbn [snd] in *.
    rewrite I1, I2. subst s1. fields. split; [reflexivity|].
    unfold uint8. rewrite Zplus_mod_idemp_l. f_equal. lia.
Qed.

Lemma pullN_app (n m : nat) :
  forall s,
    pullN (n + m) s
    = let '(a, s1) := pullN n s in
      let '(b, s2) := pullN m s1 in ((a ++ b)%list, s2).
Proof.
  induction n as [|n IH]; intros s.
  - cbn [pullN Nat.add]. now destruct (pullN m s).
  - cbn [pullN Nat.add]. destruct (pullStack s) as [v s1].
    rewrite IH. destruct (pullN n s1) as [a s2].
    now destruct (pullN m s2).
Qed.

Lemma stack_index_restored (sp n : Z) :
  byte sp -> uint8 (uint8 (uint8 (uint8 (sp - 1) - n) + n) + 1) = sp.
Proof.
  unfold byte, uint8. intros H.
  rewrite Zplus_mod_idemp_l, <- Z.add_assoc, Zplus_mod_idemp_l.
  replace ((sp - 1) mod 256 - n + (n + 1)) with ((sp - 1) mod 256 + 1) by lia.
  rewrite Zplus_mod_idemp_l.
  replace (sp - 1 + 1) with sp by lia. now apply Z.mod_small.
Qed.

Lemma stack_slot_free (sp j : Z) :
  byte sp -> 0 <= j < 255 -> sp <> uint8 (uint8 (sp - 1) - j).
Proof.
  unfold byte, uint8. intros H Hj. rewrite Zminus_mod_idemp_l.
  Z.div_mod_to_equations. lia.
Qed.

(** X9: Stack round trip: after pushing up to 256 bytes, pulling as many
    returns them in reverse order and leaves the stack pointer where it was,
    wherever it started (the pointer wraps from 0x00 to 0xFF). *)
Theorem push_pull_round_trip (l : list Z) (s : NESemulator) :
  byte (_stackPointer s) ->
  Z.of_nat (length (_ram s)) = 0x800 ->
  (length l <= 256)%nat ->
  fst (pullN (length l) (pushAll l s)) = rev l
  /\ _stackPointer (snd (pullN (length l) (pushAll l s))) = _stackPointer s.
Proof.
  revert s. induction l as [|v l IH]; intros s Hsp Hlen Hl; [now split|].
  cbn [pushAll length rev]. rewrite <- Nat.add_1_r, pullN_app.
  rewrite pushStack_eq by assumption.
  set (s1 := set_stackPointer _ _).
  assert (Hsp1 : byte (_stackPointer s1)) by apply uint8_range.
  assert (Hlen1 : Z.of_nat (length (_ram s1)) = 0x800)
    by (subst s1; fields; now rewrite store_length).
  cbn [length] in Hl.
  destruct (IH s1 Hsp1 Hlen1 ltac:(lia)) as [IH1 _].
  destruct (pushAll_fields l s1 Hsp1) as (P1 & P2 & P3).
  destruct (pullN_fields (length l) (pushAll l s1)) as [N1 N2].
  { rewrite P1. apply uint8_range. }
  destruct (pullN (length l) (pushAll l s1)) as [a s2]. cbn [fst snd] in *.
  cbn [pullN]. rewrite pullStack_eq. cbn [fst snd]. fields.
  rewrite IH1, N1, N2, P1.
  assert (E1 : _stackPointer s1 = uint8 (_stackPointer s - 1)) by reflexivity.
  rewrite E1, stack_index_restored by assumption.
  split; [|reflexivity]. f_equal. f_equal.
  rewrite P3.
  - subst s1. fields. apply cell_store_eq. unfold byte in *. lia.
  - exact Hsp.
  - intros j Hj. rewrite E1. apply stack_slot_free; [exact Hsp | lia].
Qed.

(** The theorem at three bytes pushed with the stack pointer at 0x01, so
    that the third push wraps to 0xFF. *)
Lemma push_pull_round_trip_witness :
  let s := set_stackPointer 0x01 (machine [] [] 0x8000) in
  fst (pullN 3 (pushAll [0x11; 0x22; 0x33] s)) = [0x33; 0x22; 0x11]
  /\ _stackPointer (snd (pullN 3 (pushAll [0x11; 0x22; 0x33] s))) = 0x01.
Proof.
  apply (push_pull_round_trip [0x11; 0x22; 0x33]
           (set_stackPointer 0x01 (machine [] [] 0x8000))).
  - unfold byte. cbn. lia.
  - vm_compute. reflexivity.
  - cbn. lia.
Defined.

(** With 257 pushes the first byte is overwritten by the last. *)
Example push_257_overwrites :
  let l := 0xAA :: replicate 255 0 ++ [0xBB] in
  last (fst (pullN 257 (pushAll l (machine [] [] 0x8000)))) = Some 0xBB.
Proof. vm_compute. reflexivity. Qed.

(** ** Push and pull instructions *)

(** The state in which a case starts, field by field. *)
Lemma fetch_fields (s : NESemulator) :
  let s0 := incPC (snd (readMemory (_programCounter s) s)) in
  _programCounter s0 = ushort (_programCounter s + 1)
  /\ _A s0 = _A s /\ _X s0 = _X s /\ _Y s0 = _Y s
  /\ _stackPointer s0 = _stackPointer s
  /\ _ram s0 = _ram s /\ _rom s0 = _rom s
  /\ _cycleCount s0 = _cycleCount s
  /\ _flagCarry s0 = _flagCarry s /\ _flagZero s0 = _flagZero s
  /\ _flagInterruptDisable s0 = _flagInterruptDisable s
  /\ _flagDecimal s0 = _flagDecimal s
  /\ _flagOverflow s0 = _flagOverflow s
  /\ _flagNegative s0 = _flagNegative s.
Proof. reads; repeat split. Qed.

Lemma PHA_fields (s : NESemulator) :
  let s' := handleOpcode 0x48 s in
  _ram s' = store (_ram s) (ushort (0x0100 + _stackPointer s) mod 0x800) (_A s)
  /\ _stackPointer s' = uint8 (_stackPointer s - 1)
  /\ _A s' = _A s
  /\ _programCounter s' = _programCounter s
  /\ _cycleCount s' = _cycleCount s + 3.
Proof. change (handleOpcode 0x48 s) with (PHA s). unfold PHA. fields. repeat split. Qed.

Lemma PLA_fields (s : NESemulator) :
  let s' := handleOpcode 0x68 s in
  let v := fst (readMemory (ushort (0x0100 + uint8 (_stackPointer s + 1))) s) in
  _A s' = v
  /\ _stackPointer s' = uint8 (_stackPointer s + 1)
  /\ _flagZero s' = (v =? 0)
  /\ _flagNegative s' = (v >? 127)
  /\ _programCounter s' = _programCounter s
  /\ _cycleCount s' = _cycleCount s + 4.
Proof. change (handleOpcode 0x68 s) with (PLA s). unfold PLA. reads; repeat split. Qed.

(** X10: PHA then PLA, as two consecutive instructions: the accumulator and
    the stack pointer are as before, Zero and Negative describe the
    accumulator, and the pair costs 3 + 4 cycles. *)
Theorem PHA_PLA_round_trip (s : NESemulator) :
  byte (_stackPointer s) ->
  Z.of_nat (length (_ram s)) = 0x800 ->
  fst (readMemory (_programCounter s) s) = 0x48 ->
  let s1 := emulateCPU s in
  fst (readMemory (_programCounter s1) s1) = 0x68 ->
  let s2 := emulateCPU s1 in
  _A s2 = _A s
  /\ _stackPointer s2 = _stackPointer s
  /\ _flagZero s2 = (_A s =? 0)
  /\ _flagNegative s2 = (_A s >? 127)
  /\ _programCounter s2 = ushort (_programCounter s + 2)
  /\ _cycleCount s2 = _cycleCount s + 7.
Proof.
  intros Hsp Hlen Hop s1 Hop1 s2.
  assert (E1 : s1 = handleOpcode 0x48
                      (incPC (snd (readMemory (_programCounter s) s))))
    by (subst s1; now rewrite emulateCPU_fetch, Hop).
  assert (E2 : s2 = handleOpcode 0x68
                      (incPC (snd (readMemory (_programCounter s1) s1))))
    by (subst s2; now rewrite emulateCPU_fetch, Hop1).
  destruct (fetch_fields s) as (F1 & FA & _ & _ & Fsp & F4 & _ & F6 & _).
  cbv zeta in F1, FA, Fsp, F4, F6.
  destruct (PHA_fields (incPC (snd (readMemory (_programCounter s) s))))
    as (P1 & P2 & P3 & P4 & P5).
  cbv zeta in P1, P2, P3, P4, P5. rewrite <- E1 in P1, P2, P3, P4, P5.
  rewrite Fsp, F4, FA in P1. rewrite Fsp in P2. rewrite FA in P3.
  rewrite F1 in P4. rewrite F6 in P5.
  rewrite stack_address in P1 by assumption.
  destruct (fetch_fields s1) as (G1 & _ & _ & _ & Gsp & G4 & G5 & G6 & _).
  cbv zeta in G1, Gsp, G4, G5, G6.
  destruct (PLA_fields (incPC (snd (readMemory (_programCounter s1) s1))))
    as (L1 & L2 & L3 & L4 & L5 & L6).
  cbv zeta in L1, L2, L3, L4, L5, L6. rewrite <- E2 in L1, L2, L3, L4, L5, L6.
  rewrite Gsp, P2 in L1, L2, L3, L4.
  rewrite uint8_pred_succ, (uint8_byte _ Hsp) in L1, L2, L3, L4.
  rewrite (readMemory_value _ _ s1 G4 G5) in L1, L3, L4.
  assert (A1 : ushort (0x0100 + _stackPointer s) = 0x0100 + _stackPointer s)
    by (unfold ushort, byte in *; apply Z.mod_small; lia).
  rewrite A1, readMemory_ram in L1, L3, L4 by (unfold byte in *; lia).
  cbn [fst] in L1, L3, L4.
  assert (V : cell (_ram s1) (0x0100 + _stackPointer s) = _A s)
    by (rewrite P1; apply cell_store_eq; unfold byte in *; lia).
  rewrite V in L1, L3, L4.
  rewrite G1, P4, ushort_plus_2 in L5. rewrite G6, P5 in L6.
  repeat match goal with |- _ /\ _ => split end;
    try assumption. lia.
Qed.

(** The theorem at a ROM with PHA and PLA at 0x8000 and A = 0x80. *)
Lemma PHA_PLA_round_trip_witness :
  let s := set_A 0x80 (machine [] [0x48; 0x68] 0x8000) in
  _A (emulateCPU (emulateCPU s)) = 0x80
  /\ _stackPointer (emulateCPU (emulateCPU s)) = 0xFD.
Proof.
  intros s.
  assert (Hsp : byte (_stackPointer s)) by (change (byte 0xFD); unfold byte; lia).
  assert (Hlen : Z.of_nat (length (_ram s)) = 0x800) by (vm_compute; reflexivity).
  assert (H1 : fst (readMemory (_programCounter s) s) = 0x48)
    by (vm_compute; reflexivity).
  assert (H2 : fst (readMemory (_programCounter (emulateCPU s)) (emulateCPU s))
               = 0x68) by (vm_compute; reflexivity).
  destruct (PHA_PLA_round_trip s Hsp Hlen H1 H2) as (HA & HS & _).
  split; [exact HA | exact HS].
Defined.

Lemma status_bits (n v d i z c : bool) :
  let status := status_byte n v d i z c in
  (nonzero (status .& 0x80), nonzero (status .& 0x40),
   nonzero (status .& 0x08), nonzero (status .& 0x04),
   nonzero (status .& 0x02), nonzero (status .& 0x01)) = (n, v, d, i, z, c)
  /\ status .& 0x30 = 0x30.
Proof. destruct n, v, d, i, z, c; vm_compute; split; reflexivity. Qed.

Lemma PHP_fields (s : NESemulator) :
  let s' := handleOpcode 0x08 s in
  _ram s'
  = store (_ram s) (ushort (0x0100 + _stackPointer s) mod 0x800)
      (status_byte (_flagNegative s) (_flagOverflow s) (_flagDecimal s)
         (_flagInterruptDisable s) (_flagZero s) (_flagCarry s))
  /\ _stackPointer s' = uint8 (_stackPointer s - 1)
  /\ flags s' = flags s
  /\ _programCounter s' = _programCounter s
  /\ _cycleCount s' = _cycleCount s + 3.
Proof.
  change (handleOpcode 0x08 s) with (PHP s). unfold PHP, flags. fields.
  repeat split.
Qed.

Lemma PLP_fields (s : NESemulator) :
  let s' := handleOpcode 0x28 s in
  let status :=
    fst (readMemory (ushort (0x0100 + uint8 (_stackPointer s + 1))) s) in
  flags s'
  = (nonzero (status .& 0x80), nonzero (status .& 0x40),
     nonzero (status .& 0x08), nonzero (status .& 0x04),
     nonzero (status .& 0x02), nonzero (status .& 0x01))
  /\ _stackPointer s' = uint8 (_stackPointer s + 1)
  /\ _programCounter s' = _programCounter s
  /\ _cycleCount s' = _cycleCount s + 4.
Proof.
  change (handleOpcode 0x28 s) with (PLP s). unfold PLP, flags.
  reads; repeat split.
Qed.

Lemma fetch_flags (s : NESemulator) :
  flags (incPC (snd (readMemory (_programCounter s) s))) = flags s.
Proof. unfold flags. reads; reflexivity. Qed.

(** X11: PHP then PLP, as two consecutive instructions: the byte pushed has
    bits 4 and 5 set, and all six flags and the stack pointer are as before. *)
Theorem PHP_PLP_round_trip (s : NESemulator) :
  byte (_stackPointer s) ->
  Z.of_nat (length (_ram s)) = 0x800 ->
  fst (readMemory (_programCounter s) s) = 0x08 ->
  let s1 := emulateCPU s in
  fst (readMemory (_programCounter s1) s1) = 0x28 ->
  let s2 := emulateCPU s1 in
  cell (_ram s1) (0x0100 + _stackPointer s) .& 0x30 = 0x30
  /\ flags s1 = flags s
  /\ flags s2 = flags s
  /\ _stackPointer s2 = _stackPointer s
  /\ _cycleCount s2 = _cycleCount s + 7.
Proof.
  intros Hsp Hlen Hop s1 Hop1 s2.
  assert (E1 : s1 = handleOpcode 0x08
                      (incPC (snd (readMemory (_programCounter s) s))))
    by (subst s1; now rewrite emulateCPU_fetch, Hop).
  assert (E2 : s2 = handleOpcode 0x28
                      (incPC (snd (readMemory (_programCounter s1) s1))))
    by (subst s2; now rewrite emulateCPU_fetch, Hop1).
  destruct (fetch_fields s)
    as (_ & _ & _ & _ & Fsp & F4 & _ & F6 & Fc & Fz & Fi & Fd & Fv & Fn).
  cbv zeta in Fsp, F4, F6, Fc, Fz, Fi, Fd, Fv, Fn.
  destruct (PHP_fields (incPC (snd (readMemory (_programCounter s) s))))
    as (P1 & P2 & P3 & _ & P5).
  cbv zeta in P1, P2, P3, P5. rewrite <- E1 in P1, P2, P3, P5.
  rewrite Fsp, F4, Fc, Fz, Fi, Fd, Fv, Fn in P1. rewrite Fsp in P2.
  rewrite fetch_flags in P3. rewrite F6 in P5.
  rewrite stack_address in P1 by assumption.
  destruct (fetch_fields s1) as (_ & _ & _ & _ & Gsp & G4 & G5 & G6 & _).
  cbv zeta in Gsp, G4, G5, G6.
  destruct (PLP_fields (incPC (snd (readMemory (_programCounter s1) s1))))
    as (L1 & L2 & _ & L4).
  cbv zeta in L1, L2, L4. rewrite <- E2 in L1, L2, L4.
  rewrite Gsp, P2 in L1, L2.
  rewrite uint8_pred_succ, (uint8_byte _ Hsp) in L1, L2.
  rewrite (readMemory_value _ _ s1 G4 G5) in L1.
  assert (A1 : ushort (0x0100 + _stackPointer s) = 0x0100 + _stackPointer s)
    by (unfold ushort, byte in *; apply Z.mod_small; lia).
  rewrite A1, readMemory_ram in L1 by (unfold byte in *; lia).
  cbn [fst] in L1.
  assert (V : cell (_ram s1) (0x0100 + _stackPointer s)
              = status_byte (_flagNegative s) (_flagOverflow s)
                  (_flagDecimal s) (_flagInterruptDisable s) (_flagZero s)
                  (_flagCarry s))
    by (rewrite P1; apply cell_store_eq; unfold byte in *; lia).
  rewrite V in L1 |- *.
  destruct (status_bits (_flagNegative s) (_flagOverflow s) (_flagDecimal s)
              (_flagInterruptDisable s) (_flagZero s) (_flagCarry s))
    as [B1 B2]. cbv zeta in B1, B2.
  rewrite B1 in L1. rewrite G6, P5 in L4.
  split; [exact B2|]. split; [exact P3|]. split; [exact L1|].
  split; [exact L2|]. lia.
Qed.

(** The theorem at a ROM with PHP and PLP at 0x8000, with Carry and
    Negative set. *)
Lemma PHP_PLP_round_trip_witness :
  let s := set_flagCarry true
             (set_flagNegative true (machine [] [0x08; 0x28] 0x8000)) in
  flags (emulateCPU (emulateCPU s)) = (true, false, false, true, false, true).
Proof.
  intros s.
  assert (Hsp : byte (_stackPointer s)) by (change (byte 0xFD); unfold byte; lia).
  assert (Hlen : Z.of_nat (length (_ram s)) = 0x800) by (vm_compute; reflexivity).
  assert (H1 : fst (readMemory (_programCounter s) s) = 0x08)
    by (vm_compute; reflexivity).
  assert (H2 : fst (readMemory (_programCounter (emulateCPU s)) (emulateCPU s))
               = 0x28) by (vm_compute; reflexivity).
  destruct (PHP_PLP_round_trip s Hsp Hlen H1 H2) as (_ & _ & HF & _).
  exact HF.
Defined.

(** ** BRK and RTI *)

Lemma BRK_fields (s : NESemulator) :
  let s' := handleOpcode 0x00 s in
  let returnPC := ushort (_programCounter s + 1) in
  let sp := _stackPointer s in
  let sp1 := uint8 (sp - 1) in
  let sp2 := uint8 (sp1 - 1) in
  _ram s'
  = store (store (store (_ram s) (ushort (0x0100 + sp) mod 0x800)
                    (uint8 (returnPC >> 8)))
             (ushort (0x0100 + sp1) mod 0x800) (uint8 (returnPC .& 0xFF)))
      (ushort (0x0100 + sp2) mod 0x800)
      (status_byte (_flagNegative s) (_flagOverflow s) (_flagDecimal s)
         (_flagInterruptDisable s) (_flagZero s) (_flagCarry s))
  /\ _stackPointer s' = uint8 (sp2 - 1)
  /\ flags s'
     = (_flagNegative s, _flagOverflow s, _flagDecimal s, true,
        _flagZero s, _flagCarry s)
  /\ _programCounter s'
     = ushort ((cell (_rom s) 0x7FFF << 8) .| cell (_rom s) 0x7FFE)
  /\ _rom s' = _rom s
  /\ _cycleCount s' = _cycleCount s + 7.
Proof.
  change (handleOpcode 0x00 s) with (BRK s). unfold BRK, flags, readMemory.
  change (0xFFFE <? 0x800) with false. change (0xFFFF <? 0x800) with false.
  change (0x8000 <=? 0xFFFE) with true. change (0x8000 <=? 0xFFFF) with true.
  fields. repeat split.
Qed.

Lemma RTI_fields (s : NESemulator) :
  let s' := handleOpcode 0x40 s in
  let sp1 := uint8 (_stackPointer s + 1) in
  let sp2 := uint8 (sp1 + 1) in
  let sp3 := uint8 (sp2 + 1) in
  let status := fst (readMemory (ushort (0x0100 + sp1)) s) in
  let tempLow := fst (readMemory (ushort (0x0100 + sp2)) s) in
  let tempHigh := fst (readMemory (ushort (0x0100 + sp3)) s) in
  flags s'
  = (nonzero (status .& 0x80), nonzero (status .& 0x40),
     nonzero (status .& 0x08), nonzero (status .& 0x04),
     nonzero (status .& 0x02), nonzero (status .& 0x01))
  /\ _stackPointer s' = sp3
  /\ _programCounter s' = ushort ((tempHigh << 8) .| tempLow)
  /\ _cycleCount s' = _cycleCount s + 6.
Proof.
  change (handleOpcode 0x40 s) with (RTI s). unfold RTI, flags.
  reads; repeat split.
Qed.

Lemma stack_read (t : NESemulator) (k : Z) :
  byte k ->
  fst (readMemory (ushort (0x0100 + k)) t) = cell (_ram t) (0x0100 + k).
Proof.
  intros H. unfold byte, ushort in *. rewrite Z.mod_small by lia.
  rewrite readMemory_ram by lia. reflexivity.
Qed.

(** X12: BRK at address p sets InterruptDisable, jumps through the vector at
    0xFFFE and moves the stack pointer down by three. An RTI executed later,
    with the stack pointer where BRK left it and the three stack slots
    intact, restores the six flags as they were before the BRK and the stack
    pointer, and continues at p + 2: the byte after the BRK is skipped. *)
Theorem BRK_RTI_round_trip (s t : NESemulator) :
  byte (_stackPointer s) ->
  Z.of_nat (length (_ram s)) = 0x800 ->
  let p := _programCounter s in
  fst (readMemory p s) = 0x00 ->
  let sp := _stackPointer s in
  let s1 := emulateCPU s in
  _programCounter s1
  = ushort ((cell (_rom s) 0x7FFF << 8) .| cell (_rom s) 0x7FFE)
  /\ _flagInterruptDisable s1 = true
  /\ _stackPointer s1 = uint8 (sp - 3)
  /\ (fst (readMemory (_programCounter t) t) = 0x40 ->
      _stackPointer t = _stackPointer s1 ->
      cell (_ram t) (0x0100 + sp) = cell (_ram s1) (0x0100 + sp) ->
      cell (_ram t) (0x0100 + uint8 (sp - 1))
      = cell (_ram s1) (0x0100 + uint8 (sp - 1)) ->
      cell (_ram t) (0x0100 + uint8 (sp - 2))
      = cell (_ram s1) (0x0100 + uint8 (sp - 2)) ->
      _programCounter (emulateCPU t) = ushort (p + 2)
      /\ _stackPointer (emulateCPU t) = sp
      /\ flags (emulateCPU t) = flags s).
Proof.
  intros Hsp Hlen p Hop sp s1.
  assert (E1 : s1 = handleOpcode 0x00 (incPC (snd (readMemory p s))))
    by (subst s1; rewrite emulateCPU_fetch; fold p; now rewrite Hop).
  destruct (fetch_fields s)
    as (F1 & _ & _ & _ & Fsp & F4 & F5 & _ & Fc & Fz & Fi & Fd & Fv & Fn).
  cbv zeta in F1, Fsp, F4, F5, Fc, Fz, Fi, Fd, Fv, Fn.
  fold p in F1, Fsp, F4, F5, Fc, Fz, Fi, Fd, Fv, Fn.
  destruct (BRK_fields (incPC (snd (readMemory p s))))
    as (B1 & B2 & B3 & B4 & _).
  cbv zeta in B1, B2, B3, B4. rewrite <- E1 in B1, B2, B3, B4.
  rewrite F5 in B4.
  rewrite F1, Fsp, F4, Fc, Fz, Fi, Fd, Fv, Fn in B1.
  rewrite Fsp in B2. rewrite Fc, Fz, Fd, Fv, Fn in B3.
  fold sp in B1, B2.
  rewrite ushort_plus_2 in B1.
  set (ret := ushort (p + 2)) in *.
  set (status := status_byte _ _ _ _ _ _) in B1.
  assert (Hsp1 : byte (uint8 (sp - 1))) by apply uint8_range.
  assert (Hsp2 : byte (uint8 (uint8 (sp - 1) - 1))) by apply uint8_range.
  rewrite !stack_address in B1 by assumption.
  assert (Hret : 0 <= ret < 65536) by apply ushort_range.
  rewrite (uint8_byte (ret >> 8)) in B1 by now apply high_byte_range.
  rewrite (uint8_byte (ret .& 0xFF)) in B1 by apply low_byte_range.
  rewrite uint8_pred_pred in B1, Hsp2.
  assert (B2' : _stackPointer s1 = uint8 (sp - 3)).
  { rewrite B2, uint8_pred_pred. unfold uint8.
    rewrite Zminus_mod_idemp_l. f_equal. lia. }
  assert (D : sp <> uint8 (sp - 1) /\ sp <> uint8 (sp - 2)
              /\ uint8 (sp - 1) <> uint8 (sp - 2)).
  { subst sp. unfold byte, uint8 in *. Z.div_mod_to_equations. lia. }
  destruct D as (D1 & D2 & D3).
  assert (Hl1 : forall a i v, Z.of_nat (length (store a i v))
                              = Z.of_nat (length a))
    by (intros; now rewrite store_length).
  assert (C1 : cell (_ram s1) (0x0100 + sp) = ret >> 8).
  { rewrite B1. unfold byte in *. rewrite !cell_store_ne by lia.
    apply cell_store_eq. lia. }
  assert (C2 : cell (_ram s1) (0x0100 + uint8 (sp - 1)) = ret .& 0xFF).
  { rewrite B1. unfold byte in *. rewrite cell_store_ne by lia.
    apply cell_store_eq. rewrite Hl1. lia. }
  assert (C3 : cell (_ram s1) (0x0100 + uint8 (sp - 2)) = status).
  { rewrite B1. apply cell_store_eq. rewrite !Hl1. unfold byte in *. lia. }
  split; [exact B4|]. split; [now injection B3|].
  split; [exact B2'|].
  intros Hop' Hsp' Hc1 Hc2 Hc3.
  rewrite emulateCPU_fetch, Hop'.
  destruct (fetch_fields t) as (_ & _ & _ & _ & Gsp & G4 & G5 & _).
  cbv zeta in Gsp, G4, G5.
  destruct (RTI_fields (incPC (snd (readMemory (_programCounter t) t))))
    as (R1 & R2 & R3 & _).
  cbv zeta in R1, R2, R3. rewrite Gsp, Hsp', B2' in R1, R2, R3.
  assert (S1 : uint8 (uint8 (sp - 3) + 1) = uint8 (sp - 2)).
  { unfold uint8. rewrite Zplus_mod_idemp_l. f_equal. lia. }
  assert (S2 : uint8 (uint8 (sp - 2) + 1) = uint8 (sp - 1)).
  { unfold uint8. rewrite Zplus_mod_idemp_l. f_equal. lia. }
  assert (S3 : uint8 (uint8 (sp - 1) + 1) = sp).
  { rewrite uint8_pred_succ. now apply uint8_byte. }
  rewrite S1 in R1, R2, R3. rewrite S2, S3 in R2, R3.
  rewrite (readMemory_value _ _ t G4 G5) in R1.
  rewrite !(readMemory_value _ _ t G4 G5) in R3.
  rewrite stack_read in R1 by assumption.
  rewrite !stack_read in R3 by assumption.
  rewrite Hc3, C3 in R1. rewrite Hc1, Hc2, C1, C2, join_bytes in R3.
  subst status.
  destruct (status_bits (_flagNegative s) (_flagOverflow s) (_flagDecimal s)
              (_flagInterruptDisable s) (_flagZero s) (_flagCarry s))
    as [T1 _]. cbv zeta in T1. rewrite T1 in R1.
  split; [|split; [exact R2 | exact R1]].
  rewrite R3. subst ret. apply ushort_idem.
Qed.

(** The theorem at [interrupt_return]: BRK at 0x8000 enters the handler at
    0x8002, whose RTI returns to 0x8002 with the flags of the start. *)
Lemma BRK_RTI_round_trip_witness :
  _programCounter (emulateCPU interrupt_return) = 0x8002
  /\ _programCounter (emulateCPU (emulateCPU interrupt_return)) = 0x8002
  /\ flags (emulateCPU (emulateCPU interrupt_return))
     = (false, false, false, true, false, false).
Proof.
  assert (Hsp : byte (_stackPointer interrupt_return))
    by (change (byte 0xFD); unfold byte; lia).
  assert (Hlen : Z.of_nat (length (_ram interrupt_return)) = 0x800)
    by (vm_compute; reflexivity).
  assert (Hop : fst (readMemory (_programCounter interrupt_return)
                       interrupt_return) = 0x00)
    by (vm_compute; reflexivity).
  destruct (BRK_RTI_round_trip interrupt_return (emulateCPU interrupt_return)
              Hsp Hlen Hop) as (Hpc & _ & _ & Hrti).
  split.
  - rewrite Hpc. vm_compute. reflexivity.
  - destruct Hrti as (Hret & _ & Hfl);
      [vm_compute; reflexivity | reflexivity | reflexivity | reflexivity
      | reflexivity |].
    split; [rewrite Hret; vm_compute; reflexivity | exact Hfl].
Defined.

(** ** Writes and reads *)

(** X13: A write at any address goes to the RAM cell [address mod 0x800],
    also for addresses from 0x0800 on, which reads do not map to RAM: a read
    below 0x0800 sees the value at the cell written and the old contents
    elsewhere, and reads from ROM are never affected. *)
Theorem write_then_read (a b v : Z) (s : NESemulator) :
  Z.of_nat (length (_ram s)) = 0x800 ->
  let s' := writeMemory a v s in
  (0 <= b < 0x800 ->
   fst (readMemory b s')
   = if b =? a mod 0x800 then v else fst (readMemory b s))
  /\ (0x8000 <= b -> fst (readMemory b s') = fst (readMemory b s))
  /\ _rom s' = _rom s
  /\ length (_ram s') = length (_ram s).
Proof.
  intros Hlen s'. subst s'. unfold writeMemory.
  assert (Hm : 0 <= a mod 0x800 < 0x800) by (apply Z.mod_pos_bound; lia).
  split; [|split; [|split]].
  - intros Hb. rewrite !readMemory_ram by lia. cbn [fst]. fields.
    destruct (Z.eqb_spec b (a mod 0x800)) as [->|Hne].
    + apply cell_store_eq. lia.
    + apply cell_store_ne; lia.
  - intros Hb. rewrite !readMemory_rom by lia. reflexivity.
  - reflexivity.
  - fields. apply store_length.
Qed.

Lemma write_then_read_witness :
  fst (readMemory 0x0005 (writeMemory 0x8005 0x2A call_return)) = 0x2A
  /\ fst (readMemory 0x8005 (writeMemory 0x8005 0x2A call_return)) = 0x60.
Proof.
  assert (Hlen : Z.of_nat (length (_ram call_return)) = 0x800)
    by (vm_compute; reflexivity).
  destruct (write_then_read 0x8005 0x0005 0x2A call_return Hlen)
    as (Hram & _ & _ & _).
  destruct (write_then_read 0x8005 0x8005 0x2A call_return Hlen)
    as (_ & Hrom & _ & _).
  split.
  - rewrite Hram by lia. reflexivity.
  - rewrite Hrom by lia. vm_compute. reflexivity.
Defined.

(** ** Branches *)

Lemma int8_signed (x : Z) : byte x -> int8 x = signed x.
Proof. intros H. unfold int8, signed. now rewrite (uint8_byte x H). Qed.

Lemma operand_read (s : NESemulator) :
  let p := _programCounter s in
  let s0 := incPC (snd (readMemory p s)) in
  fst (readMemory (_programCounter s0) s0) = fst (readMemory (ushort (p + 1)) s).
Proof.
  destruct (fetch_fields s) as (F1 & _ & _ & _ & _ & F4 & F5 & _).
  cbv zeta in *. rewrite F1. now apply readMemory_value.
Qed.

Ltac branch_case :=
  unfold flags, registers, signed, signExtend;
  reads; cbn [negb] in *; try discriminate;
  rewrite ?ushort_add_l; repeat split; try (intros _; lia); try congruence.

Lemma branch_step (opcode : Z) (s : NESemulator) (taken : bool) :
  branch_condition opcode s = Some taken ->
  let offset := fst (readMemory (_programCounter s) s) in
  let s' := handleOpcode opcode s in
  _programCounter s'
  = (if taken
     then ushort (_programCounter s + 1
                  + (if opcode =? 0xD0 then int8 offset else signed offset))
     else ushort (_programCounter s + 1))
  /\ flags s' = flags s /\ registers s' = registers s /\ _ram s' = _ram s
  /\ (opcode <> 0xD0 ->
      _cycleCount s' = _cycleCount s + (if taken then 5 else 4)).
Proof.
  unfold branch_condition.
  destruct (Z.eqb_spec opcode 0x10) as [->|_];
    [intros [= <-]; change (handleOpcode 0x10 s) with (BPL s); unfold BPL;
     branch_case|].
  destruct (Z.eqb_spec opcode 0x30) as [->|_];
    [intros [= <-]; change (handleOpcode 0x30 s) with (BMI s); unfold BMI;
     branch_case|].
  destruct (Z.eqb_spec opcode 0x50) as [->|_];
    [intros [= <-]; change (handleOpcode 0x50 s) with (BVC s); unfold BVC;
     branch_case|].
  destruct (Z.eqb_spec opcode 0x70) as [->|_];
    [intros [= <-]; change (handleOpcode 0x70 s) with (BVS s); unfold BVS;
     branch_case|].
  destruct (Z.eqb_spec opcode 0x90) as [->|_];
    [intros [= <-]; change (handleOpcode 0x90 s) with (BCC s); unfold BCC;
     branch_case|].
  destruct (Z.eqb_spec opcode 0xB0) as [->|_];
    [intros [= <-]; change (handleOpcode 0xB0 s) with (BCS s); unfold BCS;
     branch_case|].
  destruct (Z.eqb_spec opcode 0xD0) as [->|_];
    [intros [= <-]; change (handleOpcode 0xD0 s) with (BNE s); unfold BNE;
     branch_case|].
  destruct (Z.eqb_spec opcode 0xF0) as [->|_];
    [intros [= <-]; change (handleOpcode 0xF0 s) with (BEQ s); unfold BEQ;
     branch_case|].
  discriminate.
Qed.

(** X14: Each of the eight branch opcodes, BNE with its [int8_t] cast as the
    seven others with their comparison against 127, continues at the address
    after its two bytes plus the offset read as a signed byte when its
    condition holds, and at the address after its two bytes otherwise;
    flags, registers and RAM are as before. Apart from BNE a branch costs 5
    cycles when taken and 4 when not. *)
Theorem branch_target (opcode : Z) (s : NESemulator) (taken : bool) :
  let p := _programCounter s in
  fst (readMemory p s) = opcode ->
  branch_condition opcode s = Some taken ->
  let offset := fst (readMemory (ushort (p + 1)) s) in
  byte offset ->
  let s' := emulateCPU s in
  _programCounter s'
  = (if taken then ushort (p + 2 + signed offset) else ushort (p + 2))
  /\ flags s' = flags s /\ registers s' = registers s /\ _ram s' = _ram s
  /\ (opcode <> 0xD0 ->
      _cycleCount s' = _cycleCount s + (if taken then 5 else 4)).
Proof.
  intros p Hop Hc offset Hb s'. subst s'. rewrite emulateCPU_fetch. fold p.
  rewrite Hop.
  destruct (fetch_fields s)
    as (F1 & FA & FX & FY & Fsp & F4 & F5 & F6 & Fc & Fz & Fi & Fd & Fv & Fn).
  cbv zeta in F1, FA, FX, FY, Fsp, F4, F5, F6, Fc, Fz, Fi, Fd, Fv, Fn.
  fold p in F1, FA, FX, FY, Fsp, F4, F5, F6, Fc, Fz, Fi, Fd, Fv, Fn.
  pose proof (operand_read s) as Ho. cbv zeta in Ho. fold p offset in Ho.
  set (s0 := incPC (snd (readMemory p s))) in *.
  assert (Hc0 : branch_condition opcode s0 = Some taken).
  { rewrite <- Hc. unfold branch_condition. now rewrite Fc, Fz, Fv, Fn. }
  destruct (branch_step opcode s0 taken Hc0) as (B1 & B2 & B3 & B4 & B5).
  cbv zeta in B1, B2, B3, B4, B5.
  rewrite Ho, F1 in B1. rewrite F6 in B5.
  rewrite B1, B2, B3, B4. unfold flags, registers.
  rewrite FA, FX, FY, Fsp, F4, Fc, Fz, Fi, Fd, Fv, Fn.
  split; [|now repeat split].
  rewrite (int8_signed offset Hb).
  destruct taken; [|apply ushort_plus_2].
  destruct (opcode =? 0xD0);
    replace (ushort (p + 1) + 1 + signed offset)
      with (ushort (p + 1) + (1 + signed offset)) by lia;
    rewrite ushort_add_l; f_equal; lia.
Qed.

(** The theorem at a BNE at address 0 with offset
    0xFE: a branch to itself. *)
Lemma branch_target_witness :
  _programCounter (emulateCPU (machine [0xD0; 0xFE] [] 0)) = 0.
Proof.
  assert (Hop : fst (readMemory (_programCounter (machine [0xD0; 0xFE] [] 0))
                       (machine [0xD0; 0xFE] [] 0)) = 0xD0)
    by (vm_compute; reflexivity).
  assert (Hc : branch_condition 0xD0 (machine [0xD0; 0xFE] [] 0) = Some true)
    by reflexivity.
  assert (Hb : byte (fst (readMemory
                            (ushort (_programCounter
                                       (machine [0xD0; 0xFE] [] 0) + 1))
                            (machine [0xD0; 0xFE] [] 0))))
    by (vm_compute; split; [discriminate | reflexivity]).
  destruct (branch_target 0xD0 (machine [0xD0; 0xFE] [] 0) true Hop Hc Hb)
    as [Hpc _].
  rewrite Hpc. vm_compute. reflexivity.
Defined.

(** ** Compares *)

Lemma bit7 (x : Z) : byte x -> nonzero (x .& 0x80) = (128 <=? x).
Proof.
  intros H.
  apply Bool.eqb_prop.
  apply (forall_bytes (fun x => Bool.eqb (nonzero (x .& 0x80)) (128 <=? x)));
    [vm_compute; reflexivity | exact H].
Qed.

Lemma compare_step (opcode : Z) (s : NESemulator) (r : Z) :
  compared_register opcode s = Some r ->
  let v := fst (readMemory (_programCounter s) s) in
  let s' := handleOpcode opcode s in
  _flagCarry s' = (r >=? v) /\ _flagZero s' = (r =? v)
  /\ _flagNegative s'
     = (if opcode =? 0xC9 then nonzero (uint8 (r - v) .& 0x80)
        else r - v >? 127)
  /\ registers s' = registers s
  /\ _programCounter s' = ushort (_programCounter s + 1)
  /\ _cycleCount s' = _cycleCount s + 2.
Proof.
  unfold compared_register, registers.
  destruct (Z.eqb_spec opcode 0xC9) as [->|_];
    [intros [= <-]; change (handleOpcode 0xC9 s) with (CMP_Immediate s);
     unfold CMP_Immediate, opCMP; reads; repeat split|].
  destruct (Z.eqb_spec opcode 0xE0) as [->|_];
    [intros [= <-]; change (handleOpcode 0xE0 s) with (CPX_Immediate s);
     unfold CPX_Immediate; reads; repeat split|].
  destruct (Z.eqb_spec opcode 0xC0) as [->|_];
    [intros [= <-]; change (handleOpcode 0xC0 s) with (CPY_Immediate s);
     unfold CPY_Immediate; reads; repeat split|].
  discriminate.
Qed.

(** X15: CMP, CPX and CPY with an immediate operand v against the register
    r: Carry is r >= v and Zero is r = v for all three. Negative is bit 7 of
    the 8-bit difference for CMP; CPX and CPY test the difference before it
    is reduced to 8 bits, so their Negative is that bit only when r >= v,
    and is clear whenever r < v. *)
Theorem compare_immediate_flags (opcode : Z) (s : NESemulator) (r : Z) :
  let p := _programCounter s in
  fst (readMemory p s) = opcode ->
  compared_register opcode s = Some r ->
  let v := fst (readMemory (ushort (p + 1)) s) in
  byte r -> byte v ->
  let s' := emulateCPU s in
  _flagCarry s' = (v <=? r)
  /\ _flagZero s' = (r =? v)
  /\ _flagNegative s'
     = (128 <=? (r - v) mod 256) && ((opcode =? 0xC9) || (v <=? r))
  /\ registers s' = registers s
  /\ _programCounter s' = ushort (p + 2)
  /\ _cycleCount s' = _cycleCount s + 2.
Proof.
  intros p Hop Hr v Hbr Hbv s'. subst s'. rewrite emulateCPU_fetch. fold p.
  rewrite Hop.
  destruct (fetch_fields s)
    as (F1 & FA & FX & FY & Fsp & _ & _ & F6 & _).
  cbv zeta in F1, FA, FX, FY, Fsp, F6. fold p in F1, FA, FX, FY, Fsp, F6.
  pose proof (operand_read s) as Ho. cbv zeta in Ho. fold p v in Ho.
  set (s0 := incPC (snd (readMemory p s))) in *.
  assert (Hr0 : compared_register opcode s0 = Some r).
  { rewrite <- Hr. unfold compared_register. now rewrite FA, FX, FY. }
  destruct (compare_step opcode s0 r Hr0) as (C1 & C2 & C3 & C4 & C5 & C6).
  cbv zeta in C1, C2, C3, C4, C5, C6.
  rewrite Ho in C1, C2, C3. rewrite F1 in C5. rewrite F6 in C6.
  rewrite C1, C2, C3, C4, C5, C6. unfold registers.
  rewrite FA, FX, FY, Fsp, ushort_plus_2.
  split; [apply Z.geb_leb|]. split; [reflexivity|].
  split; [|now repeat split].
  rewrite (bit7 _ (uint8_range _)). unfold uint8.
  destruct (opcode =? 0xC9); [now rewrite andb_true_r|]. cbn [orb].
  unfold byte in *.
  destruct (Z.leb_spec v r) as [Hle|Hlt].
  - rewrite andb_true_r, Z.mod_small by lia.
    destruct (Z.gtb_spec (r - v) 127), (Z.leb_spec 128 (r - v));
      (reflexivity || lia).
  - rewrite andb_false_r. destruct (Z.gtb_spec (r - v) 127); [lia|reflexivity].
Qed.

(** The theorem at CPX #$01 with X = 0: the 8-bit difference is 0xFF, and
    Negative is clear. *)
Lemma compare_immediate_flags_witness :
  _flagNegative (emulateCPU (machine [0xE0; 0x01] [] 0)) = false.
Proof.
  assert (Hop : fst (readMemory (_programCounter (machine [0xE0; 0x01] [] 0))
                       (machine [0xE0; 0x01] [] 0)) = 0xE0)
    by (vm_compute; reflexivity).
  assert (Hr : compared_register 0xE0 (machine [0xE0; 0x01] [] 0) = Some 0)
    by reflexivity.
  assert (Hbr : byte 0) by (unfold byte; lia).
  assert (Hbv : byte (fst (readMemory
                             (ushort (_programCounter
                                        (machine [0xE0; 0x01] [] 0) + 1))
                             (machine [0xE0; 0x01] [] 0))))
    by (vm_compute; split; [discriminate | reflexivity]).
  destruct (compare_immediate_flags 0xE0 (machine [0xE0; 0x01] [] 0) 0
              Hop Hr Hbr Hbv) as (_ & _ & Hn & _).
  rewrite Hn. vm_compute. reflexivity.
Defined.

(** ** Zero and Negative *)

Lemma gt_127 (x : Z) : (x >? 127) = (128 <=? x).
Proof. destruct (Z.gtb_spec x 127), (Z.leb_spec 128 x); (reflexivity || lia). Qed.

Lemma shifted_right_small (x : Z) : byte x -> false = (128 <=? uint8 (x >> 1)).
Proof.
  intros H. symmetry. apply negb_true_iff.
  apply (forall_bytes (fun x => negb (128 <=? uint8 (x >> 1))));
    [vm_compute; reflexivity | exact H].
Qed.

Ltac each_pair H :=
  cbn [In] in H;
  repeat (destruct H as [H' | H]; [injection H' as <- <-|]); [..|destruct H].

Lemma result_flags_step (opcode : Z) (r : NESemulator -> Z) (s : NESemulator) :
  In (opcode, r) result_registers ->
  byte (_A s) ->
  byte (r (handleOpcode opcode s)) ->
  let s' := handleOpcode opcode s in
  _flagZero s' = (r s' =? 0) /\ _flagNegative s' = (128 <=? r s').
Proof.
  intros H HA. unfold result_registers in H.
  each_pair H; cbv beta iota delta [handleOpcode]; autounfold with cases;
    intros Hb; reads; (split; [reflexivity|]);
    first [ reflexivity | apply gt_127 | apply bit7; exact Hb
          | apply shifted_right_small; exact HA ].
Qed.

(** X16: After each of the 37 cases that leave their result in A, X or Y and
    set the two flags from it (see [result_registers]), Zero tells whether
    that register is 0 and Negative whether its bit 7 is set, whichever of
    the two tests of the source, [> 127] or [& 0x80], the case uses; LSR on
    A, which clears Negative outright, included. *)
Theorem zero_and_negative_follow_result
  (opcode : Z) (r : NESemulator -> Z) (s : NESemulator) :
  In (opcode, r) result_registers ->
  wf_state s ->
  fst (readMemory (_programCounter s) s) = opcode ->
  let s' := emulateCPU s in
  byte (r s')
  /\ _flagZero s' = (r s' =? 0)
  /\ _flagNegative s' = (128 <=? r s').
Proof.
  intros H Hwf Hop s'. subst s'. rewrite emulateCPU_fetch, Hop.
  pose proof (fetch_wf s Hwf) as Hwf0.
  set (s0 := incPC (snd (readMemory (_programCounter s) s))) in *.
  pose proof (handleOpcode_wf opcode s0 Hwf0) as Hwf'.
  assert (Hb : byte (r (handleOpcode opcode s0))).
  { unfold result_registers in H.
    each_pair H; first [apply (wf_A _ Hwf') | apply (wf_X _ Hwf')
                       | apply (wf_Y _ Hwf')]. }
  split; [exact Hb|].
  exact (result_flags_step opcode r s0 H (wf_A _ Hwf0) Hb).
Qed.

(** The theorem at LDA #$80 in a state whose memory holds bytes. *)
Lemma zero_and_negative_follow_result_witness :
  _flagZero (emulateCPU (machine [0xA9; 0x80] [] 0)) = false
  /\ _flagNegative (emulateCPU (machine [0xA9; 0x80] [] 0)) = true.
Proof.
  assert (H : In (0xA9, _A) result_registers) by (left; reflexivity).
  assert (Hwf : wf_state (machine [0xA9; 0x80] [] 0))
    by (apply wf_stateb_wf; vm_compute; reflexivity).
  assert (Hop : fst (readMemory (_programCounter (machine [0xA9; 0x80] [] 0))
                       (machine [0xA9; 0x80] [] 0)) = 0xA9)
    by (vm_compute; reflexivity).
  destruct (zero_and_negative_follow_result 0xA9 _A
              (machine [0xA9; 0x80] [] 0) H Hwf Hop) as (_ & Hz & Hn).
  split; [rewrite Hz | rewrite Hn]; vm_compute; reflexivity.
Defined.

(** ** The trace *)

Lemma run_body_cout (s : NESemulator) :
  cout (run_body s)
  = (if _loggingEnabled s then trace_line s :: cout s else cout s)
  /\ _loggingEnabled (run_body s) = _loggingEnabled s.
Proof.
  unfold run_body, trace_line.
  pose proof (readMemory_frame (_programCounter s) s) as F. cbv zeta in F.
  destruct (readMemory (_programCounter s) s) as [op s1]. cbn [fst snd] in *.
  destruct F as (F1 & F2 & F3 & F4 & _ & _ & _ & _ & F9 & F10 & F11 & F12
                 & F13 & F14 & F15 & _ & F17 & F18 & F19).
  destruct (emulateCPU_keeps (traceLog op s1))
    as (_ & _ & _ & K4 & _ & _ & _ & K8).
  rewrite K4, K8. unfold traceLog. rewrite F19.
  destruct (_loggingEnabled s); cbn [negb]; fields; [|now split].
  now rewrite F1, F2, F3, F4, F9, F10, F11, F12, F13, F14, F15, F17, F18, F19.
Qed.

Lemma run_steps_cout (n : nat) :
  forall s,
    cout (run_steps n s)
    = ((if _loggingEnabled s then trace n s else []) ++ cout s)%list
    /\ _loggingEnabled (run_steps n s) = _loggingEnabled s.
Proof.
  induction n as [|n IH]; intros s.
  - cbn [run_steps trace]. now destruct (_loggingEnabled s).
  - cbn [run_steps trace]. destruct (IH (run_body s)) as [I1 I2].
    destruct (run_body_cout s) as [B1 B2].
    rewrite I1, I2, B1, B2. split; [|reflexivity].
    destruct (_loggingEnabled s); [|reflexivity].
    now rewrite <- app_assoc.
Qed.

Lemma trace_length (n : nat) : forall s, length (trace n s) = n.
Proof.
  induction n as [|n IH]; intros s; [reflexivity|]. cbn [trace].
  rewrite length_app, IH. cbn. lia.
Qed.

(** X17: What [run] writes to the output stream: the start line and then,
    with logging enabled, one trace line for each iteration performed,
    showing the registers, flags and cycle count before that iteration's
    step; nothing else, whatever the program does. *)
Theorem run_output (s : NESemulator) :
  let k := Z.to_nat (fst (run s)) in
  let lines := if _loggingEnabled s then trace k (run_start s) else [] in
  cout (snd (run s)) = (lines ++ StartingEmulator :: cout s)%list
  /\ Z.of_nat (length lines) = (if _loggingEnabled s then fst (run s) else 0).
Proof.
  destruct (run_spec s) as (k & E & _). rewrite E. cbn [fst snd].
  rewrite Nat2Z.id.
  destruct (run_steps_cout k (run_start s)) as [C _].
  rewrite C. unfold run_start at 1 3 4. fields.
  split; [reflexivity|].
  destruct (_loggingEnabled s); [|reflexivity]. now rewrite trace_length.
Qed.

(** ** Cases that leave the RAM alone *)

Lemma handleOpcode_ram (opcode : Z) (s : NESemulator) :
  writes_ram opcode = false -> _ram (handleOpcode opcode s) = _ram s.
Proof.
  intros Hw. destruct (has_case opcode) eqn:H.
  - apply has_case_In in H. unfold case_labels in H. each_in H;
      try discriminate Hw;
      cbv beta iota delta [handleOpcode]; autounfold with cases;
      reads; reflexivity.
  - rewrite handleOpcode_default by exact H. reflexivity.
Qed.

(** X18: A step changes the RAM only if its opcode is one of the 25 that
    store, push or modify memory: after every other opcode, with or without
    a case, the RAM is as before. *)
Theorem only_writers_change_ram (s : NESemulator) :
  writes_ram (fst (readMemory (_programCounter s) s)) = false ->
  _ram (emulateCPU s) = _ram s.
Proof.
  intros H. rewrite emulateCPU_fetch, handleOpcode_ram by exact H.
  now destruct (fetch_fields s) as (_ & _ & _ & _ & _ & F & _).
Qed.

(** The theorem at the JMP of [spin]. *)
Lemma only_writers_change_ram_witness : _ram (emulateCPU spin) = _ram spin.
Proof. apply (only_writers_change_ram spin). vm_compute. reflexivity. Defined.

(** ** Rotations of a zero-page byte *)

Lemma ROL_ZeroPage_fields (s : NESemulator) :
  let zp := fst (readMemory (_programCounter s) s) in
  let v := fst (readMemory zp s) in
  let s' := handleOpcode 0x26 s in
  _ram s' = store (_ram s) (zp mod 0x800) (rol v (_flagCarry s))
  /\ _flagCarry s' = nonzero (v .& 0x80)
  /\ _cycleCount s' = _cycleCount s + 5.
Proof.
  change (handleOpcode 0x26 s) with (ROL_ZeroPage s).
  unfold ROL_ZeroPage, rol. reads; repeat split.
Qed.

Lemma ROR_ZeroPage_fields (s : NESemulator) :
  let zp := fst (readMemory (_programCounter s) s) in
  let v := fst (readMemory zp s) in
  let s' := handleOpcode 0x66 s in
  _ram s' = store (_ram s) (zp mod 0x800) (ror v (_flagCarry s))
  /\ _flagCarry s' = nonzero (v .& 1)
  /\ _flagZero s' = (ror v (_flagCarry s) =? 0)
  /\ _flagNegative s' = (ror v (_flagCarry s) >? 127)
  /\ _cycleCount s' = _cycleCount s + 5.
Proof.
  change (handleOpcode 0x66 s) with (ROR_ZeroPage s).
  unfold ROR_ZeroPage, ror. reads; repeat split.
Qed.

Lemma ror_rol (v : Z) (c : bool) :
  byte v ->
  ror (rol v c) (nonzero (v .& 0x80)) = v /\ nonzero (rol v c .& 1) = c.
Proof.
  intros H.
  pose proof (forall_byte_pairs
                (fun a _ c => (ror (rol a c) (nonzero (a .& 0x80)) =? a)
                              && Bool.eqb (nonzero (rol a c .& 1)) c)) as P.
  specialize (P ltac:(vm_compute; reflexivity) v 0 c H byte_0).
  cbv beta in P. apply andb_prop in P. destruct P as [P1 P2].
  split; [now apply Z.eqb_eq | now apply Bool.eqb_prop].
Qed.

Lemma read_byte (a : Z) (s : NESemulator) :
  wf_state s -> byte (fst (readMemory a s)).
Proof.
  intros H. unfold readMemory.
  destruct (a <? 0x800); [apply cell_byte, (wf_ram _ H)|].
  destruct (a >=? 0x8000); [apply cell_byte, (wf_rom _ H) | apply byte_0].
Qed.

Lemma store_store (a : list Z) (i x y : Z) :
  store (store a i x) i y = store a i y.
Proof. unfold store. apply list_insert_insert_eq. Qed.

Lemma store_cell (a : list Z) (i : Z) :
  0 <= i < Z.of_nat (length a) -> store a i (cell a i) = a.
Proof.
  intros H. unfold store, cell. apply list_insert_id.
  rewrite nth_lookup.
  destruct (lookup_lt_is_Some_2 a (Z.to_nat i) ltac:(lia)) as [x E].
  now rewrite E.
Qed.

(** X19: ROL on a zero-page byte followed by ROR on the same byte, as two
    consecutive instructions: the RAM and Carry are as before, Zero and
    Negative describe the byte, and the pair costs 5 + 5 cycles. The two
    cases compute their results differently (ROL with one cast, ROR with a
    conditional [|= 0x80]). *)
Theorem ROL_ROR_round_trip (s : NESemulator) :
  wf_state s ->
  let p := _programCounter s in
  fst (readMemory p s) = 0x26 ->
  let zp := fst (readMemory (ushort (p + 1)) s) in
  let s1 := emulateCPU s in
  fst (readMemory (_programCounter s1) s1) = 0x66 ->
  fst (readMemory (ushort (_programCounter s1 + 1)) s1) = zp ->
  let s2 := emulateCPU s1 in
  _ram s2 = _ram s
  /\ _flagCarry s2 = _flagCarry s
  /\ _flagZero s2 = (cell (_ram s) zp =? 0)
  /\ _flagNegative s2 = (cell (_ram s) zp >? 127)
  /\ _cycleCount s2 = _cycleCount s + 10.
Proof.
  intros Hwf p Hop zp s1 Hop1 Hzp1 s2.
  assert (Hzp : byte zp) by now apply read_byte.
  pose proof (wf_ram_length _ Hwf) as Hlen.
  assert (Hv : byte (cell (_ram s) zp)) by apply cell_byte, (wf_ram _ Hwf).
  assert (E1 : s1 = handleOpcode 0x26 (incPC (snd (readMemory p s))))
    by (subst s1; rewrite emulateCPU_fetch; fold p; now rewrite Hop).
  assert (E2 : s2 = handleOpcode 0x66
                      (incPC (snd (readMemory (_programCounter s1) s1))))
    by (subst s2; now rewrite emulateCPU_fetch, Hop1).
  destruct (fetch_fields s)
    as (_ & _ & _ & _ & _ & F4 & F5 & F6 & Fc & _).
  cbv zeta in F4, F5, F6, Fc. fold p in F4, F5, F6, Fc.
  pose proof (operand_read s) as Ho. cbv zeta in Ho. fold p zp in Ho.
  destruct (ROL_ZeroPage_fields (incPC (snd (readMemory p s))))
    as (L1 & L2 & L3).
  cbv zeta in L1, L2, L3. rewrite <- E1, Ho in L1, L2. rewrite <- E1 in L3.
  rewrite (readMemory_value zp _ s F4 F5) in L1, L2.
  unfold byte in Hzp.
  rewrite (readMemory_ram zp s) in L1, L2 by lia. cbn [fst] in L1, L2.
  rewrite F4, Fc, Z.mod_small in L1 by lia. rewrite F6 in L3.
  set (v := cell (_ram s) zp) in *.
  destruct (fetch_fields s1)
    as (_ & _ & _ & _ & _ & G4 & G5 & G6 & Gc & _).
  cbv zeta in G4, G5, G6, Gc.
  pose proof (operand_read s1) as Ho1. cbv zeta in Ho1. rewrite Hzp1 in Ho1.
  destruct (ROR_ZeroPage_fields
              (incPC (snd (readMemory (_programCounter s1) s1))))
    as (R1 & R2 & R3 & R4 & R5).
  cbv zeta in R1, R2, R3, R4, R5.
  rewrite <- E2, Ho1 in R1, R2, R3, R4. rewrite <- E2 in R5.
  rewrite (readMemory_value zp _ s1 G4 G5) in R1, R2, R3, R4.
  rewrite (readMemory_ram zp s1) in R1, R2, R3, R4 by lia.
  cbn [fst] in R1, R2, R3, R4.
  rewrite G4, Gc, Z.mod_small in R1 by lia. rewrite Gc in R3, R4.
  rewrite G6, L3 in R5.
  assert (C1 : cell (_ram s1) zp = rol v (_flagCarry s))
    by (rewrite L1; apply cell_store_eq; lia).
  rewrite C1 in R1, R2, R3, R4. rewrite L2 in R1, R3, R4.
  destruct (ror_rol v (_flagCarry s) Hv) as [Q1 Q2].
  rewrite Q1 in R1, R3, R4. rewrite Q2 in R2.
  rewrite L1, store_store in R1. unfold v in R1.
  rewrite store_cell in R1 by lia.
  split; [exact R1|]. split; [exact R2|]. split; [exact R3|].
  split; [exact R4|]. rewrite R5. lia.
Qed.

(** The theorem at ROL $10, ROR $10 in RAM, with 0x81 in the cell 0x10. *)
Lemma ROL_ROR_round_trip_witness :
  let s := machine ([0x26; 0x10; 0x66; 0x10] ++ replicate 12 0 ++ [0x81]) [] 0 in
  _ram (emulateCPU (emulateCPU s)) = _ram s
  /\ _flagNegative (emulateCPU (emulateCPU s)) = true.
Proof.
  intros s.
  assert (Hwf : wf_state s) by (apply wf_stateb_wf; vm_compute; reflexivity).
  assert (Hop : fst (readMemory (_programCounter s) s) = 0x26)
    by (vm_compute; reflexivity).
  destruct (ROL_ROR_round_trip s Hwf Hop) as (Hram & _ & _ & Hn & _);
    [vm_compute; reflexivity | vm_compute; reflexivity |].
  split; [exact Hram|]. rewrite Hn. vm_compute. reflexivity.
Defined.
